(** * XCCL bootstrap and Level Zero device API: a shallow embedding

    The development follows two translation units of the repository:

    - [comms/torchcomms/xccl/TorchCommXCCLBootstrap.cpp]: the rendezvous
      coordinator (device assignment, unique-id exchange through a
      key-value store, hint translation, communicator creation and the
      closing barrier);
    - [comms/torchcomms/device/XpuApi.cpp]: the Level Zero backed device
      API: initialisation, device count and selection, memory, command
      lists and events.

    C++ exceptions are values of [exception], as are the two ways in which
    the process ends abnormally; member functions are state transformers
    over the object and the process; calls to the external collaborators
    (device API, collective backend, store) are recorded in a trace so
    that "what was called, and in which order" can be stated. *)

From Stdlib Require Import ZArith List String Ascii Bool Lia Permutation.
From Stdlib Require Strings.Byte.
From Stdlib Require Import DecimalString DecimalZ.
Import ListNotations.

Local Open Scope string_scope.
Local Open Scope Z_scope.

(** ** Machine integers *)

Module MachineInt.

Definition INT_MIN : Z := - 2 ^ 31.
Definition INT_MAX : Z := 2 ^ 31 - 1.
Definition UINT32_MOD : Z := 2 ^ 32.

Definition in_int (z : Z) : bool := (INT_MIN <=? z) && (z <=? INT_MAX).

(** Conversion of an integer value to [int] (two's complement). *)
Definition to_int (z : Z) : Z := (z + 2 ^ 31) mod 2 ^ 32 - 2 ^ 31.

(** Conversion to [uint32_t]. *)
Definition to_uint32 (z : Z) : Z := z mod UINT32_MOD.

(** [counter_++] on an [int]: the two's complement successor.  The C++
    standard leaves the step from [INT_MAX] undefined; the wrap-around
    written here is what the target hardware does. *)
Definition int_succ (z : Z) : Z := to_int (z + 1).

(** Conversion to [int8_t]. *)
Definition to_int8 (z : Z) : Z := (z + 2 ^ 7) mod 2 ^ 8 - 2 ^ 7.

(** [a % b] on [int]: the remainder of the truncating division.  It has
    no value when the divisor is zero, or when the quotient [INT_MIN / -1]
    does not fit: the behaviour of the program is then undefined, and on
    the target the division instruction traps. *)
Definition int_rem (a b : Z) : option Z :=
  if (b =? 0) || ((a =? INT_MIN) && (b =? -1)) then None else Some (Z.rem a b).

(** [std::to_string(int)]: decimal digits, a leading '-' when negative. *)
Definition to_string (z : Z) : string := NilEmpty.string_of_int (Z.to_int z).

(** The inverse reading of a decimal rendering. *)
Definition of_string (s : string) : option Z :=
  option_map Z.of_int (NilEmpty.int_of_string s).

End MachineInt.
Export MachineInt.

(** ** Exceptions *)

(** Status codes of the Level Zero API that the sources name. *)
Inductive ze_result_t : Type :=
| ZE_RESULT_SUCCESS
| ZE_RESULT_NOT_READY
| ZE_RESULT_ERROR_DEVICE_LOST
| ZE_RESULT_ERROR_OUT_OF_HOST_MEMORY
| ZE_RESULT_ERROR_OUT_OF_DEVICE_MEMORY
| ZE_RESULT_ERROR_UNINITIALIZED
| ZE_RESULT_ERROR_UNSUPPORTED_FEATURE
| ZE_RESULT_ERROR_INVALID_ARGUMENT
| ZE_RESULT_ERROR_INVALID_NULL_HANDLE
| ZE_RESULT_ERROR_INVALID_NULL_POINTER
| ZE_RESULT_ERROR_INVALID_SIZE
| ZE_RESULT_ERROR_UNSUPPORTED_SIZE
| ZE_RESULT_ERROR_UNSUPPORTED_ALIGNMENT
| ZE_RESULT_ERROR_UNKNOWN.

Definition ze_result_eqb (a b : ze_result_t) : bool :=
  match a, b with
  | ZE_RESULT_SUCCESS, ZE_RESULT_SUCCESS
  | ZE_RESULT_NOT_READY, ZE_RESULT_NOT_READY
  | ZE_RESULT_ERROR_DEVICE_LOST, ZE_RESULT_ERROR_DEVICE_LOST
  | ZE_RESULT_ERROR_OUT_OF_HOST_MEMORY, ZE_RESULT_ERROR_OUT_OF_HOST_MEMORY
  | ZE_RESULT_ERROR_OUT_OF_DEVICE_MEMORY, ZE_RESULT_ERROR_OUT_OF_DEVICE_MEMORY
  | ZE_RESULT_ERROR_UNINITIALIZED, ZE_RESULT_ERROR_UNINITIALIZED
  | ZE_RESULT_ERROR_UNSUPPORTED_FEATURE, ZE_RESULT_ERROR_UNSUPPORTED_FEATURE
  | ZE_RESULT_ERROR_INVALID_ARGUMENT, ZE_RESULT_ERROR_INVALID_ARGUMENT
  | ZE_RESULT_ERROR_INVALID_NULL_HANDLE, ZE_RESULT_ERROR_INVALID_NULL_HANDLE
  | ZE_RESULT_ERROR_INVALID_NULL_POINTER, ZE_RESULT_ERROR_INVALID_NULL_POINTER
  | ZE_RESULT_ERROR_INVALID_SIZE, ZE_RESULT_ERROR_INVALID_SIZE
  | ZE_RESULT_ERROR_UNSUPPORTED_SIZE, ZE_RESULT_ERROR_UNSUPPORTED_SIZE
  | ZE_RESULT_ERROR_UNSUPPORTED_ALIGNMENT, ZE_RESULT_ERROR_UNSUPPORTED_ALIGNMENT
  | ZE_RESULT_ERROR_UNKNOWN, ZE_RESULT_ERROR_UNKNOWN => true
  | _, _ => false
  end.

Definition is_success (r : ze_result_t) : bool := ze_result_eqb r ZE_RESULT_SUCCESS.

(** Result codes of the collective backend: success, or a failure code. *)
Inductive onecclResult_t : Type :=
| onecclSuccess
| onecclFailure (code : Z).

Definition oneccl_ok (r : onecclResult_t) : bool :=
  match r with onecclSuccess => true | onecclFailure _ => false end.

(** The ways in which a call does not return.  [xpu_check_failure] is the
    [std::runtime_error] raised by the [XPU_CHECK] macro: its message is
    [err_str], the text that the API's [getErrorString] returned for
    [status], and the source location.  [thrown_by_callee] stands for an
    exception that an external collaborator raised itself (a store
    timeout, for instance); [null_dereference] for a call through a null
    store handle.  The last two are not exceptions that a caller can
    catch, they end the process: [std_terminate] is the call of
    [std::terminate] made when an exception leaves a function that is
    [noexcept], and [integer_division_trap] is an integer division that
    has no value. *)
Inductive exception : Type :=
| runtime_error (what : string)
| xpu_check_failure (err_str : string) (status : ze_result_t)
| invalid_argument (what : string)
| out_of_range (what : string)
| thrown_by_callee (what : string)
| null_dereference
| std_terminate (uncaught : exception)
| integer_division_trap.

Definition ends_process (e : exception) : bool :=
  match e with
  | std_terminate _ | integer_division_trap => true
  | _ => false
  end.

(** ** Log records *)

Inductive severity : Type := INFO | WARNING | ERROR.

Definition LogRecord : Type := (severity * string)%type.

(** ** A state and exception monad *)

Module Exn.

Definition M (S A : Type) : Type := S -> (exception + A) * S.

Definition ret {S A} (a : A) : M S A := fun s => (inr a, s).

Definition bind {S A B} (m : M S A) (k : A -> M S B) : M S B :=
  fun s =>
    match m s with
    | (inr a, s') => k a s'
    | (inl e, s') => (inl e, s')
    end.

Definition throw {S A} (e : exception) : M S A := fun s => (inl e, s).

Definition gets {S A} (f : S -> A) : M S A := fun s => (inr (f s), s).

Definition modify {S} (f : S -> S) : M S unit := fun s => (inr tt, f s).

(** Run a computation on a component of the state. *)
Definition zoom {S T A} (proj : S -> T) (upd : T -> S -> S) (m : M T A) : M S A :=
  fun s => let (r, t') := m (proj s) in (r, upd t' s).

(** [for (x : xs) body]: the loop stops at the first exception. *)
Fixpoint foldM {S A B} (body : B -> A -> M S B) (xs : list A) (b : B) : M S B :=
  match xs with
  | [] => ret b
  | x :: xs' => bind (body b x) (foldM body xs')
  end.

Definition failed {A} (r : exception + A) : bool :=
  match r with inl _ => true | inr _ => false end.

(** A function that is [noexcept]: an exception that would leave it ends
    the process through [std::terminate]. *)
Definition noexcept {S A} (m : M S A) : M S A :=
  fun s =>
    match m s with
    | (inl e, s') => (inl (std_terminate e), s')
    | (inr a, s') => (inr a, s')
    end.

End Exn.
Import Exn.

Declare Scope exn_scope.
Delimit Scope exn_scope with exn.
Notation "x <- m ;; k" := (bind m (fun x => k))
  (at level 61, m at next level, right associativity) : exn_scope.
Notation "m ;;; k" := (bind m (fun _ => k))
  (at level 61, right associativity) : exn_scope.
Local Open Scope exn_scope.

(** ** [std::stoi] *)

Module Stoi.

(** [isspace] in the "C" locale. *)
Definition isspace (c : ascii) : bool :=
  let n := Z.of_nat (nat_of_ascii c) in
  (n =? 32) || ((9 <=? n) && (n <=? 13)).

Definition digit_of (c : ascii) : option Z :=
  let n := Z.of_nat (nat_of_ascii c) in
  if (48 <=? n) && (n <=? 57) then Some (n - 48) else None.

Fixpoint skip_spaces (s : string) : string :=
  match s with
  | String c s' => if isspace c then skip_spaces s' else s
  | EmptyString => s
  end.

(** The longest prefix of decimal digits, as a number; [None] when the
    string does not start with a digit. *)
Fixpoint read_digits (s : string) (acc : option Z) : option Z :=
  match s with
  | String c s' =>
      match digit_of c with
      | Some d =>
          read_digits s' (Some (10 * match acc with Some a => a | None => 0 end + d))
      | None => acc
      end
  | EmptyString => acc
  end.

(** The subject sequence [strtol] converts in base 10: white space, an
    optional sign, digits.  Anything after the digits is ignored. *)
Definition strtol (s : string) : option Z :=
  match skip_spaces s with
  | String "-" s' => option_map Z.opp (read_digits s' None)
  | String "+" s' => read_digits s' None
  | s' => read_digits s' None
  end.

(** [std::stoi(str)]: [std::invalid_argument] when no conversion could be
    performed, [std::out_of_range] when the value does not fit an [int]. *)
Definition stoi (s : string) : exception + Z :=
  match strtol s with
  | None => inl (invalid_argument "stoi")
  | Some z => if in_int z then inr z else inl (out_of_range "stoi")
  end.

Definition is_parse_error (e : exception) : bool :=
  match e with
  | invalid_argument _ | out_of_range _ => true
  | _ => false
  end.

End Stoi.
Export Stoi.

(** ** Backend configuration and hint translation *)

(** [str.c_str()] seen as a C string: the characters before the first NUL. *)
Fixpoint c_str (s : string) : string :=
  match s with
  | String c s' => if Ascii.eqb c Ascii.zero then EmptyString else String c (c_str s')
  | EmptyString => EmptyString
  end.

(** [strdup]: a fresh copy, character for character. *)
Definition strdup (s : string) : string := s.

(** The fields of [onecclConfig_t] that the bootstrap assigns.  The two
    [const char*] fields are [None] when null. *)
Record onecclConfig_t : Type := mkConfig {
  blocking : Z;
  cgaClusterSize : Z;
  minCTAs : Z;
  maxCTAs : Z;
  netName : option string;
  splitShare : Z;
  trafficClass : Z;
  commName : option string;
  collnetEnable : Z;
  CTAPolicy : Z;
  shrinkShare : Z;
  nvlsCTAs : Z;
  nChannelsPerNetPeer : Z;
  nvlinkCentricSched : Z
}.

Module Cfg.
Definition set_blocking v c :=
  mkConfig v (cgaClusterSize c) (minCTAs c) (maxCTAs c) (netName c) (splitShare c)
    (trafficClass c) (commName c) (collnetEnable c) (CTAPolicy c) (shrinkShare c)
    (nvlsCTAs c) (nChannelsPerNetPeer c) (nvlinkCentricSched c).
Definition set_cgaClusterSize v c :=
  mkConfig (blocking c) v (minCTAs c) (maxCTAs c) (netName c) (splitShare c)
    (trafficClass c) (commName c) (collnetEnable c) (CTAPolicy c) (shrinkShare c)
    (nvlsCTAs c) (nChannelsPerNetPeer c) (nvlinkCentricSched c).
Definition set_minCTAs v c :=
  mkConfig (blocking c) (cgaClusterSize c) v (maxCTAs c) (netName c) (splitShare c)
    (trafficClass c) (commName c) (collnetEnable c) (CTAPolicy c) (shrinkShare c)
    (nvlsCTAs c) (nChannelsPerNetPeer c) (nvlinkCentricSched c).
Definition set_maxCTAs v c :=
  mkConfig (blocking c) (cgaClusterSize c) (minCTAs c) v (netName c) (splitShare c)
    (trafficClass c) (commName c) (collnetEnable c) (CTAPolicy c) (shrinkShare c)
    (nvlsCTAs c) (nChannelsPerNetPeer c) (nvlinkCentricSched c).
Definition set_netName v c :=
  mkConfig (blocking c) (cgaClusterSize c) (minCTAs c) (maxCTAs c) v (splitShare c)
    (trafficClass c) (commName c) (collnetEnable c) (CTAPolicy c) (shrinkShare c)
    (nvlsCTAs c) (nChannelsPerNetPeer c) (nvlinkCentricSched c).
Definition set_splitShare v c :=
  mkConfig (blocking c) (cgaClusterSize c) (minCTAs c) (maxCTAs c) (netName c) v
    (trafficClass c) (commName c) (collnetEnable c) (CTAPolicy c) (shrinkShare c)
    (nvlsCTAs c) (nChannelsPerNetPeer c) (nvlinkCentricSched c).
Definition set_trafficClass v c :=
  mkConfig (blocking c) (cgaClusterSize c) (minCTAs c) (maxCTAs c) (netName c) (splitShare c)
    v (commName c) (collnetEnable c) (CTAPolicy c) (shrinkShare c)
    (nvlsCTAs c) (nChannelsPerNetPeer c) (nvlinkCentricSched c).
Definition set_commName v c :=
  mkConfig (blocking c) (cgaClusterSize c) (minCTAs c) (maxCTAs c) (netName c) (splitShare c)
    (trafficClass c) v (collnetEnable c) (CTAPolicy c) (shrinkShare c)
    (nvlsCTAs c) (nChannelsPerNetPeer c) (nvlinkCentricSched c).
Definition set_collnetEnable v c :=
  mkConfig (blocking c) (cgaClusterSize c) (minCTAs c) (maxCTAs c) (netName c) (splitShare c)
    (trafficClass c) (commName c) v (CTAPolicy c) (shrinkShare c)
    (nvlsCTAs c) (nChannelsPerNetPeer c) (nvlinkCentricSched c).
Definition set_CTAPolicy v c :=
  mkConfig (blocking c) (cgaClusterSize c) (minCTAs c) (maxCTAs c) (netName c) (splitShare c)
    (trafficClass c) (commName c) (collnetEnable c) v (shrinkShare c)
    (nvlsCTAs c) (nChannelsPerNetPeer c) (nvlinkCentricSched c).
Definition set_shrinkShare v c :=
  mkConfig (blocking c) (cgaClusterSize c) (minCTAs c) (maxCTAs c) (netName c) (splitShare c)
    (trafficClass c) (commName c) (collnetEnable c) (CTAPolicy c) v
    (nvlsCTAs c) (nChannelsPerNetPeer c) (nvlinkCentricSched c).
Definition set_nvlsCTAs v c :=
  mkConfig (blocking c) (cgaClusterSize c) (minCTAs c) (maxCTAs c) (netName c) (splitShare c)
    (trafficClass c) (commName c) (collnetEnable c) (CTAPolicy c) (shrinkShare c)
    v (nChannelsPerNetPeer c) (nvlinkCentricSched c).
Definition set_nChannelsPerNetPeer v c :=
  mkConfig (blocking c) (cgaClusterSize c) (minCTAs c) (maxCTAs c) (netName c) (splitShare c)
    (trafficClass c) (commName c) (collnetEnable c) (CTAPolicy c) (shrinkShare c)
    (nvlsCTAs c) v (nvlinkCentricSched c).
Definition set_nvlinkCentricSched v c :=
  mkConfig (blocking c) (cgaClusterSize c) (minCTAs c) (maxCTAs c) (netName c) (splitShare c)
    (trafficClass c) (commName c) (collnetEnable c) (CTAPolicy c) (shrinkShare c)
    (nvlsCTAs c) (nChannelsPerNetPeer c) v.
End Cfg.

(** [CommOptions::hints], in the order in which the loop visits it. *)
Definition Hints : Type := list (string * string).

Module HintTranslation.

(** [TC_LOG(sev) << msg]. *)
Definition TC_LOG (sev : severity) (msg : string) : M (list LogRecord) unit :=
  modify (fun l => (l ++ [(sev, msg)])%list).

Definition try_stoi (val : string) : M (list LogRecord) Z :=
  fun l => (stoi val, l).

(** An integer branch: [config.f = std::stoi(val)] and the INFO line that
    prints the assigned field. *)
Definition int_hint (name field : string) (set : Z -> onecclConfig_t -> onecclConfig_t)
    (val : string) (config : onecclConfig_t) : M (list LogRecord) onecclConfig_t :=
  v <- try_stoi val ;;
  TC_LOG INFO ("[comm=" ++ name ++ "] Setting config." ++ field ++ "=" ++ to_string v) ;;;
  ret (set v config).

(** A string branch: [config.f = strdup(val.c_str())] and its INFO line. *)
Definition str_hint (name field : string)
    (set : option string -> onecclConfig_t -> onecclConfig_t)
    (val : string) (config : onecclConfig_t) : M (list LogRecord) onecclConfig_t :=
  let copy := strdup (c_str val) in
  TC_LOG INFO ("[comm=" ++ name ++ "] Setting config." ++ field ++ "=" ++ copy) ;;;
  ret (set (Some copy) config).

Definition unsupported_hint_warning (key name : string) : string :=
  "XCCL hint '" ++ key ++ "' is not supported in this XCCL version, ignoring for comm '"
    ++ name ++ "'".

Definition key_eq (key lit : string) : bool := String.eqb key lit.

(** The body of the loop of [populateXcclConfigFromHints], one entry. *)
Definition hint_entry (name : string) (config : onecclConfig_t) (kv : string * string)
    : M (list LogRecord) onecclConfig_t :=
  let (key, val) := kv in
  if key_eq key "blocking" then
    int_hint name "blocking" Cfg.set_blocking val config
  else if key_eq key "cgaClusterSize" || key_eq key "cga_cluster_size" then
    int_hint name "cgaClusterSize" Cfg.set_cgaClusterSize val config
  else if key_eq key "minCTAs" || key_eq key "min_ctas" then
    int_hint name "minCTAs" Cfg.set_minCTAs val config
  else if key_eq key "maxCTAs" || key_eq key "max_ctas" then
    int_hint name "maxCTAs" Cfg.set_maxCTAs val config
  else if key_eq key "netName" then
    str_hint name "netName" Cfg.set_netName val config
  else if key_eq key "splitShare" || key_eq key "split_share" then
    int_hint name "splitShare" Cfg.set_splitShare val config
  else if key_eq key "trafficClass" || key_eq key "traffic_class" then
    int_hint name "trafficClass" Cfg.set_trafficClass val config
  else if key_eq key "commName" then
    str_hint name "commName" Cfg.set_commName val config
  else if key_eq key "collnetEnable" || key_eq key "collnet_enable" then
    int_hint name "collnetEnable" Cfg.set_collnetEnable val config
  else if key_eq key "CTAPolicy" || key_eq key "cta_policy" then
    int_hint name "CTAPolicy" Cfg.set_CTAPolicy val config
  else if key_eq key "shrinkShare" then
    int_hint name "shrinkShare" Cfg.set_shrinkShare val config
  else if key_eq key "nvlsCTAs" || key_eq key "nvls_ctas" then
    int_hint name "nvlsCTAs" Cfg.set_nvlsCTAs val config
  else if key_eq key "nChannelsPerNetPeer" || key_eq key "n_channels_per_net_peer" then
    int_hint name "nChannelsPerNetPeer" Cfg.set_nChannelsPerNetPeer val config
  else if key_eq key "nvlinkCentricSched" || key_eq key "nvlink_centric_sched" then
    int_hint name "nvlinkCentricSched" Cfg.set_nvlinkCentricSched val config
  else
    TC_LOG WARNING (unsupported_hint_warning key name) ;;;
    ret config.

(** [populateXcclConfigFromHints(config, options, name)]: the configuration
    is passed by reference and updated entry by entry. *)
Definition populateXcclConfigFromHints (config : onecclConfig_t) (hints : Hints)
    (name : string) : M (list LogRecord) onecclConfig_t :=
  foldM (hint_entry name) hints config.

(** The key literals that the loop compares against. *)
Definition integer_keys : list string :=
  [ "blocking"; "cgaClusterSize"; "cga_cluster_size"; "minCTAs"; "min_ctas";
    "maxCTAs"; "max_ctas"; "splitShare"; "split_share"; "trafficClass";
    "traffic_class"; "collnetEnable"; "collnet_enable"; "CTAPolicy"; "cta_policy";
    "shrinkShare"; "nvlsCTAs"; "nvls_ctas"; "nChannelsPerNetPeer";
    "n_channels_per_net_peer"; "nvlinkCentricSched"; "nvlink_centric_sched" ].

Definition string_keys : list string := [ "netName"; "commName" ].

Definition mem (key : string) (keys : list string) : bool :=
  existsb (String.eqb key) keys.

Definition integer_typed (key : string) : bool := mem key integer_keys.

Definition recognized (key : string) : bool :=
  mem key integer_keys || mem key string_keys.

End HintTranslation.
Export HintTranslation.

(** ** The bootstrap coordinator *)

Definition ptr : Type := Z.
Definition nullptr : ptr := 0.
Definition xpuStream_t : Type := Z.
Definition onecclComm_t : Type := Z.
Definition StoreHandle : Type := Z.
Definition bytes : Type := list Byte.byte.

(** [onecclUniqueId] is an opaque blob; it is handled through its bytes. *)
Definition onecclUniqueId : Type := bytes.

Inductive DeviceType : Type := kCPU | kCUDA | kXPU.

(** [c10::DeviceIndex], the type of the index of a [c10::Device]: c10
    declares it as [int8_t], outside these sources.  An [int] stored as an
    index is converted to it. *)
Definition to_DeviceIndex (z : Z) : Z := to_int8 z.

(** [c10::Device]: a device type and an index, -1 when no index was given.
    A device that a caller hands over has its index in that type already. *)
Record Device : Type := mkDevice { dev_type : DeviceType; dev_index : Z }.

(** The element type and the reduction that the barrier passes. *)
Inductive onecclDataType_t : Type := onecclFloat32.
Inductive onecclRedOp_t : Type := onecclSum.

(** Calls that cross the boundary of the component, in call order. *)
Inductive Event : Type :=
| XpuGetDeviceCount
| XpuSetDevice (device : Z)
| XpuMalloc (size : Z)
| XpuFree (p : ptr)
| XpuGetCurrentXPUStream (device_index : Z)
| XpuStreamSynchronize (stream : xpuStream_t)
| XpuGetErrorString (status : ze_result_t)
| XcclGetUniqueId
| XcclCommInitRankConfig (nranks : Z) (id : onecclUniqueId) (rank : Z)
    (config : onecclConfig_t)
| XcclAllReduce (sendbuf recvbuf : ptr) (count : Z) (datatype : onecclDataType_t)
    (op : onecclRedOp_t) (comm : onecclComm_t) (stream : xpuStream_t)
| XcclGetErrorString (r : onecclResult_t)
| StoreManagerGetStore (backend name : string) (timeout : Z)
| StoreSet (h : StoreHandle) (key : string) (value : bytes)
| StoreGet (h : StoreHandle) (key : string)
| StoreReset (h : StoreHandle).

Definition is_backend_call (ev : Event) : bool :=
  match ev with
  | XcclGetUniqueId | XcclCommInitRankConfig _ _ _ _ | XcclAllReduce _ _ _ _ _ _ _
  | XcclGetErrorString _ => true
  | _ => false
  end.

Definition is_comm_init (ev : Event) : bool :=
  match ev with XcclCommInitRankConfig _ _ _ _ => true | _ => false end.

(** The steps of [cleanupTCPStore]. *)
Definition is_teardown_step (ev : Event) : bool :=
  match ev with
  | StoreReset _ | XcclAllReduce _ _ _ _ _ _ _ | XpuGetCurrentXPUStream _
  | XpuStreamSynchronize _ => true
  | _ => false
  end.

(** The external collaborators, over a world [W] that they may read and
    change: [XpuApi], [XcclApi], [c10d::Store], [StoreManager] and
    [query_ranksize], and the constants of the backend headers. *)
Record Collaborators (W : Type) : Type := mkCollaborators {
  query_ranksize : W -> Z * Z;
  xpu_getDeviceCount : W -> (ze_result_t * Z) * W;
  xpu_setDevice : Z -> W -> ze_result_t * W;
  xpu_malloc : Z -> W -> (ze_result_t * ptr) * W;
  xpu_free : ptr -> W -> ze_result_t * W;
  xpu_getCurrentXPUStream : Z -> W -> xpuStream_t * W;
  xpu_streamSynchronize : xpuStream_t -> W -> ze_result_t * W;
  xpu_getErrorString : ze_result_t -> string;
  xccl_getUniqueId : W -> (onecclResult_t * onecclUniqueId) * W;
  xccl_commInitRankConfig :
    Z -> onecclUniqueId -> Z -> onecclConfig_t -> W -> (onecclResult_t * onecclComm_t) * W;
  xccl_allReduce :
    ptr -> ptr -> Z -> onecclDataType_t -> onecclRedOp_t -> onecclComm_t -> xpuStream_t ->
    W -> onecclResult_t * W;
  xccl_getErrorString : onecclResult_t -> string;
  store_set : StoreHandle -> string -> bytes -> W -> (exception + unit) * W;
  store_get : StoreHandle -> string -> W -> (exception + bytes) * W;
  StoreManager_getStore : string -> string -> Z -> W -> (exception + StoreHandle) * W;
  sizeof_onecclUniqueId : nat;
  XCCL_CONFIG_INITIALIZER : onecclConfig_t;
  kBackendName : string
}.

Arguments query_ranksize {W}.
Arguments xpu_getDeviceCount {W}.
Arguments xpu_setDevice {W}.
Arguments xpu_malloc {W}.
Arguments xpu_free {W}.
Arguments xpu_getCurrentXPUStream {W}.
Arguments xpu_streamSynchronize {W}.
Arguments xpu_getErrorString {W}.
Arguments xccl_getUniqueId {W}.
Arguments xccl_commInitRankConfig {W}.
Arguments xccl_allReduce {W}.
Arguments xccl_getErrorString {W}.
Arguments store_set {W}.
Arguments store_get {W}.
Arguments StoreManager_getStore {W}.
Arguments sizeof_onecclUniqueId {W}.
Arguments XCCL_CONFIG_INITIALIZER {W}.
Arguments kBackendName {W}.

(** What is shared by all coordinators of a process: the world, the
    environment variables, the static [counter_], and the observations. *)
Record Process (W : Type) : Type := mkProcess {
  world : W;
  getenv : string -> option string;
  counter_ : Z;
  trace : list Event;
  logs : list LogRecord
}.

Arguments mkProcess {W}.
Arguments world {W}.
Arguments getenv {W}.
Arguments counter_ {W}.
Arguments trace {W}.
Arguments logs {W}.

(** The data members of [TorchCommXCCLBootstrap]. *)
Record TorchCommXCCLBootstrap : Type := mkBootstrap {
  timeout_ : Z;
  store_ : option StoreHandle;
  created_internal_store_ : bool;
  device_ : Device;
  rank_ : Z;
  comm_size_ : Z;
  uniqueid_xchg_method_ : string;
  barrier_buffer_ : ptr
}.

(** A coordinator in its process: the state of a member function. *)
Record Obj (W : Type) : Type := mkObj {
  this : TorchCommXCCLBootstrap;
  proc : Process W
}.

Arguments mkObj {W}.
Arguments this {W}.
Arguments proc {W}.

Module Upd.
Definition set_world {W} (w : W) (p : Process W) : Process W :=
  mkProcess w (getenv p) (counter_ p) (trace p) (logs p).
Definition set_counter {W} (c : Z) (p : Process W) : Process W :=
  mkProcess (world p) (getenv p) c (trace p) (logs p).
Definition add_event {W} (ev : Event) (p : Process W) : Process W :=
  mkProcess (world p) (getenv p) (counter_ p) (trace p ++ [ev])%list (logs p).
Definition set_logs {W} (l : list LogRecord) (p : Process W) : Process W :=
  mkProcess (world p) (getenv p) (counter_ p) (trace p) l.
Definition set_getenv {W} (env : string -> option string) (p : Process W) : Process W :=
  mkProcess (world p) env (counter_ p) (trace p) (logs p).

Definition set_store (s : option StoreHandle) (b : TorchCommXCCLBootstrap) :=
  mkBootstrap (timeout_ b) s (created_internal_store_ b) (device_ b) (rank_ b)
    (comm_size_ b) (uniqueid_xchg_method_ b) (barrier_buffer_ b).
Definition set_created_internal_store (f : bool) (b : TorchCommXCCLBootstrap) :=
  mkBootstrap (timeout_ b) (store_ b) f (device_ b) (rank_ b)
    (comm_size_ b) (uniqueid_xchg_method_ b) (barrier_buffer_ b).
Definition set_method (m : string) (b : TorchCommXCCLBootstrap) :=
  mkBootstrap (timeout_ b) (store_ b) (created_internal_store_ b) (device_ b) (rank_ b)
    (comm_size_ b) m (barrier_buffer_ b).
Definition set_barrier_buffer (p : ptr) (b : TorchCommXCCLBootstrap) :=
  mkBootstrap (timeout_ b) (store_ b) (created_internal_store_ b) (device_ b) (rank_ b)
    (comm_size_ b) (uniqueid_xchg_method_ b) p.

Definition set_this {W} (b : TorchCommXCCLBootstrap) (o : Obj W) : Obj W :=
  mkObj b (proc o).
Definition set_proc {W} (p : Process W) (o : Obj W) : Obj W :=
  mkObj (this o) p.
End Upd.

(** [std::tolower] in the "C" locale, and its use on a whole string. *)
Definition tolower (c : ascii) : ascii :=
  let n := nat_of_ascii c in
  if (65 <=? n)%nat && (n <=? 90)%nat then ascii_of_nat (n + 32) else c.

Fixpoint transform_tolower (s : string) : string :=
  match s with
  | String c s' => String (tolower c) (transform_tolower s')
  | EmptyString => EmptyString
  end.

Definition kUniqueidXchgMethodAuto : string := "auto".
Definition kUniqueidXchgMethodTCPStore : string := "tcpstore".
Definition kUniqueidXchgMethodDefault : string := kUniqueidXchgMethodAuto.

Definition sizeof_float : Z := 4.

(** [CommOptions]: only the hints are read here. *)
Record CommOptions : Type := mkCommOptions { hints : Hints }.

Section Bootstrap.

Context {W : Type} (C : Collaborators W).

(** *** Plumbing: calls, logging, [XPU_CHECK] *)

Definition in_proc {A} (m : M (Process W) A) : M (Obj W) A :=
  zoom proc Upd.set_proc m.

Definition log (sev : severity) (msg : string) : M (Process W) unit :=
  zoom logs Upd.set_logs (TC_LOG sev msg).

(** A call to a collaborator that reports through its return value. *)
Definition call {A} (ev : Event) (f : W -> A * W) : M (Process W) A :=
  fun p => let (a, w') := f (world p) in
           (inr a, Upd.set_world w' (Upd.add_event ev p)).

(** A call to a collaborator that may throw. *)
Definition call_throwing {A} (ev : Event) (f : W -> (exception + A) * W)
    : M (Process W) A :=
  fun p => let (r, w') := f (world p) in
           (r, Upd.set_world w' (Upd.add_event ev p)).

(** [getErrorString] of the backend: a call that only returns a text. *)
Definition getErrorString (r : onecclResult_t) : M (Process W) string :=
  call (XcclGetErrorString r) (fun w => (xccl_getErrorString C r, w)).

(** The [XPU_CHECK] macro, applied to the status that the call returned:
    on a failure it asks the API for the text of the status and throws. *)
Definition XPU_CHECK (status : ze_result_t) (err_str : string) : M (Process W) unit :=
  if is_success status then ret tt
  else
    call (XpuGetErrorString status) (fun w => (xpu_getErrorString C status, w)) ;;;
    throw (xpu_check_failure err_str status).

(** [e.what()], for an exception of the component, up to the source
    location that ends the message of [XPU_CHECK]. *)
Definition what (e : exception) : string :=
  match e with
  | runtime_error w | invalid_argument w | out_of_range w | thrown_by_callee w => w
  | xpu_check_failure err_str status =>
      err_str ++ ": " ++ xpu_getErrorString C status ++ " at "
  | null_dereference | std_terminate _ | integer_division_trap => EmptyString
  end.

(** *** Construction and destruction *)

Definition constructor (store : option StoreHandle) (device : Device) (timeout : Z)
    : M (Process W) TorchCommXCCLBootstrap :=
  ranksize <- gets (fun p => query_ranksize C (world p)) ;;
  let rank := fst ranksize in
  let comm_size := snd ranksize in
  uniqueid_xchg_env <-
    gets (fun p => getenv p "TORCHCOMM_XCCL_BOOTSTRAP_UNIQUEID_EXCHANGE_METHOD") ;;
  method <- match uniqueid_xchg_env with
            | None =>
                log INFO ("TORCHCOMM_XCCL_BOOTSTRAP_UNIQUEID_EXCHANGE_METHOD not set, "
                            ++ "defaulting to " ++ kUniqueidXchgMethodDefault) ;;;
                ret kUniqueidXchgMethodDefault
            | Some env => ret env
            end ;;
  let method := transform_tolower method in
  device <- (if dev_index device =? -1 then
               r <- call XpuGetDeviceCount (xpu_getDeviceCount C) ;;
               XPU_CHECK (fst r) "Failed to get XPU device count" ;;;
               let device_count := snd r in
               match int_rem rank device_count with
               | None => throw integer_division_trap
               | Some index =>
                   let device := mkDevice kXPU (to_DeviceIndex index) in
                   log INFO ("User did not provide device ID; using device xpu:"
                               ++ to_string (dev_index device)) ;;;
                   ret device
               end
             else ret device) ;;
  status <- call (XpuSetDevice (dev_index device)) (xpu_setDevice C (dev_index device)) ;;
  XPU_CHECK status ("Failed to set device to " ++ to_string (dev_index device)) ;;;
  r <- call (XpuMalloc sizeof_float) (xpu_malloc C sizeof_float) ;;
  XPU_CHECK (fst r) "Failed to allocate barrier buffer" ;;;
  ret (mkBootstrap timeout store false device rank comm_size method (snd r)).

(** The destructor has no exception specification, so it is [noexcept]. *)
Definition destructor : M (Obj W) unit :=
  noexcept
    (b <- gets this ;;
     if barrier_buffer_ b =? nullptr then ret tt
     else
       status <- in_proc (call (XpuFree (barrier_buffer_ b))
                            (xpu_free C (barrier_buffer_ b))) ;;
       in_proc (XPU_CHECK status "Failed to free barrier buffer") ;;;
       modify (fun o => Upd.set_this (Upd.set_barrier_buffer nullptr (this o)) o)).

(** *** Store keys *)

Definition getXCCLStoreKeyPrefix : string := "xccl_storekey_".

Definition getXCCLStoreKey : M (Process W) string :=
  c <- gets counter_ ;;
  let key := getXCCLStoreKeyPrefix ++ to_string c in
  modify (Upd.set_counter (int_succ c)) ;;;
  ret key.

Definition getXCCLStoreKeyCounter : M (Process W) Z := gets counter_.

(** *** Unique-id exchange *)

(** [store_->f(...)]: a call through the store pointer. *)
Definition through_store {A} (k : StoreHandle -> M (Obj W) A) : M (Obj W) A :=
  b <- gets this ;;
  match store_ b with
  | Some h => k h
  | None => throw null_dereference
  end.

Definition exchangeUniqueIdStore : M (Obj W) onecclUniqueId :=
  key <- in_proc getXCCLStoreKey ;;
  b <- gets this ;;
  if rank_ b =? 0 then
    r <- in_proc (call XcclGetUniqueId (xccl_getUniqueId C)) ;;
    let xcclErr := fst r in
    let uniqueId := snd r in
    (if oneccl_ok xcclErr then ret tt
     else
       msg <- in_proc (getErrorString xcclErr) ;;
       throw (runtime_error ("Failed to get XCCL unique ID: " ++ msg))) ;;;
    let vec := uniqueId in
    through_store (fun h => in_proc (call_throwing (StoreSet h key vec) (store_set C h key vec))) ;;;
    ret uniqueId
  else
    vec <- through_store (fun h => in_proc (call_throwing (StoreGet h key) (store_get C h key))) ;;
    if negb (Nat.eqb (List.length vec) (sizeof_onecclUniqueId C)) then
      throw (runtime_error "Invalid XCCL unique ID size")
    else ret vec.

Definition exchangeUniqueIdTCPStore (name : string) : M (Obj W) onecclUniqueId :=
  b <- gets this ;;
  h <- in_proc (call_throwing (StoreManagerGetStore (kBackendName C) name (timeout_ b))
                  (StoreManager_getStore C (kBackendName C) name (timeout_ b))) ;;
  modify (fun o => Upd.set_this (Upd.set_store (Some h) (this o)) o) ;;;
  modify (fun o => Upd.set_this (Upd.set_created_internal_store true (this o)) o) ;;;
  exchangeUniqueIdStore.

Definition isTCPStoreEnabled : M (Process W) bool :=
  gets (fun p =>
          match getenv p "MASTER_ADDR" with
          | Some _ => match getenv p "MASTER_PORT" with Some _ => true | None => false end
          | None => false
          end).

Definition exchangeUniqueId (name : string) : M (Obj W) onecclUniqueId :=
  b <- gets this ;;
  match store_ b with
  | Some _ => exchangeUniqueIdStore
  | None =>
      is_tcp_store_enabled <- in_proc isTCPStoreEnabled ;;
      if negb (String.eqb (uniqueid_xchg_method_ b) kUniqueidXchgMethodAuto)
         && negb (String.eqb (uniqueid_xchg_method_ b) kUniqueidXchgMethodTCPStore)
      then throw (runtime_error
                    ("Invalid unique ID exchange method " ++ uniqueid_xchg_method_ b))
      else if negb is_tcp_store_enabled
      then throw (runtime_error "No way to exchange unique ID")
      else exchangeUniqueIdTCPStore name
  end.

(** *** Closing barrier *)

(** [store_.reset()]: drops the reference, if there is one. *)
Definition store_reset : M (Obj W) unit :=
  b <- gets this ;;
  match store_ b with
  | Some h =>
      in_proc (call (StoreReset h) (fun w => (tt, w))) ;;;
      modify (fun o => Upd.set_this (Upd.set_store None (this o)) o)
  | None => ret tt
  end.

Definition cleanupTCPStore (xccl_comm : onecclComm_t) : M (Obj W) unit :=
  b <- gets this ;;
  if created_internal_store_ b then
    store_reset ;;;
    stream <- in_proc (call (XpuGetCurrentXPUStream (dev_index (device_ b)))
                         (xpu_getCurrentXPUStream C (dev_index (device_ b)))) ;;
    result <- in_proc (call (XcclAllReduce (barrier_buffer_ b) (barrier_buffer_ b) 1
                               onecclFloat32 onecclSum xccl_comm stream)
                         (xccl_allReduce C (barrier_buffer_ b) (barrier_buffer_ b) 1
                            onecclFloat32 onecclSum xccl_comm stream)) ;;
    (if oneccl_ok result then ret tt
     else
       msg <- in_proc (getErrorString result) ;;
       in_proc (log ERROR ("XCCL AllReduce failed: " ++ msg))) ;;;
    status <- in_proc (call (XpuStreamSynchronize stream) (xpu_streamSynchronize C stream)) ;;
    in_proc (XPU_CHECK status "Stream synchronization failed")
  else ret tt.

(** *** Communicator creation *)

Definition createXcclComm (name : string) (options : CommOptions) : M (Obj W) onecclComm_t :=
  uniqueId <- exchangeUniqueId name ;;
  let config := Cfg.set_commName (Some (strdup (c_str name))) (XCCL_CONFIG_INITIALIZER C) in
  config <- in_proc (zoom logs Upd.set_logs
                       (populateXcclConfigFromHints config (hints options) name)) ;;
  b <- gets this ;;
  r <- in_proc (call (XcclCommInitRankConfig (comm_size_ b) uniqueId (rank_ b) config)
                  (xccl_commInitRankConfig C (comm_size_ b) uniqueId (rank_ b) config)) ;;
  let xcclErr := fst r in
  let xccl_comm := snd r in
  (if negb (oneccl_ok xcclErr) || (xccl_comm =? nullptr) then
     msg <- in_proc (getErrorString xcclErr) ;;
     throw (runtime_error ("Failed to initialize XCCL communicator: " ++ msg))
   else ret tt) ;;;
  cleanupTCPStore xccl_comm ;;;
  ret xccl_comm.

(** A caller that creates communicators one after the other, whatever
    each call returns or throws; the outcomes are collected. *)
Fixpoint create_all (calls : list (string * CommOptions)) (o : Obj W)
    : list (exception + onecclComm_t) * Obj W :=
  match calls with
  | [] => ([], o)
  | (name, options) :: rest =>
      let (r, o') := createXcclComm name options o in
      let (rs, o'') := create_all rest o' in
      (r :: rs, o'')
  end.

End Bootstrap.

(** ** The Level Zero device API *)

Module LevelZero.

Definition ze_driver_handle_t : Type := Z.
Definition ze_device_handle_t : Type := Z.
Definition ze_context_handle_t : Type := Z.

(** Bit 0 of [ze_device_properties_t::flags] in the Level Zero headers. *)
Definition ZE_DEVICE_PROPERTY_FLAG_INTEGRATED : Z := 1.

(** The Level Zero loader as [initLevelZero] sees it.  A query made with
    a null array reports a count; the same query made with an array
    reports the handles that it wrote at the front of the array. *)
Record Loader : Type := mkLoader {
  zeInitDrivers_count : ze_result_t * nat;
  zeInitDrivers_fill : nat -> ze_result_t * list ze_driver_handle_t;
  zeDeviceGet_count : ze_driver_handle_t -> ze_result_t * nat;
  zeDeviceGet_fill : ze_driver_handle_t -> nat -> ze_result_t * list ze_device_handle_t;
  zeDeviceGetProperties : ze_device_handle_t -> ze_result_t * Z;
  zeContextCreate : ze_driver_handle_t -> ze_result_t * ze_context_handle_t
}.

(** The file-level statics, and the function-local [initialized]. *)
Record Globals : Type := mkGlobals {
  g_driver : ze_driver_handle_t;
  g_devices : list ze_device_handle_t;
  g_device_count : Z;
  g_context : ze_context_handle_t;
  initialized : bool
}.

Definition globals0 : Globals := mkGlobals 0 [] 0 0 false.

(** [v.resize(n)]: truncated, or padded with null handles. *)
Definition resize (n : nat) (v : list Z) : list Z :=
  (firstn n v ++ repeat 0 (n - List.length v))%list.

(** The array after a callee wrote [written] at its front. *)
Definition write_into (written v : list Z) : list Z :=
  (firstn (List.length v) written ++ skipn (List.length written) v)%list.

(** The loop "find the first driver with devices". *)
Fixpoint find_devices (L : Loader) (drivers : list ze_driver_handle_t)
    (driver0 : ze_driver_handle_t) (all_devices : list ze_device_handle_t)
    : ze_driver_handle_t * list ze_device_handle_t :=
  match drivers with
  | [] => (driver0, all_devices)
  | driver :: rest =>
      let (dev_result, device_count) := zeDeviceGet_count L driver in
      if negb (is_success dev_result) || Nat.eqb device_count 0 then
        find_devices L rest driver0 all_devices
      else
        let all_devices := resize device_count all_devices in
        let (dev_result, written) := zeDeviceGet_fill L driver device_count in
        let all_devices := write_into written all_devices in
        if is_success dev_result then (driver, all_devices)
        else find_devices L rest driver all_devices
  end.

(** The lambda [is_igpu]. *)
Definition is_igpu (L : Loader) (device : ze_device_handle_t) : bool :=
  let (prop_result, flags) := zeDeviceGetProperties L device in
  if negb (is_success prop_result) then false
  else negb (Z.land flags ZE_DEVICE_PROPERTY_FLAG_INTEGRATED =? 0).

Definition is_dgpu (L : Loader) (device : ze_device_handle_t) : bool :=
  negb (is_igpu L device).

Definition set_driver (d : ze_driver_handle_t) (g : Globals) : Globals :=
  mkGlobals d (g_devices g) (g_device_count g) (g_context g) (initialized g).

Definition initLevelZero (L : Loader) (g : Globals) : ze_result_t * Globals :=
  if initialized g then (ZE_RESULT_SUCCESS, g)
  else
    let (result, driver_count) := zeInitDrivers_count L in
    if negb (is_success result) || Nat.eqb driver_count 0 then
      (ZE_RESULT_ERROR_UNINITIALIZED, g)
    else
      let drivers := repeat 0 driver_count in
      let (result, written) := zeInitDrivers_fill L driver_count in
      let drivers := write_into written drivers in
      if negb (is_success result) then (result, g)
      else
        let (driver, all_devices) := find_devices L drivers (g_driver g) [] in
        let g := set_driver driver g in
        match all_devices with
        | [] => (ZE_RESULT_ERROR_UNINITIALIZED, g)
        | _ :: _ =>
            if forallb (is_igpu L) all_devices then (ZE_RESULT_ERROR_UNINITIALIZED, g)
            else
              let all_devices := filter (is_dgpu L) all_devices in
              let device_count := to_uint32 (Z.of_nat (List.length all_devices)) in
              let devices := firstn (Z.to_nat device_count) all_devices in
              let (result, context) := zeContextCreate L driver in
              (result, mkGlobals driver devices device_count context (is_success result))
        end.

(** [DefaultXpuApi::getDeviceCount(int* count)]; [count] tells whether the
    pointer is non-null, and the option is what was stored through it. *)
Definition getDeviceCount (L : Loader) (count : bool) (g : Globals)
    : (ze_result_t * option Z) * Globals :=
  let (result, g) := initLevelZero L g in
  if negb (is_success result) then ((result, None), g)
  else if negb count then ((ZE_RESULT_ERROR_INVALID_NULL_POINTER, None), g)
  else ((ZE_RESULT_SUCCESS, Some (to_int (g_device_count g))), g).

(** The driver handles and the device vector that [initLevelZero] works
    with once both driver queries have succeeded. *)
Definition drivers_of (L : Loader) : list ze_driver_handle_t :=
  let n := snd (zeInitDrivers_count L) in
  write_into (snd (zeInitDrivers_fill L n)) (repeat 0 n).

Definition devices_found (L : Loader) : list ze_device_handle_t :=
  snd (find_devices L (drivers_of L) 0 []).

Definition drivers_enumerated (L : Loader) : bool :=
  is_success (fst (zeInitDrivers_count L))
  && negb (Nat.eqb (snd (zeInitDrivers_count L)) 0)
  && is_success (fst (zeInitDrivers_fill L (snd (zeInitDrivers_count L)))).

(** The states of the statics in a process: any number of API entry
    points have run [initLevelZero]. *)
Inductive reachable (L : Loader) : Globals -> Prop :=
| reachable_start : reachable L globals0
| reachable_init : forall g, reachable L g -> reachable L (snd (initLevelZero L g)).

(** A machine with one driver and the given devices, each with its
    property flags; every query succeeds. *)
Definition simple_loader (devices : list (ze_device_handle_t * Z)) : Loader :=
  mkLoader
    (ZE_RESULT_SUCCESS, 1%nat)
    (fun _ => (ZE_RESULT_SUCCESS, [100]))
    (fun _ => (ZE_RESULT_SUCCESS, List.length devices))
    (fun _ _ => (ZE_RESULT_SUCCESS, map fst devices))
    (fun d =>
       match find (fun e => fst e =? d) devices with
       | Some e => (ZE_RESULT_SUCCESS, snd e)
       | None => (ZE_RESULT_ERROR_INVALID_NULL_HANDLE, 0)
       end)
    (fun _ => (ZE_RESULT_SUCCESS, 7)).

(** The devices that [initLevelZero] keeps: those found that the lambda
    [is_igpu] does not classify as integrated. *)
Definition discrete (L : Loader) : list ze_device_handle_t :=
  filter (is_dgpu L) (devices_found L).

(** What holds of the statics once [initialized] is set. *)
Definition initialized_state (L : Loader) (g : Globals) : Prop :=
  initialized g = true ->
  g_device_count g = to_uint32 (Z.of_nat (List.length (discrete L)))
  /\ g_devices g = firstn (Z.to_nat (g_device_count g)) (discrete L)
  /\ forallb (is_igpu L) (devices_found L) = false.

End LevelZero.

(** ** Reading store keys back *)

(** [strip_prefix p s]: the rest of [s] after the prefix [p], if [s] starts
    with [p]. *)
Fixpoint strip_prefix (p s : string) : option string :=
  match p, s with
  | EmptyString, _ => Some s
  | String a p', String b s' => if Ascii.eqb a b then strip_prefix p' s' else None
  | String _ _, EmptyString => None
  end.

(** The number that follows the prefix in a store key. *)
Definition key_suffix (key : string) : option Z :=
  match strip_prefix getXCCLStoreKeyPrefix key with
  | Some digits => of_string digits
  | None => None
  end.

(** The key that a store access names. *)
Definition store_key_of (ev : Event) : option string :=
  match ev with
  | StoreSet _ key _ | StoreGet _ key => Some key
  | _ => None
  end.

Section Sequences.

Context {W : Type} (C : Collaborators W).

(** The keys of [n] consecutive calls of [getXCCLStoreKey], in call order. *)
Fixpoint generate_keys (n : nat) (p : Process W) : list string * Process W :=
  match n with
  | O => ([], p)
  | S n' =>
      match getXCCLStoreKey p with
      | (inr key, p') => let (keys, p'') := generate_keys n' p' in (key :: keys, p'')
      | (inl _, p') => ([], p')
      end
  end.

(** Exchanges run one after the other in one process, each by its own
    coordinator (in whatever state that coordinator is). *)
Fixpoint exchange_all (bs : list TorchCommXCCLBootstrap) (p : Process W) : Process W :=
  match bs with
  | [] => p
  | b :: rest => exchange_all rest (proc (snd (exchangeUniqueIdStore C (mkObj b p))))
  end.

End Sequences.

(** ** A small concrete world *)

(** [DefaultXpuApi::getErrorString]: the name of the status, and one text
    for every status that the switch does not list. *)
Definition DefaultXpuApi_getErrorString (error : ze_result_t) : string :=
  match error with
  | ZE_RESULT_SUCCESS => "ZE_RESULT_SUCCESS"
  | ZE_RESULT_NOT_READY => "ZE_RESULT_NOT_READY"
  | ZE_RESULT_ERROR_DEVICE_LOST => "ZE_RESULT_ERROR_DEVICE_LOST"
  | ZE_RESULT_ERROR_OUT_OF_HOST_MEMORY => "ZE_RESULT_ERROR_OUT_OF_HOST_MEMORY"
  | ZE_RESULT_ERROR_OUT_OF_DEVICE_MEMORY => "ZE_RESULT_ERROR_OUT_OF_DEVICE_MEMORY"
  | ZE_RESULT_ERROR_UNINITIALIZED => "ZE_RESULT_ERROR_UNINITIALIZED"
  | ZE_RESULT_ERROR_UNSUPPORTED_FEATURE => "ZE_RESULT_ERROR_UNSUPPORTED_FEATURE"
  | ZE_RESULT_ERROR_INVALID_ARGUMENT => "ZE_RESULT_ERROR_INVALID_ARGUMENT"
  | ZE_RESULT_ERROR_INVALID_NULL_HANDLE => "ZE_RESULT_ERROR_INVALID_NULL_HANDLE"
  | ZE_RESULT_ERROR_INVALID_NULL_POINTER => "ZE_RESULT_ERROR_INVALID_NULL_POINTER"
  | ZE_RESULT_ERROR_INVALID_SIZE => "ZE_RESULT_ERROR_INVALID_SIZE"
  | ZE_RESULT_ERROR_UNSUPPORTED_SIZE => "ZE_RESULT_ERROR_UNSUPPORTED_SIZE"
  | ZE_RESULT_ERROR_UNSUPPORTED_ALIGNMENT => "ZE_RESULT_ERROR_UNSUPPORTED_ALIGNMENT"
  | ZE_RESULT_ERROR_UNKNOWN => "Unknown Level Zero error"
  end.

Module Mock.

(** One store (handle 1), a backend and a device API with canned answers. *)
Record World : Type := mkWorld {
  m_rank : Z;
  m_size : Z;
  m_device_count : Z;
  m_store : list (string * bytes);
  m_allreduce : onecclResult_t;
  m_synchronize : ze_result_t
}.

Definition put (key : string) (value : bytes) (w : World) : World :=
  mkWorld (m_rank w) (m_size w) (m_device_count w) ((key, value) :: m_store w)
    (m_allreduce w) (m_synchronize w).

Definition lookup (key : string) (w : World) : option bytes :=
  option_map snd (find (fun e => String.eqb (fst e) key) (m_store w)).

Definition unique_id : onecclUniqueId := repeat Byte.x2a 16.

Definition config0 : onecclConfig_t :=
  mkConfig INT_MIN INT_MIN INT_MIN INT_MIN None INT_MIN INT_MIN None INT_MIN INT_MIN
    INT_MIN INT_MIN INT_MIN INT_MIN.

Definition collaborators : Collaborators World :=
  mkCollaborators World
    (fun w => (m_rank w, m_size w))
    (fun w => ((ZE_RESULT_SUCCESS, m_device_count w), w))
    (fun _ w => (ZE_RESULT_SUCCESS, w))
    (fun _ w => ((ZE_RESULT_SUCCESS, 4096), w))
    (fun _ w => (ZE_RESULT_SUCCESS, w))
    (fun _ w => (77, w))
    (fun _ w => (m_synchronize w, w))
    DefaultXpuApi_getErrorString
    (fun w => ((onecclSuccess, unique_id), w))
    (fun _ _ _ _ w => ((onecclSuccess, 555), w))
    (fun _ _ _ _ _ _ _ w => (m_allreduce w, w))
    (fun r => match r with onecclSuccess => "no error" | onecclFailure _ => "internal error" end)
    (fun _ key value w => (inr tt, put key value w))
    (fun _ key w =>
       match lookup key w with
       | Some v => (inr v, w)
       | None => (inl (thrown_by_callee "store get timed out"), w)
       end)
    (fun _ _ _ w => (inr 1, w))
    16%nat
    config0
    "xccl".

Definition world0 (rank size : Z) : World :=
  mkWorld rank size 4 [] onecclSuccess ZE_RESULT_SUCCESS.

Definition no_env : string -> option string := fun _ => None.

Definition tcp_env : string -> option string :=
  fun name =>
    if String.eqb name "MASTER_ADDR" then Some "127.0.0.1"
    else if String.eqb name "MASTER_PORT" then Some "29500"
    else None.

Definition process0 (w : World) (env : string -> option string) : Process World :=
  mkProcess w env 0 [] [].

(** A coordinator as [constructor] leaves it, for the given store. *)
Definition bootstrap0 (store : option StoreHandle) (rank size : Z) (method : string)
    : TorchCommXCCLBootstrap :=
  mkBootstrap 1000 store false (mkDevice kXPU 0) rank size method 4096.

End Mock.

(** ** Vocabulary of the statements *)

Section Vocabulary.

Context {W : Type} (C : Collaborators W).

Definition legal_method (m : string) : bool :=
  String.eqb m kUniqueidXchgMethodAuto || String.eqb m kUniqueidXchgMethodTCPStore.

Definition rendezvous_variables_present (p : Process W) : bool :=
  match getenv p "MASTER_ADDR", getenv p "MASTER_PORT" with
  | Some _, Some _ => true
  | _, _ => false
  end.

(** The key that the next exchange of the process will use. *)
Definition next_key (p : Process W) : string :=
  getXCCLStoreKeyPrefix ++ to_string (counter_ p).

(** The process after a key was generated and [get] was called on [h]. *)
Definition after_get (h : StoreHandle) (w' : W) (p : Process W) : Process W :=
  Upd.set_world w' (Upd.add_event (StoreGet h (next_key p))
                      (Upd.set_counter (int_succ (counter_ p)) p)).

(** How the store of the exchange is chosen: the one given at
    construction, or one obtained from the store manager. *)
Inductive store_in_use (name : string) (o : Obj W) (h : StoreHandle)
    : W -> list Event -> TorchCommXCCLBootstrap -> Prop :=
| supplied_store :
    store_ (this o) = Some h ->
    store_in_use name o h (world (proc o)) [] (this o)
| internal_store : forall w1,
    store_ (this o) = None ->
    legal_method (uniqueid_xchg_method_ (this o)) = true ->
    rendezvous_variables_present (proc o) = true ->
    StoreManager_getStore C (kBackendName C) name (timeout_ (this o)) (world (proc o))
      = (inr h, w1) ->
    store_in_use name o h w1
      [StoreManagerGetStore (kBackendName C) name (timeout_ (this o))]
      (Upd.set_created_internal_store true (Upd.set_store (Some h) (this o))).

(** The configuration before the hints are applied. *)
Definition initial_config (name : string) : onecclConfig_t :=
  Cfg.set_commName (Some (strdup (c_str name))) (XCCL_CONFIG_INITIALIZER C).

(** The hint pass as a step of the member function. *)
Definition apply_hints (name : string) (options : CommOptions) : M (Obj W) onecclConfig_t :=
  in_proc (zoom logs Upd.set_logs
             (populateXcclConfigFromHints (initial_config name) (hints options) name)).

(** The rest of [createXcclComm] once the identity and the configuration
    are known: backend construction, its check, the closing barrier. *)
Definition construct_and_close (uniqueId : onecclUniqueId) (config : onecclConfig_t)
    : M (Obj W) onecclComm_t :=
  b <- gets this ;;
  r <- in_proc (call (XcclCommInitRankConfig (comm_size_ b) uniqueId (rank_ b) config)
                  (xccl_commInitRankConfig C (comm_size_ b) uniqueId (rank_ b) config)) ;;
  let xcclErr := fst r in
  let xccl_comm := snd r in
  (if negb (oneccl_ok xcclErr) || (xccl_comm =? nullptr) then
     msg <- in_proc (getErrorString C xcclErr) ;;
     throw (runtime_error ("Failed to initialize XCCL communicator: " ++ msg))
   else ret tt) ;;;
  cleanupTCPStore C xccl_comm ;;;
  ret xccl_comm.

End Vocabulary.

(** The calls that the unique-id exchange can make. *)
Definition is_exchange_event (ev : Event) : bool :=
  match ev with
  | XcclGetUniqueId | XcclGetErrorString _ | StoreManagerGetStore _ _ _
  | StoreSet _ _ _ | StoreGet _ _ => true
  | _ => false
  end.

(** The members that no member function assigns after construction. *)
Definition same_identity (b b' : TorchCommXCCLBootstrap) : Prop :=
  timeout_ b' = timeout_ b
  /\ device_ b' = device_ b
  /\ rank_ b' = rank_ b
  /\ comm_size_ b' = comm_size_ b
  /\ uniqueid_xchg_method_ b' = uniqueid_xchg_method_ b
  /\ barrier_buffer_ b' = barrier_buffer_ b.

(** The calls that backend construction and its check can make. *)
Definition is_construction_event (ev : Event) : bool :=
  match ev with
  | XcclCommInitRankConfig _ _ _ _ | XcclGetErrorString _ => true
  | _ => false
  end.

(** The keys that the loop accepts in two spellings. *)
Definition two_spellings : list (string * string) :=
  [ ("cgaClusterSize", "cga_cluster_size"); ("minCTAs", "min_ctas");
    ("maxCTAs", "max_ctas"); ("splitShare", "split_share");
    ("trafficClass", "traffic_class"); ("collnetEnable", "collnet_enable");
    ("CTAPolicy", "cta_policy"); ("nvlsCTAs", "nvls_ctas");
    ("nChannelsPerNetPeer", "n_channels_per_net_peer");
    ("nvlinkCentricSched", "nvlink_centric_sched") ].

(** The key made from a counter value. *)
Definition key_of_counter (c : Z) : string := getXCCLStoreKeyPrefix ++ to_string c.

(** [n] consecutive counter values from [c] on. *)
Fixpoint counters_from (c : Z) (n : nat) : list Z :=
  match n with
  | O => []
  | S n' => c :: counters_from (c + 1) n'
  end.

(** The selector that the constructor stores for an environment. *)
Definition resolved_method (env : string -> option string) : string :=
  transform_tolower
    match env "TORCHCOMM_XCCL_BOOTSTRAP_UNIQUEID_EXCHANGE_METHOD" with
    | Some value => value
    | None => kUniqueidXchgMethodDefault
    end.


(** ** Vocabulary of the further properties *)

(** The contract of a store shared by two handles: a value set under a key
    through one handle is what a [get] on that key returns through the
    other, in the world that the [set] left. *)
Definition returns_what_was_set {W} (C : Collaborators W) (h h1 : StoreHandle) : Prop :=
  forall key value w w1,
    store_set C h key value w = (inr tt, w1) ->
    exists w2, store_get C h1 key w1 = (inr value, w2).

(** The calls of the device API. *)
Definition is_device_call (ev : Event) : bool :=
  match ev with
  | XpuGetDeviceCount | XpuSetDevice _ | XpuMalloc _ | XpuFree _
  | XpuGetCurrentXPUStream _ | XpuStreamSynchronize _ | XpuGetErrorString _ => true
  | _ => false
  end.

(** The fields of the configuration that a hint can name. *)
Inductive Field : Type :=
| F_blocking | F_cgaClusterSize | F_minCTAs | F_maxCTAs | F_netName | F_splitShare
| F_trafficClass | F_commName | F_collnetEnable | F_CTAPolicy | F_shrinkShare
| F_nvlsCTAs | F_nChannelsPerNetPeer | F_nvlinkCentricSched.

(** The field that the loop of [populateXcclConfigFromHints] assigns for a
    key, following its chain of comparisons; [None] for the last branch. *)
Definition field_of (key : string) : option Field :=
  if key_eq key "blocking" then Some F_blocking
  else if key_eq key "cgaClusterSize" || key_eq key "cga_cluster_size" then Some F_cgaClusterSize
  else if key_eq key "minCTAs" || key_eq key "min_ctas" then Some F_minCTAs
  else if key_eq key "maxCTAs" || key_eq key "max_ctas" then Some F_maxCTAs
  else if key_eq key "netName" then Some F_netName
  else if key_eq key "splitShare" || key_eq key "split_share" then Some F_splitShare
  else if key_eq key "trafficClass" || key_eq key "traffic_class" then Some F_trafficClass
  else if key_eq key "commName" then Some F_commName
  else if key_eq key "collnetEnable" || key_eq key "collnet_enable" then Some F_collnetEnable
  else if key_eq key "CTAPolicy" || key_eq key "cta_policy" then Some F_CTAPolicy
  else if key_eq key "shrinkShare" then Some F_shrinkShare
  else if key_eq key "nvlsCTAs" || key_eq key "nvls_ctas" then Some F_nvlsCTAs
  else if key_eq key "nChannelsPerNetPeer" || key_eq key "n_channels_per_net_peer"
       then Some F_nChannelsPerNetPeer
  else if key_eq key "nvlinkCentricSched" || key_eq key "nvlink_centric_sched"
       then Some F_nvlinkCentricSched
  else None.

Definition is_string_field (f : Field) : bool :=
  match f with F_netName | F_commName => true | _ => false end.

(** The assignment that a hint value makes to a field: the integer that
    [std::stoi] reads, or the copy of the C string. *)
Definition assign (f : Field) (val : string) (config : onecclConfig_t)
    : exception + onecclConfig_t :=
  match f with
  | F_netName => inr (Cfg.set_netName (Some (strdup (c_str val))) config)
  | F_commName => inr (Cfg.set_commName (Some (strdup (c_str val))) config)
  | _ =>
      match stoi val with
      | inl e => inl e
      | inr v =>
          inr (match f with
               | F_blocking => Cfg.set_blocking v config
               | F_cgaClusterSize => Cfg.set_cgaClusterSize v config
               | F_minCTAs => Cfg.set_minCTAs v config
               | F_maxCTAs => Cfg.set_maxCTAs v config
               | F_splitShare => Cfg.set_splitShare v config
               | F_trafficClass => Cfg.set_trafficClass v config
               | F_collnetEnable => Cfg.set_collnetEnable v config
               | F_CTAPolicy => Cfg.set_CTAPolicy v config
               | F_shrinkShare => Cfg.set_shrinkShare v config
               | F_nvlsCTAs => Cfg.set_nvlsCTAs v config
               | F_nChannelsPerNetPeer => Cfg.set_nChannelsPerNetPeer v config
               | F_nvlinkCentricSched => Cfg.set_nvlinkCentricSched v config
               | F_netName | F_commName => config
               end)
      end
  end.

(** The fields named by the entries of the hints, unknown keys left out. *)
Fixpoint fields_named (hs : Hints) : list Field :=
  match hs with
  | [] => []
  | (key, _) :: rest =>
      match field_of key with
      | Some f => f :: fields_named rest
      | None => fields_named rest
      end
  end.

(** The severity of the record that the loop logs for a key. *)
Definition severity_for (key : string) : severity :=
  if recognized key then INFO else WARNING.

(** Text that [std::stoi] skips in front of a number, and text that it
    ignores behind one. *)
Fixpoint all_spaces (s : string) : bool :=
  match s with
  | String c s' => isspace c && all_spaces s'
  | EmptyString => true
  end.

Definition no_leading_digit (s : string) : bool :=
  match s with
  | String c _ => match digit_of c with Some _ => false | None => true end
  | EmptyString => true
  end.

(** The configuration that the hint pass builds, without its logging: the
    entries are applied in order, and the first rejected value ends the
    pass. *)
Fixpoint translate (hs : Hints) (config : onecclConfig_t) : exception + onecclConfig_t :=
  match hs with
  | [] => inr config
  | (key, val) :: rest =>
      match field_of key with
      | None => translate rest config
      | Some f =>
          match assign f val config with
          | inl e => inl e
          | inr config' => translate rest config'
          end
      end
  end.

(** Two outcomes of the hint pass that agree: both throw, or both build
    the same configuration. *)
Definition same_outcome (a b : exception + onecclConfig_t) : Prop :=
  match a, b with
  | inr c, inr c' => c = c'
  | inl _, inl _ => True
  | _, _ => False
  end.

(** ** The device API over Level Zero *)

Module DeviceApi.

Import LevelZero.

(** [DefaultXpuApi::setDevice(int device)]: the statics are the only state
    it touches. *)
Definition setDevice (L : Loader) (device : Z) (g : Globals) : ze_result_t * Globals :=
  let (result, g) := initLevelZero L g in
  if negb (is_success result) then (result, g)
  else if (device <? 0) || (to_int (g_device_count g) <=? device) then
    (ZE_RESULT_ERROR_INVALID_ARGUMENT, g)
  else (ZE_RESULT_SUCCESS, g).

(** The driver entry points that the functions below call, with the
    arguments that the code computes. *)
Inductive ZeCall : Type :=
| ZeDeviceGetMemoryProperties (device : ze_device_handle_t)
| ZeMemAllocDevice (context : ze_context_handle_t) (size : Z) (device : ze_device_handle_t)
| ZeMemFree (context : ze_context_handle_t) (p : ptr)
| ZeCommandListCreate (context : ze_context_handle_t) (device : ze_device_handle_t)
| ZeCommandListAppendWaitOnEvents (cmd_list event : Z)
| ZeCommandListAppendMemoryCopy (cmd_list : Z) (dst src : ptr) (count : Z)
| ZeCommandListAppendSignalEvent (cmd_list event : Z)
| ZeCommandListClose (cmd_list : Z)
| ZeCommandQueueExecuteCommandLists (stream cmd_list : Z)
| ZeCommandListDestroy (cmd_list : Z)
| ZeEventQueryStatus (event : Z).

(** What a driver call gave back: its status, and the handle, pointer or
    size that it stored through its out-parameter. *)
Definition ZeReply : Type := (ze_result_t * Z)%type.

(** The driver, with a state of its own. *)
Record Driver (D : Type) : Type := mkDriver {
  ze : ZeCall -> D -> ZeReply * D
}.
Arguments ze {D}.

(** The statics, the driver, and the driver calls made so far with their
    replies. *)
Record Api (D : Type) : Type := mkApi {
  globals : Globals;
  driver : D;
  calls : list (ZeCall * ZeReply)
}.
Arguments mkApi {D}.
Arguments globals {D}.
Arguments driver {D}.
Arguments calls {D}.

(** A computation of the API.  [None] stands for an execution that has
    no defined behaviour: it read [g_devices[0]] where the array has no
    such element. *)
Definition U (D A : Type) : Type := Api D -> option (A * Api D).

Definition uret {D A} (x : A) : U D A := fun a => Some (x, a).

Definition ubind {D A B} (m : U D A) (k : A -> U D B) : U D B :=
  fun a => match m a with
           | Some (x, a') => k x a'
           | None => None
           end.

Notation "x <~ m ;; k" := (ubind m (fun x => k))
  (at level 61, m at next level, right associativity).

Section Api.

Context {D : Type}.
Variable L : Loader.
Variable Dr : Driver D.

Definition init : U D ze_result_t :=
  fun a => let (result, g) := initLevelZero L (globals a) in
           Some (result, mkApi g (driver a) (calls a)).

Definition statics : U D Globals := fun a => Some (globals a, a).

(** [g_devices[0]]. *)
Definition device0 : U D ze_device_handle_t :=
  fun a => match g_devices (globals a) with
           | d :: _ => Some (d, a)
           | [] => None
           end.

Definition zecall (c : ZeCall) : U D ZeReply :=
  fun a => let (r, d) := ze Dr c (driver a) in
           Some (r, mkApi (globals a) d (calls a ++ [(c, r)])).

(** [DefaultXpuApi::memGetInfo(size_t* free, size_t* total)]; the flags
    tell whether the pointers are non-null, and the option is the pair
    stored through [free] and [total]. *)
Definition memGetInfo (free total : bool) : U D (ze_result_t * option (Z * Z)) :=
  result <~ init ;;
  if negb (is_success result) then uret (result, None)
  else if negb free || negb total then uret (ZE_RESULT_ERROR_INVALID_NULL_POINTER, None)
  else
    g <~ statics ;;
    if 0 <? g_device_count g then
      d <~ device0 ;;
      r <~ zecall (ZeDeviceGetMemoryProperties d) ;;
      if is_success (fst r) then uret (ZE_RESULT_SUCCESS, Some (snd r, snd r))
      else uret (ZE_RESULT_ERROR_UNINITIALIZED, None)
    else uret (ZE_RESULT_ERROR_UNINITIALIZED, None).

(** [DefaultXpuApi::malloc(void** devPtr, size_t size)]; the option is
    what the driver stored through [devPtr]. *)
Definition malloc (devPtr : bool) (size : Z) : U D (ze_result_t * option ptr) :=
  result <~ init ;;
  if negb (is_success result) then uret (result, None)
  else if negb devPtr then uret (ZE_RESULT_ERROR_INVALID_NULL_POINTER, None)
  else if size =? 0 then uret (ZE_RESULT_ERROR_INVALID_SIZE, None)
  else
    g <~ statics ;;
    d <~ device0 ;;
    r <~ zecall (ZeMemAllocDevice (g_context g) size d) ;;
    uret (fst r, Some (snd r)).

(** [DefaultXpuApi::free(void* devPtr)]. *)
Definition free (devPtr : ptr) : U D ze_result_t :=
  if devPtr =? nullptr then uret ZE_RESULT_ERROR_INVALID_NULL_POINTER
  else
    g <~ statics ;;
    r <~ zecall (ZeMemFree (g_context g) devPtr) ;;
    uret (fst r).

(** [DefaultXpuApi::streamWaitEvent(stream, event, flags)]. *)
Definition streamWaitEvent (stream event : Z) (flags : Z) : U D ze_result_t :=
  if (stream =? 0) || (event =? 0) then uret ZE_RESULT_ERROR_INVALID_NULL_HANDLE
  else
    g <~ statics ;;
    d <~ device0 ;;
    r <~ zecall (ZeCommandListCreate (g_context g) d) ;;
    if negb (is_success (fst r)) then uret (fst r)
    else
      let cmd_list := snd r in
      r <~ zecall (ZeCommandListAppendWaitOnEvents cmd_list event) ;;
      if negb (is_success (fst r)) then
        _ <~ zecall (ZeCommandListDestroy cmd_list) ;;
        uret (fst r)
      else
        r <~ zecall (ZeCommandListClose cmd_list) ;;
        if negb (is_success (fst r)) then
          _ <~ zecall (ZeCommandListDestroy cmd_list) ;;
          uret (fst r)
        else
          r <~ zecall (ZeCommandQueueExecuteCommandLists stream cmd_list) ;;
          _ <~ zecall (ZeCommandListDestroy cmd_list) ;;
          uret (fst r).

(** [DefaultXpuApi::memcpyAsync(dst, src, count, stream)]. *)
Definition memcpyAsync (dst src : ptr) (count : Z) (stream : Z) : U D ze_result_t :=
  if (dst =? nullptr) || (src =? nullptr) || (stream =? 0) then
    uret ZE_RESULT_ERROR_INVALID_NULL_POINTER
  else if count =? 0 then uret ZE_RESULT_SUCCESS
  else
    g <~ statics ;;
    d <~ device0 ;;
    r <~ zecall (ZeCommandListCreate (g_context g) d) ;;
    if negb (is_success (fst r)) then uret (fst r)
    else
      let cmd_list := snd r in
      r <~ zecall (ZeCommandListAppendMemoryCopy cmd_list dst src count) ;;
      if negb (is_success (fst r)) then
        _ <~ zecall (ZeCommandListDestroy cmd_list) ;;
        uret (fst r)
      else
        r <~ zecall (ZeCommandListClose cmd_list) ;;
        if negb (is_success (fst r)) then
          _ <~ zecall (ZeCommandListDestroy cmd_list) ;;
          uret (fst r)
        else
          r <~ zecall (ZeCommandQueueExecuteCommandLists stream cmd_list) ;;
          _ <~ zecall (ZeCommandListDestroy cmd_list) ;;
          uret (fst r).

(** [DefaultXpuApi::eventRecord(event, stream)]. *)
Definition eventRecord (event stream : Z) : U D ze_result_t :=
  if (event =? 0) || (stream =? 0) then uret ZE_RESULT_ERROR_INVALID_NULL_HANDLE
  else
    g <~ statics ;;
    d <~ device0 ;;
    r <~ zecall (ZeCommandListCreate (g_context g) d) ;;
    if negb (is_success (fst r)) then uret (fst r)
    else
      let cmd_list := snd r in
      r <~ zecall (ZeCommandListAppendSignalEvent cmd_list event) ;;
      if negb (is_success (fst r)) then
        _ <~ zecall (ZeCommandListDestroy cmd_list) ;;
        uret (fst r)
      else
        r <~ zecall (ZeCommandListClose cmd_list) ;;
        if negb (is_success (fst r)) then
          _ <~ zecall (ZeCommandListDestroy cmd_list) ;;
          uret (fst r)
        else
          r <~ zecall (ZeCommandQueueExecuteCommandLists stream cmd_list) ;;
          _ <~ zecall (ZeCommandListDestroy cmd_list) ;;
          uret (fst r).

(** [DefaultXpuApi::eventQuery(event)]. *)
Definition eventQuery (event : Z) : U D ze_result_t :=
  if event =? 0 then uret ZE_RESULT_ERROR_INVALID_NULL_HANDLE
  else
    status <~ zecall (ZeEventQueryStatus event) ;;
    if is_success (fst status) then uret ZE_RESULT_SUCCESS
    else if ze_result_eqb (fst status) ZE_RESULT_NOT_READY then uret ZE_RESULT_NOT_READY
    else uret (fst status).

End Api.

(** Creation and destruction of a command list. *)
Definition is_list_lifetime_call (c : ZeCall) : bool :=
  match c with
  | ZeCommandListCreate _ _ | ZeCommandListDestroy _ => true
  | _ => false
  end.

(** The driver calls of one API function handle a command list
    properly: none, or a creation that failed and nothing after it, or a
    creation that succeeded, calls that neither create nor destroy a list,
    and last the destruction of the list created. *)
Definition balanced (added : list (ZeCall * ZeReply)) : bool :=
  match added with
  | [] => true
  | (ZeCommandListCreate _ _, (r, cmd_list)) :: rest =>
      if is_success r then
        match rev rest with
        | (ZeCommandListDestroy destroyed, _) :: middle =>
            (destroyed =? cmd_list)
            && forallb (fun e => negb (is_list_lifetime_call (fst e))) middle
        | _ => false
        end
      else match rest with [] => true | _ :: _ => false end
  | _ => false
  end.

(** The status of the last driver call that is not the destruction of a
    command list. *)
Definition last_status (added : list (ZeCall * ZeReply)) : option ze_result_t :=
  match filter (fun e => match fst e with ZeCommandListDestroy _ => false | _ => true end)
               (rev added) with
  | (_, (r, _)) :: _ => Some r
  | [] => None
  end.

(** A driver that answers every call with success and the handle 42. *)
Definition obliging : Driver unit := mkDriver unit (fun _ d => ((ZE_RESULT_SUCCESS, 42), d)).

(** A driver that creates command lists and then refuses to close them. *)
Definition refusing_close : Driver unit :=
  mkDriver unit (fun c d =>
    match c with
    | ZeCommandListClose _ => ((ZE_RESULT_ERROR_DEVICE_LOST, 0), d)
    | _ => ((ZE_RESULT_SUCCESS, 42), d)
    end).

(** Two discrete devices and an integrated one. *)
Definition machine : Loader := simple_loader [(11, 0); (12, 1); (13, 0)].

End DeviceApi.

(** What an API function that builds and submits a command list leaves
    behind when it returns: the statics as they were, driver calls that
    handle the list properly, and as its status that of the last call
    other than the destruction of the list. *)
Definition handles_list {D : Type} (f : DeviceApi.U D ze_result_t) : Prop :=
  forall a res a',
    f a = Some (res, a') ->
    DeviceApi.globals a' = DeviceApi.globals a
    /\ exists added,
         DeviceApi.calls a' = (DeviceApi.calls a ++ added)%list
         /\ DeviceApi.balanced added = true
         /\ (added = [] \/ DeviceApi.last_status added = Some res).

(** Lower case, by the alphabet: a capital letter of the basic Latin
    alphabet becomes the small letter at the same place, and every other
    character stays. *)
Definition capital_letters : string := "ABCDEFGHIJKLMNOPQRSTUVWXYZ".
Definition small_letters : string := "abcdefghijklmnopqrstuvwxyz".

Fixpoint letter_at (c : ascii) (from to : string) : option ascii :=
  match from, to with
  | String a from', String b to' => if Ascii.eqb c a then Some b else letter_at c from' to'
  | _, _ => None
  end.

Definition lower_case_letter (c : ascii) : ascii :=
  match letter_at c capital_letters small_letters with
  | Some small => small
  | None => c
  end.

Fixpoint lower_case (s : string) : string :=
  match s with
  | String c s' => String (lower_case_letter c) (lower_case s')
  | EmptyString => EmptyString
  end.

(** The value of the override in an environment, "auto" when unset. *)
Definition selector_override (env : string -> option string) : string :=
  match env "TORCHCOMM_XCCL_BOOTSTRAP_UNIQUEID_EXCHANGE_METHOD" with
  | Some value => value
  | None => "auto"
  end.

(** What the loader says of a device: it is integrated when its properties
    can be read and bit 0 of their flags, ZE_DEVICE_PROPERTY_FLAG_INTEGRATED
    in the Level Zero headers, is set. *)
Definition reported_integrated (L : LevelZero.Loader) (d : LevelZero.ze_device_handle_t)
    : bool :=
  match LevelZero.zeDeviceGetProperties L d with
  | (ZE_RESULT_SUCCESS, flags) => Z.testbit flags 0
  | _ => false
  end.

(** The devices found that the loader does not report as integrated. *)
Definition not_integrated (L : LevelZero.Loader) : list LevelZero.ze_device_handle_t :=
  filter (fun d => negb (reported_integrated L d)) (LevelZero.devices_found L).

(** A machine whose two devices are both integrated. *)
Definition integrated_only : LevelZero.Loader := LevelZero.simple_loader [(21, 1); (22, 3)].

(** A machine with one driver and 200 discrete devices, numbered from 1. *)
Definition rack : LevelZero.Loader :=
  LevelZero.simple_loader (map (fun i => (Z.of_nat i + 1, 0)) (seq 0 200)).

(** * Properties *)

(** ** The model on concrete inputs *)

Example to_string_0 : to_string 0 = "0". Proof. reflexivity. Qed.
Example to_string_42 : to_string 42 = "42". Proof. reflexivity. Qed.
Example to_string_neg : to_string (-7) = "-7". Proof. reflexivity. Qed.
Example stoi_1 : stoi "1" = inr 1. Proof. reflexivity. Qed.
Example stoi_abc : stoi "abc" = inl (invalid_argument "stoi"). Proof. reflexivity. Qed.
Example stoi_trailing : stoi "  -12abc" = inr (-12). Proof. reflexivity. Qed.
Example stoi_empty : stoi "" = inl (invalid_argument "stoi"). Proof. reflexivity. Qed.
Example stoi_sign_only : stoi "-" = inl (invalid_argument "stoi"). Proof. reflexivity. Qed.
Example stoi_big : stoi "2147483648" = inl (out_of_range "stoi"). Proof. reflexivity. Qed.
Example stoi_max : stoi "2147483647" = inr 2147483647. Proof. reflexivity. Qed.

Example tolower_mixed : transform_tolower "TcpStore_9" = "tcpstore_9".
Proof. reflexivity. Qed.

Example two_discrete_one_integrated :
  fst (LevelZero.getDeviceCount (LevelZero.simple_loader [(1, 0); (2, 1); (3, 0)]) true
         LevelZero.globals0)
  = (ZE_RESULT_SUCCESS, Some 2).
Proof. reflexivity. Qed.

Example only_integrated :
  fst (LevelZero.getDeviceCount (LevelZero.simple_loader [(1, 1); (2, 1)]) true
         LevelZero.globals0)
  = (ZE_RESULT_ERROR_UNINITIALIZED, None).
Proof. reflexivity. Qed.

Example scenario_A_hints :
  let '(r, l) := populateXcclConfigFromHints Mock.config0
                   [("blocking", "1"); ("bogus_key", "x")] "c" [] in
  option_map blocking (match r with inr c => Some c | inl _ => None end) = Some 1
  /\ l = [(INFO, "[comm=c] Setting config.blocking=1");
          (WARNING, "XCCL hint 'bogus_key' is not supported in this XCCL version, ignoring for comm 'c'")].
Proof. split; reflexivity. Qed.

Example rank0_creates_with_tcp_store :
  fst (createXcclComm Mock.collaborators "c" (mkCommOptions [])
         (mkObj (Mock.bootstrap0 None 0 2 "auto")
                (Mock.process0 (Mock.world0 0 2) Mock.tcp_env)))
  = inr 555.
Proof. reflexivity. Qed.

(** ** Generic facts *)

Ltac unfold_exn :=
  unfold in_proc, log, getErrorString, XPU_CHECK in *;
  unfold TC_LOG, call, call_throwing, zoom in *;
  unfold noexcept, bind, ret, throw, gets, modify in *.

Ltac break_inner :=
  match goal with
  | |- context [match ?x with _ => _ end] =>
      lazymatch x with
      | context [match _ with _ => _ end] => fail
      | _ => destruct x eqn:?
      end
  end.

Ltac simpl_state :=
  unfold Upd.set_proc, Upd.set_this, Upd.set_store, Upd.set_created_internal_store,
    Upd.set_world, Upd.add_event, Upd.set_logs, Upd.set_counter,
    Upd.set_barrier_buffer, Upd.set_method, Upd.set_getenv in *;
  cbn [this proc fst snd world getenv counter_ trace logs
       timeout_ store_ created_internal_store_ device_ rank_ comm_size_
       uniqueid_xchg_method_ barrier_buffer_ dev_type dev_index] in *.

Ltac trace_extension :=
  first
    [ exists (@nil Event); split; [symmetry; apply app_nil_r|]
    | eexists; split; [rewrite <- ?app_assoc; cbn [app]; reflexivity|] ].

Ltac in_cases :=
  repeat match goal with
         | H : In _ (_ :: _) |- _ => destruct H as [<- | H]
         | H : In _ [] |- _ => destruct H
         end.

Lemma bind_inl {S A B} (m : M S A) (k : A -> M S B) s e s' :
  m s = (inl e, s') -> bind m k s = (inl e, s').
Proof. unfold bind; intros ->; reflexivity. Qed.

Lemma bind_inr {S A B} (m : M S A) (k : A -> M S B) s a s' :
  m s = (inr a, s') -> bind m k s = k a s'.
Proof. unfold bind; intros ->; reflexivity. Qed.

(** ** C1: the selector is validated before the environment *)

Section SelectorValidation.

Context {W : Type} (C : Collaborators W).

Lemma isTCPStoreEnabled_spec (p : Process W) :
  isTCPStoreEnabled p = (inr (rendezvous_variables_present p), p).
Proof.
  unfold isTCPStoreEnabled, rendezvous_variables_present, gets.
  destruct (getenv p "MASTER_ADDR"); [destruct (getenv p "MASTER_PORT")|]; reflexivity.
Qed.

Lemma exchangeUniqueId_rejects name (o : Obj W) :
  store_ (this o) = None ->
  legal_method (uniqueid_xchg_method_ (this o))
    && rendezvous_variables_present (proc o) = false ->
  exchangeUniqueId C name o =
    (inl (runtime_error
            (if legal_method (uniqueid_xchg_method_ (this o))
             then "No way to exchange unique ID"
             else "Invalid unique ID exchange method " ++ uniqueid_xchg_method_ (this o))),
     o).
Proof.
  intros Hstore Hbad. destruct o as [b p]; cbn [this proc] in *.
  unfold exchangeUniqueId, bind, gets, in_proc, zoom; cbn [this proc].
  rewrite Hstore, isTCPStoreEnabled_spec; cbn [Upd.set_proc this proc].
  unfold legal_method in *.
  destruct (String.eqb (uniqueid_xchg_method_ b) kUniqueidXchgMethodAuto);
    destruct (String.eqb (uniqueid_xchg_method_ b) kUniqueidXchgMethodTCPStore);
    cbn [negb andb orb] in *; try reflexivity;
    rewrite Hbad; reflexivity.
Qed.

Lemma createXcclComm_rejects name options (o : Obj W) :
  store_ (this o) = None ->
  legal_method (uniqueid_xchg_method_ (this o))
    && rendezvous_variables_present (proc o) = false ->
  createXcclComm C name options o =
    (inl (runtime_error
            (if legal_method (uniqueid_xchg_method_ (this o))
             then "No way to exchange unique ID"
             else "Invalid unique ID exchange method " ++ uniqueid_xchg_method_ (this o))),
     o).
Proof.
  intros Hstore Hbad. unfold createXcclComm.
  apply bind_inl. apply exchangeUniqueId_rejects; assumption.
Qed.

(** The constructor leaves the environment alone and keeps what it was
    given and what it resolved. *)
Lemma constructor_getenv store device timeout (p : Process W) :
  getenv (snd (constructor C store device timeout p)) = getenv p.
Proof.
  unfold constructor. unfold_exn. simpl_state.
  repeat (break_inner; simpl_state); reflexivity.
Qed.

Lemma constructor_resolves store device timeout (p p1 : Process W) b :
  constructor C store device timeout p = (inr b, p1) ->
  store_ b = store
  /\ uniqueid_xchg_method_ b = resolved_method (getenv p)
  /\ getenv p1 = getenv p.
Proof.
  intros H. pose proof (constructor_getenv store device timeout p) as Henv.
  rewrite H in Henv. cbn [snd] in Henv. split; [|split; [|exact Henv]].
  - revert H. unfold constructor. unfold_exn. simpl_state.
    repeat (break_inner; simpl_state); intros H; inversion H; reflexivity.
  - revert H. unfold constructor, resolved_method. unfold_exn. simpl_state.
    repeat (break_inner; simpl_state); intros H; inversion H; reflexivity.
Qed.

Lemma create_all_rejects (calls : list (string * CommOptions)) (o : Obj W) :
  store_ (this o) = None ->
  legal_method (uniqueid_xchg_method_ (this o))
    && rendezvous_variables_present (proc o) = false ->
  create_all C calls o =
    (map (fun _ =>
            inl (runtime_error
                   (if legal_method (uniqueid_xchg_method_ (this o))
                    then "No way to exchange unique ID"
                    else "Invalid unique ID exchange method "
                           ++ uniqueid_xchg_method_ (this o))))
         calls,
     o).
Proof.
  intros Hstore Hbad. induction calls as [|[name options] rest IH]; [reflexivity|].
  cbn [create_all map].
  rewrite (createXcclComm_rejects name options o Hstore Hbad), IH. reflexivity.
Qed.

End SelectorValidation.

(** C1. Without a store from the caller, a selector other than "auto" and
    "tcpstore" makes [createXcclComm] throw "Invalid unique ID exchange
    method ..."; a legal selector with MASTER_ADDR or MASTER_PORT missing
    makes it throw "No way to exchange unique ID".  The selector is tested
    first: an illegal selector wins when the variables are missing too.
    In both cases the object and the process are left exactly as they were,
    so no store was touched, no key generated and nothing logged.  For a
    coordinator constructed without a store this holds for every call it
    ever receives, since no call changes its state. *)
Theorem C1_selector_then_environment :
  forall (W : Type) (C : Collaborators W),
    (forall (name : string) (options : CommOptions) (o : Obj W),
        store_ (this o) = None ->
        legal_method (uniqueid_xchg_method_ (this o))
          && rendezvous_variables_present (proc o) = false ->
        createXcclComm C name options o =
          (inl (runtime_error
                  (if legal_method (uniqueid_xchg_method_ (this o))
                   then "No way to exchange unique ID"
                   else "Invalid unique ID exchange method "
                          ++ uniqueid_xchg_method_ (this o))),
           o))
    /\ (forall (device : Device) (timeout : Z) (p p1 : Process W)
               (b : TorchCommXCCLBootstrap) (calls : list (string * CommOptions)),
           constructor C None device timeout p = (inr b, p1) ->
           legal_method (resolved_method (getenv p))
             && rendezvous_variables_present p = false ->
           create_all C calls (mkObj b p1) =
             (map (fun _ =>
                     inl (runtime_error
                            (if legal_method (resolved_method (getenv p))
                             then "No way to exchange unique ID"
                             else "Invalid unique ID exchange method "
                                    ++ resolved_method (getenv p))))
                  calls,
              mkObj b p1)).
Proof.
  intros W C. split.
  - intros name options o. apply createXcclComm_rejects.
  - intros device timeout p p1 b calls Hctor Hbad.
    destruct (constructor_resolves C None device timeout p p1 b Hctor)
      as (Hstore & Hmethod & Henv).
    rewrite <- Hmethod.
    apply (create_all_rejects C calls (mkObj b p1)); cbn [this proc].
    + exact Hstore.
    + rewrite Hmethod. unfold rendezvous_variables_present in *.
      rewrite Henv. exact Hbad.
Qed.

Lemma C1_witness_illegal_selector :
  createXcclComm Mock.collaborators "c" (mkCommOptions [])
    (mkObj (Mock.bootstrap0 None 1 2 "ring") (Mock.process0 (Mock.world0 1 2) Mock.no_env))
  = (inl (runtime_error "Invalid unique ID exchange method ring"),
     mkObj (Mock.bootstrap0 None 1 2 "ring") (Mock.process0 (Mock.world0 1 2) Mock.no_env)).
Proof.
  apply (proj1 (C1_selector_then_environment Mock.World Mock.collaborators)
           "c" (mkCommOptions [])
           (mkObj (Mock.bootstrap0 None 1 2 "ring")
                  (Mock.process0 (Mock.world0 1 2) Mock.no_env))); reflexivity.
Defined.

Example scenario_C :
  fst (createXcclComm Mock.collaborators "c" (mkCommOptions [])
         (mkObj (Mock.bootstrap0 None 1 2 "auto")
                (Mock.process0 (Mock.world0 1 2) Mock.no_env)))
  = inl (runtime_error "No way to exchange unique ID").
Proof. reflexivity. Qed.

(** ** C2: a store value of the wrong size *)

Section WrongSize.

Context {W : Type} (C : Collaborators W).

Lemma exchangeUniqueIdStore_wrong_size (b : TorchCommXCCLBootstrap) (p : Process W) h vec w' :
  rank_ b <> 0 ->
  store_ b = Some h ->
  store_get C h (next_key p) (world p) = (inr vec, w') ->
  List.length vec <> sizeof_onecclUniqueId C ->
  exchangeUniqueIdStore C (mkObj b p) =
    (inl (runtime_error "Invalid XCCL unique ID size"), mkObj b (after_get h w' p)).
Proof.
  intros Hrank Hstore Hget Hlen.
  unfold exchangeUniqueIdStore, through_store, getXCCLStoreKey.
  unfold_exn; cbn.
  apply Z.eqb_neq in Hrank. rewrite Hrank. cbn. rewrite Hstore. cbn.
  unfold next_key in Hget. cbn in Hget. rewrite Hget.
  apply Nat.eqb_neq in Hlen. rewrite Hlen. reflexivity.
Qed.

Lemma exchangeUniqueIdTCPStore_run name (b : TorchCommXCCLBootstrap) (p : Process W) h w1 :
  StoreManager_getStore C (kBackendName C) name (timeout_ b) (world p) = (inr h, w1) ->
  exchangeUniqueIdTCPStore C name (mkObj b p) =
    exchangeUniqueIdStore C
      (mkObj (Upd.set_created_internal_store true (Upd.set_store (Some h) b))
         (Upd.set_world w1
            (Upd.add_event (StoreManagerGetStore (kBackendName C) name (timeout_ b)) p))).
Proof.
  intros Hmgr. unfold exchangeUniqueIdTCPStore. unfold_exn.
  cbn [this proc]. rewrite Hmgr. reflexivity.
Qed.

Lemma exchangeUniqueId_wrong_size name (o : Obj W) h w1 pre b' vec w2 :
  rank_ (this o) <> 0 ->
  store_in_use C name o h w1 pre b' ->
  store_get C h (next_key (proc o)) w1 = (inr vec, w2) ->
  List.length vec <> sizeof_onecclUniqueId C ->
  exists o',
    exchangeUniqueId C name o = (inl (runtime_error "Invalid XCCL unique ID size"), o')
    /\ this o' = b'
    /\ trace (proc o') = (trace (proc o) ++ pre ++ [StoreGet h (next_key (proc o))])%list
    /\ counter_ (proc o') = int_succ (counter_ (proc o)).
Proof.
  intros Hrank Huse Hget Hlen. destruct o as [b p]; cbn [this proc] in *.
  inversion Huse as [Hs Hw Hpre Hb | w1' Hs Hlegal Henv Hmgr Hw Hpre Hb]; subst;
    cbn [this proc] in *.
  - eexists. unfold exchangeUniqueId, bind at 1, gets; cbn [this proc]. rewrite Hs.
    rewrite (exchangeUniqueIdStore_wrong_size b p h vec w2 Hrank Hs Hget Hlen).
    cbn. repeat split; reflexivity.
  - eexists. unfold exchangeUniqueId, bind at 1, gets; cbn [this proc]. rewrite Hs.
    unfold bind at 1, in_proc, zoom; cbn [this proc].
    rewrite isTCPStoreEnabled_spec, Henv. cbn [Upd.set_proc this proc].
    unfold legal_method in Hlegal.
    replace (negb (String.eqb (uniqueid_xchg_method_ b) kUniqueidXchgMethodAuto)
             && negb (String.eqb (uniqueid_xchg_method_ b) kUniqueidXchgMethodTCPStore))
      with false
      by (destruct (String.eqb (uniqueid_xchg_method_ b) kUniqueidXchgMethodAuto);
          destruct (String.eqb (uniqueid_xchg_method_ b) kUniqueidXchgMethodTCPStore);
          cbn in *; congruence).
    cbn [negb].
    unfold Upd.set_proc; cbn [this proc].
    rewrite (exchangeUniqueIdTCPStore_run name b p h w1 Hmgr).
    rewrite (exchangeUniqueIdStore_wrong_size _ _ h vec w2);
      try assumption; try reflexivity.
    cbn. repeat split; try reflexivity.
    unfold after_get, next_key; cbn. rewrite <- app_assoc; reflexivity.
Qed.

End WrongSize.

(** C2. On a rank other than 0 the exchange calls [get] on the key it has
    just generated, on the store in use (the one supplied, or the one the
    store manager returned); when the value does not have exactly
    [sizeof(onecclUniqueId)] bytes, [createXcclComm] throws "Invalid XCCL
    unique ID size".  The calls made up to that point are the store
    manager lookup (if any) and the [get]: no function of the collective
    backend has been called. *)
Theorem C2_wrong_size_fails_before_backend :
  forall (W : Type) (C : Collaborators W) (name : string) (options : CommOptions)
         (o : Obj W) (h : StoreHandle) (w1 w2 : W) (pre : list Event)
         (b' : TorchCommXCCLBootstrap) (vec : bytes),
    rank_ (this o) <> 0 ->
    store_in_use C name o h w1 pre b' ->
    store_get C h (next_key (proc o)) w1 = (inr vec, w2) ->
    List.length vec <> sizeof_onecclUniqueId C ->
    exists o',
      createXcclComm C name options o
        = (inl (runtime_error "Invalid XCCL unique ID size"), o')
      /\ trace (proc o')
         = (trace (proc o) ++ pre ++ [StoreGet h (next_key (proc o))])%list
      /\ existsb is_backend_call (pre ++ [StoreGet h (next_key (proc o))]) = false.
Proof.
  intros W C name options o h w1 w2 pre b' vec Hrank Huse Hget Hlen.
  destruct (exchangeUniqueId_wrong_size C name o h w1 pre b' vec w2 Hrank Huse Hget Hlen)
    as (o' & Hrun & _ & Htrace & _).
  exists o'. split; [|split].
  - unfold createXcclComm. apply bind_inl. exact Hrun.
  - exact Htrace.
  - inversion Huse; reflexivity.
Qed.

Lemma C2_witness_three_bytes :
  exists o',
    createXcclComm Mock.collaborators "c" (mkCommOptions [])
      (mkObj (Mock.bootstrap0 (Some 1) 1 2 "auto")
         (Mock.process0
            (Mock.put "xccl_storekey_0" [Byte.x01; Byte.x02; Byte.x03] (Mock.world0 1 2))
            Mock.no_env))
    = (inl (runtime_error "Invalid XCCL unique ID size"), o')
    /\ trace (proc o') = [StoreGet 1 "xccl_storekey_0"]
    /\ existsb is_backend_call [StoreGet 1 "xccl_storekey_0"] = false.
Proof.
  eapply (C2_wrong_size_fails_before_backend Mock.World Mock.collaborators "c"
           (mkCommOptions [])
           (mkObj (Mock.bootstrap0 (Some 1) 1 2 "auto")
              (Mock.process0
                 (Mock.put "xccl_storekey_0" [Byte.x01; Byte.x02; Byte.x03]
                    (Mock.world0 1 2))
                 Mock.no_env))
           1 _ _ [] _ [Byte.x01; Byte.x02; Byte.x03]).
  - discriminate.
  - apply supplied_store. reflexivity.
  - reflexivity.
  - discriminate.
Defined.

(** ** Hint translation: C3 and C4 *)

Section Hints.

Variable name : string.

Lemma stoi_error (s : string) (e : exception) :
  stoi s = inl e -> is_parse_error e = true.
Proof.
  unfold stoi. destruct (strtol s) as [z|].
  - destruct (in_int z); intros H; inversion H; reflexivity.
  - intros H; inversion H; reflexivity.
Qed.

Lemma int_hint_throws field set val config l e :
  stoi val = inl e -> int_hint name field set val config l = (inl e, l).
Proof. intros H. unfold int_hint, try_stoi, bind. rewrite H. reflexivity. Qed.

Lemma int_hint_assigns field set val config l v :
  stoi val = inr v ->
  int_hint name field set val config l =
    (inr (set v config),
     (l ++ [(INFO, ("[comm=" ++ name ++ "] Setting config." ++ field ++ "=" ++ to_string v)%string)])%list).
Proof. intros H. unfold int_hint, try_stoi, bind, TC_LOG, modify, ret. rewrite H. reflexivity. Qed.

Lemma int_hint_error field set val config l e l' :
  int_hint name field set val config l = (inl e, l') -> is_parse_error e = true.
Proof.
  unfold int_hint, try_stoi, bind, TC_LOG, modify, ret.
  destruct (stoi val) as [e0|v] eqn:Hs; intros H; inversion H; subst.
  eapply stoi_error; eassumption.
Qed.

(** An entry with an unknown key: one warning, the configuration as it was. *)
Lemma hint_entry_unrecognized config key val l :
  recognized key = false ->
  hint_entry name config (key, val) l =
    (inr config, (l ++ [(WARNING, unsupported_hint_warning key name)])%list).
Proof.
  unfold recognized, mem, integer_keys, string_keys. cbn [existsb]. intros H.
  repeat match goal with
         | H : (_ || _) = false |- _ =>
             apply orb_false_elim in H; destruct H
         end.
  unfold hint_entry, key_eq.
  repeat match goal with
         | H : String.eqb key _ = false |- _ => rewrite H; clear H
         end.
  reflexivity.
Qed.

(** An entry with an integer key whose value [std::stoi] rejects. *)
Lemma hint_entry_integer_throws config key val l e :
  integer_typed key = true ->
  stoi val = inl e ->
  hint_entry name config (key, val) l = (inl e, l).
Proof.
  unfold integer_typed, mem. intros Hk Hs.
  apply existsb_exists in Hk. destruct Hk as (k & Hin & Heq).
  apply String.eqb_eq in Heq. subst k.
  unfold integer_keys in Hin. cbn [In] in Hin.
  repeat (destruct Hin as [<- | Hin];
          [cbv [hint_entry key_eq String.eqb Ascii.eqb Bool.eqb orb];
           apply int_hint_throws; exact Hs|]).
  contradiction.
Qed.

(** Whatever an entry throws is a parse error of [std::stoi]. *)
Lemma hint_entry_error config kv l e l' :
  hint_entry name config kv l = (inl e, l') -> is_parse_error e = true.
Proof.
  destruct kv as [key val]. unfold hint_entry.
  repeat match goal with
         | |- context [if ?c then _ else _] => destruct c
         end;
    try (apply int_hint_error);
    unfold str_hint, bind, TC_LOG, modify, ret; intros H; inversion H.
Qed.

Lemma populate_cons config kv rest l :
  populateXcclConfigFromHints config (kv :: rest) name l =
    match hint_entry name config kv l with
    | (inr config', l') => populateXcclConfigFromHints config' rest name l'
    | (inl e, l') => (inl e, l')
    end.
Proof. reflexivity. Qed.

Lemma populate_error config hints l e l' :
  populateXcclConfigFromHints config hints name l = (inl e, l') ->
  is_parse_error e = true.
Proof.
  revert config l. induction hints as [|kv rest IH]; intros config l.
  - intros H; inversion H.
  - rewrite populate_cons.
    destruct (hint_entry name config kv l) as [[e0|config'] l0] eqn:Hentry.
    + intros H; inversion H; subst. eapply hint_entry_error; eassumption.
    + apply IH.
Qed.

(** One rejected integer value anywhere in the hints makes the pass throw. *)
Lemma populate_throws config hints l key val :
  In (key, val) hints ->
  integer_typed key = true ->
  failed (stoi val) = true ->
  exists e l',
    populateXcclConfigFromHints config hints name l = (inl e, l')
    /\ is_parse_error e = true.
Proof.
  intros Hin Hk Hs. revert config l.
  induction hints as [|kv rest IH]; intros config l; [contradiction|].
  rewrite populate_cons.
  destruct (hint_entry name config kv l) as [[e0|config'] l0] eqn:Hentry.
  - exists e0, l0. split; [reflexivity|]. eapply hint_entry_error; eassumption.
  - destruct Hin as [-> | Hin].
    + destruct (stoi val) as [e|v] eqn:Hv; [|discriminate].
      rewrite (hint_entry_integer_throws config key val l e Hk Hv) in Hentry.
      discriminate.
    + apply IH. exact Hin.
Qed.

(** The unknown entries can be dropped without changing the outcome. *)
Lemma populate_filter config hints l :
  fst (populateXcclConfigFromHints config hints name l) =
  fst (populateXcclConfigFromHints config
         (filter (fun kv => recognized (fst kv)) hints) name l).
Proof.
  assert (Hlog : forall hs c l1 l2,
             fst (populateXcclConfigFromHints c hs name l1)
             = fst (populateXcclConfigFromHints c hs name l2)).
  { intros hs. induction hs as [|[k v] rest IH]; intros c l1 l2; [reflexivity|].
    rewrite !populate_cons.
    assert (Hstep : fst (hint_entry name c (k, v) l1) = fst (hint_entry name c (k, v) l2)).
    { unfold hint_entry.
      repeat match goal with
             | |- context [if ?c then _ else _] => destruct c
             end;
        unfold int_hint, str_hint, try_stoi, bind, TC_LOG, modify, ret;
        try destruct (stoi v); reflexivity. }
    destruct (hint_entry name c (k, v) l1) as [[e1|c1] l1'];
      destruct (hint_entry name c (k, v) l2) as [[e2|c2] l2'];
      cbn [fst] in Hstep; inversion Hstep; subst; [reflexivity|apply IH]. }
  revert config l. induction hints as [|[k v] rest IH]; intros config l; [reflexivity|].
  cbn [filter fst]. destruct (recognized k) eqn:Hk.
  - rewrite !populate_cons.
    destruct (hint_entry name config (k, v) l) as [[e|c'] l']; [reflexivity|apply IH].
  - rewrite populate_cons, (hint_entry_unrecognized config k v l Hk).
    rewrite <- IH. apply Hlog.
Qed.

End Hints.

(** ** What the member functions touch *)

Section Frames.

Context {W : Type} (C : Collaborators W).

Lemma exchangeUniqueIdStore_frame b (p : Process W) :
  let o' := snd (exchangeUniqueIdStore C (mkObj b p)) in
  this o' = b
  /\ getenv (proc o') = getenv p
  /\ logs (proc o') = logs p
  /\ counter_ (proc o') = int_succ (counter_ p)
  /\ exists evs,
       trace (proc o') = (trace p ++ evs)%list
       /\ forallb is_exchange_event evs = true
       /\ (forall ev k, In ev evs -> store_key_of ev = Some k -> k = next_key p).
Proof.
  cbv zeta.
  unfold exchangeUniqueIdStore, through_store, getXCCLStoreKey, next_key.
  unfold_exn. cbn [this proc fst snd Upd.set_proc Upd.set_counter counter_ world].
  repeat (break_inner;
          cbn [this proc fst snd Upd.set_proc Upd.set_counter counter_ world] in * );
    cbn; (repeat split; try reflexivity); trace_extension;
    (split; [reflexivity|]);
    intros ev k Hin Hk; in_cases; cbn in Hk; inversion Hk; reflexivity.
Qed.



Lemma exchangeUniqueId_supplied name b (p : Process W) h :
  store_ b = Some h ->
  exchangeUniqueId C name (mkObj b p) = exchangeUniqueIdStore C (mkObj b p).
Proof.
  intros Hs. unfold exchangeUniqueId, bind, gets. cbn [this proc]. rewrite Hs. reflexivity.
Qed.

Lemma exchangeUniqueId_internal name b (p : Process W) :
  store_ b = None ->
  legal_method (uniqueid_xchg_method_ b) = true ->
  rendezvous_variables_present p = true ->
  exchangeUniqueId C name (mkObj b p) = exchangeUniqueIdTCPStore C name (mkObj b p).
Proof.
  intros Hs Hlegal Henv. unfold exchangeUniqueId.
  unfold bind at 1, gets. cbn [this proc]. rewrite Hs.
  unfold bind at 1, in_proc, zoom. cbn [this proc].
  rewrite isTCPStoreEnabled_spec, Henv. unfold Upd.set_proc. cbn [this proc].
  unfold legal_method in Hlegal.
  destruct (String.eqb (uniqueid_xchg_method_ b) kUniqueidXchgMethodAuto);
    destruct (String.eqb (uniqueid_xchg_method_ b) kUniqueidXchgMethodTCPStore);
    cbn in *; congruence.
Qed.

Lemma exchangeUniqueId_frame name (o : Obj W) :
  let o' := snd (exchangeUniqueId C name o) in
  (this o' = this o
   \/ (store_ (this o) = None
       /\ exists h, this o' =
                    Upd.set_created_internal_store true (Upd.set_store (Some h) (this o))))
  /\ getenv (proc o') = getenv (proc o)
  /\ logs (proc o') = logs (proc o)
  /\ exists evs,
       trace (proc o') = (trace (proc o) ++ evs)%list
       /\ forallb is_exchange_event evs = true.
Proof.
  cbv zeta. destruct (store_ (this o)) as [h|] eqn:Hstore.
  - destruct o as [b p]. cbn [this proc] in *.
    rewrite (exchangeUniqueId_supplied name b p h Hstore).
    pose proof (exchangeUniqueIdStore_frame b p) as F. cbv zeta in F.
    destruct F as (F1 & F2 & F3 & _ & evs & F5 & F6 & _).
    split; [left; exact F1|]. split; [exact F2|]. split; [exact F3|].
    exists evs; auto.
  - destruct (legal_method (uniqueid_xchg_method_ (this o))
              && rendezvous_variables_present (proc o)) eqn:Hok.
    + apply andb_prop in Hok. destruct Hok as [Hlegal Henv].
      destruct o as [b p]. cbn [this proc] in *.
      rewrite (exchangeUniqueId_internal name b p Hstore Hlegal Henv).
      destruct (StoreManager_getStore C (kBackendName C) name (timeout_ b) (world p))
        as [[e|h] w1] eqn:Hmgr.
      * unfold exchangeUniqueIdTCPStore. unfold_exn. cbn [this proc]. rewrite Hmgr. cbn.
        split; [left; reflexivity|].
        split; [reflexivity|]. split; [reflexivity|].
        eexists; split; reflexivity.
      * rewrite (exchangeUniqueIdTCPStore_run C name b p h w1 Hmgr).
        match goal with
        | |- context [exchangeUniqueIdStore C (mkObj ?b1 ?p1)] =>
            pose proof (exchangeUniqueIdStore_frame b1 p1) as F
        end.
        cbv zeta in F. destruct F as (F1 & F2 & F3 & _ & evs & F5 & F6 & _).
        split; [right; split; [reflexivity|exists h; exact F1]|].
        split; [rewrite F2; reflexivity|].
        split; [rewrite F3; reflexivity|].
        exists (StoreManagerGetStore (kBackendName C) name (timeout_ b) :: evs).
        split; [rewrite F5; cbn; rewrite <- app_assoc; reflexivity|].
        cbn. exact F6.
    + rewrite (exchangeUniqueId_rejects C name o Hstore Hok). cbn [snd].
      split; [left; reflexivity|].
      split; [reflexivity|]. split; [reflexivity|].
      exists []. rewrite app_nil_r; auto.
Qed.

(** Nothing happens in [cleanupTCPStore] unless the store is the coordinator's own. *)
Lemma cleanupTCPStore_skipped comm (o : Obj W) :
  created_internal_store_ (this o) = false ->
  cleanupTCPStore C comm o = (inr tt, o).
Proof.
  intros H. unfold cleanupTCPStore, bind, gets. rewrite H. reflexivity.
Qed.

Lemma cleanupTCPStore_frame comm (o : Obj W) :
  let o' := snd (cleanupTCPStore C comm o) in
  same_identity (this o) (this o')
  /\ created_internal_store_ (this o') = created_internal_store_ (this o)
  /\ getenv (proc o') = getenv (proc o)
  /\ counter_ (proc o') = counter_ (proc o).
Proof.
  cbv zeta. destruct o as [b p].
  unfold cleanupTCPStore, store_reset. unfold_exn. cbn [this proc fst snd].
  unfold same_identity.
  repeat (break_inner; cbn [this proc fst snd] in * ); cbn;
    repeat split; first [reflexivity | congruence].
Qed.

End Frames.

(** ** The phases of [createXcclComm] *)

Section Phases.

Context {W : Type} (C : Collaborators W).

Lemma createXcclComm_phases name options :
  createXcclComm C name options =
    (uniqueId <- exchangeUniqueId C name ;;
     config <- apply_hints C name options ;;
     construct_and_close C uniqueId config).
Proof. reflexivity. Qed.

Lemma apply_hints_run name options (o : Obj W) :
  apply_hints C name options o =
    let (r, l) := populateXcclConfigFromHints (initial_config C name) (hints options) name
                    (logs (proc o)) in
    (r, mkObj (this o) (Upd.set_logs l (proc o))).
Proof.
  unfold apply_hints, in_proc, zoom.
  destruct (populateXcclConfigFromHints (initial_config C name) (hints options) name
              (logs (proc o))); reflexivity.
Qed.

(** With a store that is not its own, the last phase is the backend call
    and nothing else: the object is untouched. *)
Lemma construct_and_close_external uniqueId config (o : Obj W) :
  created_internal_store_ (this o) = false ->
  let o' := snd (construct_and_close C uniqueId config o) in
  this o' = this o
  /\ exists evs,
       trace (proc o') = (trace (proc o) ++ evs)%list
       /\ forallb is_construction_event evs = true.
Proof.
  intros Hext. cbv zeta. destruct o as [b p]. cbn [this proc] in *.
  unfold construct_and_close, cleanupTCPStore, store_reset. unfold_exn.
  simpl_state.
  repeat (break_inner; simpl_state); try congruence;
    cbn; (split; [reflexivity|]); trace_extension; reflexivity.
Qed.



End Phases.

Lemma exchange_events_exclude_comm_init (evs : list Event) :
  forallb is_exchange_event evs = true -> existsb is_comm_init evs = false.
Proof.
  induction evs as [|ev evs IH]; [reflexivity|].
  cbn. intros H. apply andb_prop in H. destruct H as [H1 H2].
  rewrite (IH H2). destruct ev; cbn in *; congruence.
Qed.

Lemma exchange_events_exclude_teardown (evs : list Event) :
  forallb is_exchange_event evs = true -> existsb is_teardown_step evs = false.
Proof.
  induction evs as [|ev evs IH]; [reflexivity|].
  cbn. intros H. apply andb_prop in H. destruct H as [H1 H2].
  rewrite (IH H2). destruct ev; cbn in *; congruence.
Qed.

Lemma construction_events_exclude_teardown (evs : list Event) :
  forallb is_construction_event evs = true -> existsb is_teardown_step evs = false.
Proof.
  induction evs as [|ev evs IH]; [reflexivity|].
  cbn. intros H. apply andb_prop in H. destruct H as [H1 H2].
  rewrite (IH H2). destruct ev; cbn in *; congruence.
Qed.

(** ** C3: spellings of the hint keys *)

(** For these ten keys the camelCase and the snake_case spelling run the
    same branch. *)
Lemma two_spellings_same_branch name config val l camel snake :
  In (camel, snake) two_spellings ->
  recognized camel = true /\ recognized snake = true
  /\ hint_entry name config (camel, val) l = hint_entry name config (snake, val) l.
Proof.
  unfold two_spellings. intros Hin. cbn [In] in Hin.
  repeat (destruct Hin as [Heq | Hin];
          [inversion Heq; subst; repeat split; reflexivity|]).
  contradiction.
Qed.

(** C3. The snake_case spellings "net_name", "comm_name" and "shrink_share"
    are not among the keys that [populateXcclConfigFromHints] compares
    against: each of them takes the last branch, which logs the warning for
    an unsupported hint and leaves the configuration as it was, while the
    camelCase spellings "netName", "commName" and "shrinkShare" assign the
    field. *)
Theorem C3_missing_snake_case_spellings :
  forall (config : onecclConfig_t) (name val : string) (l : list LogRecord),
    populateXcclConfigFromHints config [("net_name", val)] name l
      = (inr config, (l ++ [(WARNING, unsupported_hint_warning "net_name" name)])%list)
    /\ populateXcclConfigFromHints config [("comm_name", val)] name l
      = (inr config, (l ++ [(WARNING, unsupported_hint_warning "comm_name" name)])%list)
    /\ populateXcclConfigFromHints config [("shrink_share", "1")] name l
      = (inr config, (l ++ [(WARNING, unsupported_hint_warning "shrink_share" name)])%list)
    /\ fst (populateXcclConfigFromHints config [("netName", val)] name l)
      = inr (Cfg.set_netName (Some (c_str val)) config)
    /\ fst (populateXcclConfigFromHints config [("commName", val)] name l)
      = inr (Cfg.set_commName (Some (c_str val)) config)
    /\ fst (populateXcclConfigFromHints config [("shrinkShare", "1")] name l)
      = inr (Cfg.set_shrinkShare 1 config).
Proof.
  intros config name val l. repeat split; reflexivity.
Qed.

(** ** C4: unknown keys and rejected integers *)

(** C4. An entry whose key is not recognized does not throw: the loop logs
    one warning, "XCCL hint '<key>' is not supported in this XCCL version,
    ignoring for comm '<name>'", with the key and the name of the
    communicator, keeps the configuration, and goes on with the remaining
    entries; dropping all
    such entries changes neither the configuration built nor whether the
    pass throws.  An entry with an integer key whose value [std::stoi]
    rejects makes [createXcclComm] throw; the calls made by then are those
    of the unique-id exchange, so the backend has not been asked to
    construct a communicator, and the exception is the parse error of
    [std::stoi] whenever the exchange itself went through. *)
Theorem C4_unknown_key_warns_rejected_integer_throws :
  forall (W : Type) (C : Collaborators W) (name : string),
    (forall config key val rest l,
        recognized key = false ->
        populateXcclConfigFromHints config ((key, val) :: rest) name l =
        populateXcclConfigFromHints config rest name
          (l ++ [(WARNING,
                  ("XCCL hint '" ++ key
                     ++ "' is not supported in this XCCL version, ignoring for comm '"
                     ++ name ++ "'")%string)])%list)
    /\ (forall config hs l,
           fst (populateXcclConfigFromHints config hs name l) =
           fst (populateXcclConfigFromHints config
                  (filter (fun kv => recognized (fst kv)) hs) name l))
    /\ (forall options (o : Obj W) key val,
           In (key, val) (hints options) ->
           integer_typed key = true ->
           failed (stoi val) = true ->
           exists e o' evs,
             createXcclComm C name options o = (inl e, o')
             /\ trace (proc o') = (trace (proc o) ++ evs)%list
             /\ existsb is_comm_init evs = false
             /\ (failed (fst (exchangeUniqueId C name o)) = false ->
                 is_parse_error e = true)).
Proof.
  intros W C name. split; [|split].
  - intros config key val rest l Hk.
    rewrite populate_cons, (hint_entry_unrecognized name config key val l Hk).
    reflexivity.
  - intros config hs l. apply populate_filter.
  - intros options o key val Hin Hk Hbad.
    rewrite createXcclComm_phases.
    pose proof (exchangeUniqueId_frame C name o) as F. cbv zeta in F.
    destruct F as (_ & _ & _ & evs & Htrace & Hevs).
    destruct (exchangeUniqueId C name o) as [[e|uid] o1] eqn:Hx; cbn [snd fst] in *.
    + exists e, o1, evs. rewrite (bind_inl _ _ _ _ _ Hx).
      split; [reflexivity|]. split; [exact Htrace|].
      split; [apply exchange_events_exclude_comm_init; exact Hevs|].
      cbn. discriminate.
    + rewrite (bind_inr _ _ _ _ _ Hx).
      pose proof (apply_hints_run C name options o1) as Hh.
      destruct (populate_throws name (initial_config C name) (hints options)
                  (logs (proc o1)) key val Hin Hk Hbad) as (e & l' & Hpop & He).
      rewrite Hpop in Hh.
      exists e, (mkObj (this o1) (Upd.set_logs l' (proc o1))), evs.
      rewrite (bind_inl _ _ _ _ _ Hh).
      split; [reflexivity|]. split; [exact Htrace|].
      split; [apply exchange_events_exclude_comm_init; exact Hevs|].
      intros _. exact He.
Qed.

Lemma C4_witness_min_ctas_abc :
  populateXcclConfigFromHints Mock.config0 [("bogus", "x"); ("minCTAs", "3")] "c" []
  = populateXcclConfigFromHints Mock.config0 [("minCTAs", "3")] "c"
      [(WARNING,
        "XCCL hint 'bogus' is not supported in this XCCL version, ignoring for comm 'c'")]
  /\ exists e o' evs,
       createXcclComm Mock.collaborators "c" (mkCommOptions [("min_ctas", "abc")])
         (mkObj (Mock.bootstrap0 (Some 1) 0 2 "auto")
                (Mock.process0 (Mock.world0 0 2) Mock.no_env))
       = (inl e, o')
       /\ trace (proc o') = ([] ++ evs)%list
       /\ existsb is_comm_init evs = false
       /\ (failed (fst (exchangeUniqueId Mock.collaborators "c"
                          (mkObj (Mock.bootstrap0 (Some 1) 0 2 "auto")
                                 (Mock.process0 (Mock.world0 0 2) Mock.no_env)))) = false ->
           is_parse_error e = true).
Proof.
  split.
  - apply (proj1 (C4_unknown_key_warns_rejected_integer_throws
                    Mock.World Mock.collaborators "c")
             Mock.config0 "bogus" "x" [("minCTAs", "3")] []).
    reflexivity.
  - apply (proj2 (proj2 (C4_unknown_key_warns_rejected_integer_throws
                           Mock.World Mock.collaborators "c"))
             (mkCommOptions [("min_ctas", "abc")])
             (mkObj (Mock.bootstrap0 (Some 1) 0 2 "auto")
                    (Mock.process0 (Mock.world0 0 2) Mock.no_env))
             "min_ctas" "abc").
    + left; reflexivity.
    + reflexivity.
    + reflexivity.
Defined.

Example scenario_D :
  fst (createXcclComm Mock.collaborators "c" (mkCommOptions [("min_ctas", "abc")])
         (mkObj (Mock.bootstrap0 (Some 1) 0 2 "auto")
                (Mock.process0 (Mock.world0 0 2) Mock.no_env)))
  = inl (invalid_argument "stoi").
Proof. reflexivity. Qed.

(** ** C5: store keys *)

Lemma of_string_to_string (z : Z) : of_string (to_string z) = Some z.
Proof.
  unfold of_string, to_string. rewrite NilEmpty.isi. cbn [option_map].
  rewrite DecimalZ.of_to. reflexivity.
Qed.

Lemma to_string_inj (a b : Z) : to_string a = to_string b -> a = b.
Proof.
  intros H. pose proof (of_string_to_string a) as Ha.
  rewrite H, of_string_to_string in Ha. congruence.
Qed.

Lemma strip_prefix_app (p s : string) : strip_prefix p (p ++ s) = Some s.
Proof.
  induction p as [|a p IH]; [reflexivity|].
  cbn. rewrite Ascii.eqb_refl. exact IH.
Qed.

Lemma key_suffix_key_of_counter (c : Z) : key_suffix (key_of_counter c) = Some c.
Proof.
  unfold key_suffix, key_of_counter. rewrite strip_prefix_app.
  apply of_string_to_string.
Qed.

Lemma int_succ_no_overflow (c : Z) :
  INT_MIN <= c -> c < INT_MAX -> int_succ c = c + 1.
Proof.
  unfold int_succ, to_int, INT_MIN, INT_MAX. intros Hlo Hhi.
  rewrite Z.mod_small by lia. lia.
Qed.

Lemma counters_from_nth (n : nat) : forall c i v,
  nth_error (counters_from c n) i = Some v -> v = c + Z.of_nat i.
Proof.
  induction n as [|n IH]; intros c i v H.
  - destruct i; discriminate.
  - destruct i as [|i]; cbn in H.
    + inversion H. lia.
    + apply IH in H. lia.
Qed.

Section Keys.

Context {W : Type} (C : Collaborators W).

Lemma getXCCLStoreKey_run (p : Process W) :
  getXCCLStoreKey p =
    (inr (key_of_counter (counter_ p)), Upd.set_counter (int_succ (counter_ p)) p).
Proof. reflexivity. Qed.

Lemma generate_keys_run (n : nat) : forall p : Process W,
  0 <= counter_ p ->
  counter_ p + Z.of_nat n <= INT_MAX ->
  fst (generate_keys n p) = map key_of_counter (counters_from (counter_ p) n)
  /\ counter_ (snd (generate_keys n p)) = counter_ p + Z.of_nat n.
Proof.
  induction n as [|n IH]; intros p Hlo Hhi.
  - cbn. split; [reflexivity|lia].
  - cbn [generate_keys]. rewrite getXCCLStoreKey_run.
    assert (Hs : int_succ (counter_ p) = counter_ p + 1).
    { apply int_succ_no_overflow; unfold INT_MIN; lia. }
    specialize (IH (Upd.set_counter (int_succ (counter_ p)) p)).
    cbn [Upd.set_counter counter_] in IH. rewrite Hs in *.
    destruct IH as [IH1 IH2]; try lia.
    destruct (generate_keys n (Upd.set_counter (counter_ p + 1) p)) as [keys p'].
    cbn [fst snd] in *. split.
    + cbn [counters_from map]. rewrite IH1. reflexivity.
    + lia.
Qed.

Lemma exchange_all_counter (bs : list TorchCommXCCLBootstrap) : forall p : Process W,
  0 <= counter_ p ->
  counter_ p + Z.of_nat (List.length bs) <= INT_MAX ->
  counter_ (exchange_all C bs p) = counter_ p + Z.of_nat (List.length bs).
Proof.
  induction bs as [|b bs IH]; intros p Hlo Hhi.
  - cbn. lia.
  - cbn [exchange_all List.length] in *.
    pose proof (exchangeUniqueIdStore_frame C b p) as F. cbv zeta in F.
    destruct F as (_ & _ & _ & Hc & _).
    rewrite int_succ_no_overflow in Hc by (unfold INT_MIN; lia).
    rewrite IH; rewrite Hc; lia.
Qed.

End Keys.

(** C5. [getXCCLStoreKey] returns "xccl_storekey_" followed by the decimal
    counter and then increments the static counter.  Every exchange, by
    whichever coordinator of the process, generates exactly one key: the
    counter moves to its successor and every store access of that exchange
    names the key of the old counter value.  As long as the [int] counter
    does not reach [INT_MAX], the successor is the value plus one: after
    any sequence of exchanges the counter has advanced by their number, the
    next exchange accesses the store under the key whose numeric suffix is
    the start value plus the number of exchanges before it, and the keys
    generated by [n] consecutive calls are pairwise different with strictly
    increasing numeric suffixes. *)
Theorem C5_store_keys_fresh_and_increasing :
  forall (W : Type) (C : Collaborators W),
    (forall p : Process W,
        getXCCLStoreKey p =
          (inr ("xccl_storekey_" ++ to_string (counter_ p)),
           Upd.set_counter (int_succ (counter_ p)) p)
        /\ (0 <= counter_ p -> counter_ p < INT_MAX ->
            int_succ (counter_ p) = counter_ p + 1))
    /\ (forall (b : TorchCommXCCLBootstrap) (p : Process W),
           let o' := snd (exchangeUniqueIdStore C (mkObj b p)) in
           counter_ (proc o') = int_succ (counter_ p)
           /\ exists evs,
                trace (proc o') = (trace p ++ evs)%list
                /\ forall ev k, In ev evs -> store_key_of ev = Some k ->
                                k = "xccl_storekey_" ++ to_string (counter_ p))
    /\ (forall (bs : list TorchCommXCCLBootstrap) (b : TorchCommXCCLBootstrap)
               (p : Process W),
           0 <= counter_ p ->
           counter_ p + Z.of_nat (List.length bs) < INT_MAX ->
           let p1 := exchange_all C bs p in
           let o' := snd (exchangeUniqueIdStore C (mkObj b p1)) in
           counter_ p1 = counter_ p + Z.of_nat (List.length bs)
           /\ counter_ (proc o') = counter_ p + Z.of_nat (List.length bs) + 1
           /\ exists evs,
                trace (proc o') = (trace p1 ++ evs)%list
                /\ forall ev k, In ev evs -> store_key_of ev = Some k ->
                                key_suffix k = Some (counter_ p + Z.of_nat (List.length bs)))
    /\ (forall (n : nat) (p : Process W),
           0 <= counter_ p ->
           counter_ p + Z.of_nat n <= INT_MAX ->
           let keys := fst (generate_keys n p) in
           List.length keys = n
           /\ forall i j ki kj,
                (i < j)%nat ->
                nth_error keys i = Some ki ->
                nth_error keys j = Some kj ->
                ki <> kj
                /\ key_suffix ki = Some (counter_ p + Z.of_nat i)
                /\ key_suffix kj = Some (counter_ p + Z.of_nat j)
                /\ counter_ p + Z.of_nat i < counter_ p + Z.of_nat j).
Proof.
  intros W C. split; [|split; [|split]].
  - intros p. split; [reflexivity|].
    intros Hlo Hhi. apply int_succ_no_overflow; unfold INT_MIN; lia.
  - intros b p. cbv zeta.
    pose proof (exchangeUniqueIdStore_frame C b p) as F. cbv zeta in F.
    destruct F as (_ & _ & _ & Hc & evs & Htrace & _ & Hkeys).
    split; [exact Hc|]. exists evs. split; [exact Htrace|exact Hkeys].
  - intros bs b p Hlo Hhi. cbv zeta.
    assert (Hc : counter_ (exchange_all C bs p) = counter_ p + Z.of_nat (List.length bs)).
    { apply exchange_all_counter; [exact Hlo|lia]. }
    pose proof (exchangeUniqueIdStore_frame C b (exchange_all C bs p)) as F.
    cbv zeta in F. destruct F as (_ & _ & _ & Hs & evs & Htrace & _ & Hkeys).
    split; [exact Hc|]. split.
    + rewrite Hs, Hc. apply int_succ_no_overflow; unfold INT_MIN; lia.
    + exists evs. split; [exact Htrace|].
      intros ev k Hin Hk. rewrite (Hkeys ev k Hin Hk). unfold next_key.
      rewrite Hc. apply key_suffix_key_of_counter.
  - intros n p Hlo Hhi. cbv zeta.
    destruct (generate_keys_run n p Hlo Hhi) as [Hkeys _]. rewrite Hkeys.
    split.
    + rewrite length_map. clear. generalize (counter_ p).
      induction n as [|n IH]; intros c; cbn; [reflexivity|]. rewrite IH. reflexivity.
    + intros i j ki kj Hij Hi Hj.
      rewrite nth_error_map in Hi, Hj.
      destruct (nth_error (counters_from (counter_ p) n) i) as [a|] eqn:Ha; [|discriminate].
      destruct (nth_error (counters_from (counter_ p) n) j) as [b|] eqn:Hb; [|discriminate].
      apply counters_from_nth in Ha. apply counters_from_nth in Hb.
      cbn [option_map] in Hi, Hj. inversion Hi. inversion Hj. subst.
      rewrite !key_suffix_key_of_counter.
      repeat split; try lia.
      intros Heq. apply (f_equal key_suffix) in Heq.
      rewrite !key_suffix_key_of_counter in Heq. inversion Heq. lia.
Qed.

Lemma C5_witness_three_calls :
  let p := Mock.process0 (Mock.world0 0 2) Mock.no_env in
  let bs := [Mock.bootstrap0 (Some 1) 0 2 "auto"; Mock.bootstrap0 (Some 1) 1 2 "auto"] in
  let b := Mock.bootstrap0 (Some 1) 0 2 "auto" in
  let p1 := exchange_all Mock.collaborators bs p in
  let o' := snd (exchangeUniqueIdStore Mock.collaborators (mkObj b p1)) in
  (counter_ p1 = 0 + 2
   /\ counter_ (proc o') = 0 + 2 + 1
   /\ exists evs,
        trace (proc o') = (trace p1 ++ evs)%list
        /\ forall ev k, In ev evs -> store_key_of ev = Some k -> key_suffix k = Some (0 + 2))
  /\ List.length (fst (generate_keys 3 p)) = 3%nat.
Proof.
  cbv zeta. split.
  - apply (proj1 (proj2 (proj2 (C5_store_keys_fresh_and_increasing
                                  Mock.World Mock.collaborators)))
             [Mock.bootstrap0 (Some 1) 0 2 "auto"; Mock.bootstrap0 (Some 1) 1 2 "auto"]
             (Mock.bootstrap0 (Some 1) 0 2 "auto")
             (Mock.process0 (Mock.world0 0 2) Mock.no_env)).
    + cbn; lia.
    + vm_compute; reflexivity.
  - apply (proj2 (proj2 (proj2 (C5_store_keys_fresh_and_increasing
                                  Mock.World Mock.collaborators)))
             3%nat (Mock.process0 (Mock.world0 0 2) Mock.no_env)).
    + cbn; lia.
    + vm_compute; discriminate.
Defined.

Example three_keys :
  fst (generate_keys 3 (Mock.process0 (Mock.world0 0 2) Mock.no_env))
  = ["xccl_storekey_0"; "xccl_storekey_1"; "xccl_storekey_2"].
Proof. reflexivity. Qed.

(** ** C6: device assignment *)

Section DeviceAssignment.

Context {W : Type} (C : Collaborators W).

(** What the constructor stores, whenever it returns. *)
Lemma constructor_fields store device timeout (p p' : Process W) b :
  constructor C store device timeout p = (inr b, p') ->
  timeout_ b = timeout
  /\ store_ b = store
  /\ created_internal_store_ b = false
  /\ rank_ b = fst (query_ranksize C (world p))
  /\ comm_size_ b = snd (query_ranksize C (world p))
  /\ uniqueid_xchg_method_ b =
       transform_tolower
         match getenv p "TORCHCOMM_XCCL_BOOTSTRAP_UNIQUEID_EXCHANGE_METHOD" with
         | Some env => env
         | None => kUniqueidXchgMethodDefault
         end.
Proof.
  unfold constructor. unfold_exn. simpl_state.
  repeat (break_inner; simpl_state); intros H; inversion H; subst; clear H;
    cbn; repeat split; reflexivity.
Qed.


(** With no device at all the remainder has no value. *)
Lemma constructor_without_devices store device timeout (p : Process W) w1 :
  dev_index device = -1 ->
  xpu_getDeviceCount C (world p) = ((ZE_RESULT_SUCCESS, 0), w1) ->
  fst (constructor C store device timeout p) = inl integer_division_trap.
Proof.
  intros Hidx Hcount.
  unfold constructor. unfold_exn. simpl_state.
  rewrite Hidx. cbn [Z.eqb Pos.eqb].
  destruct (getenv p "TORCHCOMM_XCCL_BOOTSTRAP_UNIQUEID_EXCHANGE_METHOD"); simpl_state;
    rewrite Hcount; simpl_state; cbn [is_success ze_result_eqb]; simpl_state;
    reflexivity.
Qed.



(** The destructor frees the barrier buffer and assigns nothing else. *)
Lemma destructor_frame (o : Obj W) :
  let o' := snd (destructor C o) in
  timeout_ (this o') = timeout_ (this o)
  /\ store_ (this o') = store_ (this o)
  /\ created_internal_store_ (this o') = created_internal_store_ (this o)
  /\ device_ (this o') = device_ (this o)
  /\ rank_ (this o') = rank_ (this o)
  /\ exists evs,
       trace (proc o') = (trace (proc o) ++ evs)%list
       /\ existsb is_teardown_step evs = false.
Proof.
  cbv zeta. destruct o as [b p].
  unfold destructor. unfold_exn. simpl_state.
  repeat (break_inner; simpl_state); cbn;
    (repeat (split; [reflexivity|])); trace_extension; reflexivity.
Qed.

End DeviceAssignment.




Example no_device_no_index :
  fst (constructor Mock.collaborators None (mkDevice kXPU (-1)) 1000
         (Mock.process0 (Mock.mkWorld 3 8 0 [] onecclSuccess ZE_RESULT_SUCCESS) Mock.no_env))
  = inl integer_division_trap.
Proof. reflexivity. Qed.

Example rank5_gets_device_1 :
  option_map device_
    (match fst (constructor Mock.collaborators None (mkDevice kXPU (-1)) 1000
                  (Mock.process0 (Mock.world0 5 8) Mock.no_env)) with
     | inr b => Some b
     | inl _ => None
     end)
  = Some (mkDevice kXPU 1).
Proof. reflexivity. Qed.

(** ** C7: a store supplied by the caller *)

Section ExternalStore.

Context {W : Type} (C : Collaborators W).

Lemma createXcclComm_external name options (o : Obj W) h :
  store_ (this o) = Some h ->
  created_internal_store_ (this o) = false ->
  let o' := snd (createXcclComm C name options o) in
  this o' = this o
  /\ exists evs,
       trace (proc o') = (trace (proc o) ++ evs)%list
       /\ existsb is_teardown_step evs = false.
Proof.
  intros Hstore Hext. cbv zeta. rewrite createXcclComm_phases.
  pose proof (exchangeUniqueId_frame C name o) as F. cbv zeta in F.
  destruct F as (Fthis & _ & _ & evs & Ftrace & Fevs).
  assert (Hthis : this (snd (exchangeUniqueId C name o)) = this o).
  { destruct Fthis as [H | (H & _)]; [exact H|congruence]. }
  clear Fthis. apply exchange_events_exclude_teardown in Fevs.
  destruct (exchangeUniqueId C name o) as [[e|uid] o1] eqn:Hx; cbn [snd] in *.
  - rewrite (bind_inl _ _ _ _ _ Hx). cbn [snd].
    split; [exact Hthis|]. exists evs. split; assumption.
  - rewrite (bind_inr _ _ _ _ _ Hx).
    pose proof (apply_hints_run C name options o1) as Hh.
    destruct (populateXcclConfigFromHints (initial_config C name) (hints options) name
                (logs (proc o1))) as [[e|config] l].
    + rewrite (bind_inl _ _ _ _ _ Hh). cbn.
      split; [exact Hthis|]. exists evs. split; assumption.
    + rewrite (bind_inr _ _ _ _ _ Hh).
      match goal with
      | |- context [construct_and_close C uid config ?o2] =>
          pose proof (construct_and_close_external C uid config o2) as G
      end.
      cbn [this proc] in G.
      assert (Hext1 : created_internal_store_ (this o1) = false) by (rewrite Hthis; exact Hext).
      specialize (G Hext1). cbv zeta in G.
      destruct G as (Gthis & evs' & Gtrace & Gevs).
      apply construction_events_exclude_teardown in Gevs.
      split; [congruence|].
      exists (evs ++ evs')%list. split.
      * rewrite Gtrace. cbn [trace Upd.set_logs]. rewrite Ftrace, app_assoc. reflexivity.
      * rewrite existsb_app, Fevs, Gevs. reflexivity.
Qed.

Lemma create_all_external (calls : list (string * CommOptions)) : forall (o : Obj W) h,
  store_ (this o) = Some h ->
  created_internal_store_ (this o) = false ->
  let o' := snd (create_all C calls o) in
  this o' = this o
  /\ exists evs,
       trace (proc o') = (trace (proc o) ++ evs)%list
       /\ existsb is_teardown_step evs = false.
Proof.
  induction calls as [|[name options] rest IH]; intros o h Hstore Hext; cbv zeta.
  - cbn. split; [reflexivity|]. exists []. rewrite app_nil_r. split; reflexivity.
  - cbn [create_all].
    pose proof (createXcclComm_external name options o h Hstore Hext) as F. cbv zeta in F.
    destruct (createXcclComm C name options o) as [r o1]. cbn [snd] in F.
    destruct F as (Fthis & evs & Ftrace & Fevs).
    specialize (IH o1 h). rewrite Fthis in IH. specialize (IH Hstore Hext). cbv zeta in IH.
    destruct (create_all C rest o1) as [rs o2]. cbn [snd] in *.
    destruct IH as (IHthis & evs' & IHtrace & IHevs).
    split; [exact IHthis|].
    exists (evs ++ evs')%list. split.
    + rewrite IHtrace, Ftrace, app_assoc. reflexivity.
    + rewrite existsb_app, Fevs, IHevs. reflexivity.
Qed.

End ExternalStore.

(** C7. A coordinator constructed with a store keeps that store and keeps
    [created_internal_store_] false: after any number of [createXcclComm]
    calls, whatever each of them returns or throws, and after the
    destructor, the store member is still the handle that was supplied, the
    flag is still false, and among the calls made since construction there
    is no release of the store, no barrier all-reduce and no stream
    synchronization. *)
Theorem C7_supplied_store_is_never_released :
  forall (W : Type) (C : Collaborators W) (h : StoreHandle) (device : Device)
         (timeout : Z) (p p1 : Process W) (b : TorchCommXCCLBootstrap),
    constructor C (Some h) device timeout p = (inr b, p1) ->
    store_ b = Some h
    /\ created_internal_store_ b = false
    /\ forall calls,
         let o' := snd (create_all C calls (mkObj b p1)) in
         let o'' := snd (destructor C o') in
         store_ (this o') = Some h
         /\ created_internal_store_ (this o') = false
         /\ store_ (this o'') = Some h
         /\ created_internal_store_ (this o'') = false
         /\ exists evs,
              trace (proc o'') = (trace p1 ++ evs)%list
              /\ existsb is_teardown_step evs = false.
Proof.
  intros W C h device timeout p p1 b Hctor.
  destruct (constructor_fields C (Some h) device timeout p p1 b Hctor)
    as (_ & Hstore & Hext & _).
  split; [exact Hstore|]. split; [exact Hext|].
  intros calls. cbv zeta.
  pose proof (create_all_external C calls (mkObj b p1) h Hstore Hext) as F.
  cbv zeta in F. cbn [this proc] in F. destruct F as (Fthis & evs & Ftrace & Fevs).
  pose proof (destructor_frame C (snd (create_all C calls (mkObj b p1)))) as G.
  cbv zeta in G. destruct G as (_ & Gstore & Gext & _ & _ & evs' & Gtrace & Gevs).
  rewrite Gstore, Gext, Fthis.
  repeat (split; [assumption|]).
  exists (evs ++ evs')%list. split.
  - rewrite Gtrace, Ftrace, app_assoc. reflexivity.
  - rewrite existsb_app, Fevs, Gevs. reflexivity.
Qed.

Lemma C7_witness_supplied_store :
  let p := Mock.process0 (Mock.world0 0 2) Mock.no_env in
  let b := Mock.bootstrap0 (Some 1) 0 2 "auto" in
  let p1 := snd (constructor Mock.collaborators (Some 1) (mkDevice kXPU 0) 1000 p) in
  store_ b = Some 1
  /\ created_internal_store_ b = false
  /\ forall calls,
       let o' := snd (create_all Mock.collaborators calls (mkObj b p1)) in
       let o'' := snd (destructor Mock.collaborators o') in
       store_ (this o') = Some 1
       /\ created_internal_store_ (this o') = false
       /\ store_ (this o'') = Some 1
       /\ created_internal_store_ (this o'') = false
       /\ exists evs,
            trace (proc o'') = (trace p1 ++ evs)%list
            /\ existsb is_teardown_step evs = false.
Proof.
  cbv zeta.
  apply (C7_supplied_store_is_never_released Mock.World Mock.collaborators 1
           (mkDevice kXPU 0) 1000 (Mock.process0 (Mock.world0 0 2) Mock.no_env)).
  reflexivity.
Defined.

(** ** C8: failures of the closing barrier *)

Section ClosingBarrier.

Context {W : Type} (C : Collaborators W).

(** The closing barrier on a coordinator that owns its store, given what
    the three calls return. *)
Lemma cleanupTCPStore_own_store comm (b : TorchCommXCCLBootstrap) (p : Process W)
    stream w3 result w4 status w5 :
  created_internal_store_ b = true ->
  xpu_getCurrentXPUStream C (dev_index (device_ b)) (world p) = (stream, w3) ->
  xccl_allReduce C (barrier_buffer_ b) (barrier_buffer_ b) 1 onecclFloat32 onecclSum comm
    stream w3 = (result, w4) ->
  xpu_streamSynchronize C stream w4 = (status, w5) ->
  exists o',
    cleanupTCPStore C comm (mkObj b p) =
      (if is_success status then inr tt
       else inl (xpu_check_failure "Stream synchronization failed" status), o')
    /\ store_ (this o') = None
    /\ (oneccl_ok result = false ->
        In (ERROR, "XCCL AllReduce failed: " ++ xccl_getErrorString C result)
           (logs (proc o'))).
Proof.
  intros Hown Hstream Hreduce Hsync.
  unfold cleanupTCPStore, store_reset. unfold_exn. simpl_state.
  rewrite Hown. simpl_state.
  destruct (store_ b) as [h|] eqn:Hs; simpl_state;
    rewrite Hstream; simpl_state; rewrite Hreduce; simpl_state;
    destruct (oneccl_ok result) eqn:Hok; simpl_state;
    rewrite Hsync; simpl_state;
    destruct (is_success status); simpl_state;
    (eexists; split; [reflexivity|]; split; [first [reflexivity | exact Hs]|]);
    intros Hfail; try discriminate;
    cbn [logs proc]; apply in_or_app; right; left; reflexivity.
Qed.

End ClosingBarrier.

(** C8, as the code has it.  When the coordinator owns its store and the
    backend has constructed the communicator, a failure of the barrier
    all-reduce is logged at ERROR level and changes nothing else: the
    outcome of [createXcclComm] is decided by the stream synchronization
    that follows.  If the synchronization succeeds, the communicator handle
    is returned, whatever the all-reduce reported; if it fails, [XPU_CHECK]
    throws "Stream synchronization failed" with its status and
    [createXcclComm] fails.  In both cases the store reference has been
    dropped. *)
Theorem C8_all_reduce_failure_logged_sync_failure_thrown :
  forall (W : Type) (C : Collaborators W) (name : string) (options : CommOptions)
         (o o1 : Obj W) (uid : onecclUniqueId) (config : onecclConfig_t)
         (l : list LogRecord) (comm : onecclComm_t) (stream : xpuStream_t)
         (result : onecclResult_t) (status : ze_result_t) (w2 w3 w4 w5 : W),
    exchangeUniqueId C name o = (inr uid, o1) ->
    populateXcclConfigFromHints (initial_config C name) (hints options) name
      (logs (proc o1)) = (inr config, l) ->
    xccl_commInitRankConfig C (comm_size_ (this o1)) uid (rank_ (this o1)) config
      (world (proc o1)) = ((onecclSuccess, comm), w2) ->
    comm <> nullptr ->
    created_internal_store_ (this o1) = true ->
    xpu_getCurrentXPUStream C (dev_index (device_ (this o1))) w2 = (stream, w3) ->
    xccl_allReduce C (barrier_buffer_ (this o1)) (barrier_buffer_ (this o1)) 1
      onecclFloat32 onecclSum comm stream w3 = (result, w4) ->
    xpu_streamSynchronize C stream w4 = (status, w5) ->
    exists o',
      createXcclComm C name options o =
        (if is_success status then inr comm
         else inl (xpu_check_failure "Stream synchronization failed" status), o')
      /\ store_ (this o') = None
      /\ (oneccl_ok result = false ->
          In (ERROR, "XCCL AllReduce failed: " ++ xccl_getErrorString C result)
             (logs (proc o'))).
Proof.
  intros W C name options o o1 uid config l comm stream result status w2 w3 w4 w5
         Hx Hpop Hinit Hcomm Hown Hstream Hreduce Hsync.
  rewrite createXcclComm_phases, (bind_inr _ _ _ _ _ Hx).
  pose proof (apply_hints_run C name options o1) as Hh. rewrite Hpop in Hh.
  rewrite (bind_inr _ _ _ _ _ Hh).
  unfold construct_and_close. unfold bind at 1, gets. cbn [this proc].
  unfold bind at 1, in_proc, zoom, call. cbn [this proc Upd.set_logs world].
  rewrite Hinit. unfold Upd.set_proc. cbn [this proc fst snd oneccl_ok negb orb].
  apply Z.eqb_neq in Hcomm. rewrite Hcomm.
  unfold bind at 1, ret at 1. unfold bind at 1.
  match goal with
  | |- context [cleanupTCPStore C comm (mkObj ?b1 ?p1)] =>
      destruct (cleanupTCPStore_own_store C comm b1 p1 stream w3 result w4 status w5
                  Hown Hstream Hreduce Hsync) as (o' & Hclean & Hstore & Hlog)
  end.
  rewrite Hclean. exists o'.
  destruct (is_success status); (split; [reflexivity|]); split; assumption.
Qed.

Lemma C8_witness_all_reduce_fails :
  let w := Mock.mkWorld 0 2 4 [] (onecclFailure 5) ZE_RESULT_SUCCESS in
  let o := mkObj (Mock.bootstrap0 None 0 2 "auto") (Mock.process0 w Mock.tcp_env) in
  exists o',
    createXcclComm Mock.collaborators "c" (mkCommOptions []) o
    = (if is_success ZE_RESULT_SUCCESS then inr 555
       else inl (xpu_check_failure "Stream synchronization failed" ZE_RESULT_SUCCESS), o')
    /\ store_ (this o') = None
    /\ (oneccl_ok (onecclFailure 5) = false ->
        In (ERROR, "XCCL AllReduce failed: "
                     ++ xccl_getErrorString Mock.collaborators (onecclFailure 5))
           (logs (proc o'))).
Proof.
  cbv zeta.
  apply (C8_all_reduce_failure_logged_sync_failure_thrown Mock.World Mock.collaborators
           "c" (mkCommOptions [])
           (mkObj (Mock.bootstrap0 None 0 2 "auto")
              (Mock.process0 (Mock.mkWorld 0 2 4 [] (onecclFailure 5) ZE_RESULT_SUCCESS)
                 Mock.tcp_env))
           (snd (exchangeUniqueId Mock.collaborators "c"
                   (mkObj (Mock.bootstrap0 None 0 2 "auto")
                      (Mock.process0
                         (Mock.mkWorld 0 2 4 [] (onecclFailure 5) ZE_RESULT_SUCCESS)
                         Mock.tcp_env))))
           Mock.unique_id (initial_config Mock.collaborators "c") [] 555 77
           (onecclFailure 5) ZE_RESULT_SUCCESS
           (Mock.put "xccl_storekey_0" Mock.unique_id
              (Mock.mkWorld 0 2 4 [] (onecclFailure 5) ZE_RESULT_SUCCESS))
           (Mock.put "xccl_storekey_0" Mock.unique_id
              (Mock.mkWorld 0 2 4 [] (onecclFailure 5) ZE_RESULT_SUCCESS))
           (Mock.put "xccl_storekey_0" Mock.unique_id
              (Mock.mkWorld 0 2 4 [] (onecclFailure 5) ZE_RESULT_SUCCESS))
           (Mock.put "xccl_storekey_0" Mock.unique_id
              (Mock.mkWorld 0 2 4 [] (onecclFailure 5) ZE_RESULT_SUCCESS))).
  - reflexivity.
  - reflexivity.
  - reflexivity.
  - discriminate.
  - reflexivity.
  - reflexivity.
  - reflexivity.
  - reflexivity.
Defined.

(** The closing-barrier claim fails for the stream synchronization: on
    rank 0 with a store made by the coordinator, a backend that
    constructs communicator 555 and an all-reduce that succeeds, a stream
    synchronization reporting a lost device makes [createXcclComm] throw,
    after the communicator was constructed. *)
Lemma C8_counterexample_sync_failure_escalates :
  let w := Mock.mkWorld 0 2 4 [] onecclSuccess ZE_RESULT_ERROR_DEVICE_LOST in
  let o := mkObj (Mock.bootstrap0 None 0 2 "auto") (Mock.process0 w Mock.tcp_env) in
  let r := createXcclComm Mock.collaborators "c" (mkCommOptions []) o in
  fst r = inl (xpu_check_failure "Stream synchronization failed" ZE_RESULT_ERROR_DEVICE_LOST)
  /\ created_internal_store_ (this (snd r)) = true
  /\ existsb is_comm_init (trace (proc (snd r))) = true
  /\ xccl_commInitRankConfig Mock.collaborators 2 Mock.unique_id 0
       (initial_config Mock.collaborators "c")
       (Mock.put "xccl_storekey_0" Mock.unique_id w)
     = ((onecclSuccess, 555), Mock.put "xccl_storekey_0" Mock.unique_id w)
  /\ ~ (exists comm, fst r = inr comm).
Proof.
  cbv zeta. repeat split; try reflexivity.
  intros [comm H]. vm_compute in H. discriminate.
Qed.

(** ** C9: the selector is resolved at construction, validated at use *)

Section SelectorDeferred.

Context {W : Type} (C : Collaborators W).





End SelectorDeferred.

Lemma tolower_lower_case_letter (c : ascii) : tolower c = lower_case_letter c.
Proof.
  destruct c as [b0 b1 b2 b3 b4 b5 b6 b7].
  destruct b0, b1, b2, b3, b4, b5, b6, b7; reflexivity.
Qed.

Lemma transform_tolower_lower_case (s : string) : transform_tolower s = lower_case s.
Proof.
  induction s as [|c s IH]; [reflexivity|].
  cbn [transform_tolower lower_case]. rewrite IH, tolower_lower_case_letter. reflexivity.
Qed.

Lemma resolved_method_lower_case (env : string -> option string) :
  resolved_method env = lower_case (selector_override env).
Proof.
  unfold resolved_method, selector_override. apply transform_tolower_lower_case.
Qed.



Example illegal_selector_constructs_and_creates :
  let env := fun name =>
               if String.eqb name "TORCHCOMM_XCCL_BOOTSTRAP_UNIQUEID_EXCHANGE_METHOD"
               then Some "RING" else None in
  let p := Mock.process0 (Mock.world0 0 2) env in
  match constructor Mock.collaborators (Some 1) (mkDevice kXPU 0) 1000 p with
  | (inr b, p1) =>
      uniqueid_xchg_method_ b = "ring"
      /\ fst (createXcclComm Mock.collaborators "c" (mkCommOptions []) (mkObj b p1)) = inr 555
  | (inl _, _) => False
  end.
Proof. cbv zeta. split; reflexivity. Qed.

(** ** C10: the device count of the Level Zero API *)

Module LevelZeroFacts.

Import LevelZero.

Lemma is_success_true (r : ze_result_t) : is_success r = true <-> r = ZE_RESULT_SUCCESS.
Proof. destruct r; cbn; split; intros H; congruence. Qed.

Lemma find_devices_snd (L : Loader) (drivers : list ze_driver_handle_t) :
  forall d d' acc,
    snd (find_devices L drivers d acc) = snd (find_devices L drivers d' acc).
Proof.
  induction drivers as [|driver rest IH]; intros d d' acc; [reflexivity|].
  cbn [find_devices].
  destruct (zeDeviceGet_count L driver) as [r n].
  destruct (negb (is_success r) || Nat.eqb n 0); [apply IH|].
  destruct (zeDeviceGet_fill L driver n) as [r' written].
  destruct (is_success r'); reflexivity.
Qed.

Lemma In_firstn {A} (n : nat) (l : list A) (x : A) : In x (firstn n l) -> In x l.
Proof.
  intros H. rewrite <- (firstn_skipn n l). apply in_or_app. left. exact H.
Qed.

Lemma not_all_integrated_some_discrete (L : Loader) (l : list ze_device_handle_t) :
  forallb (is_igpu L) l = false -> filter (is_dgpu L) l <> [].
Proof.
  induction l as [|d l IH]; cbn; [discriminate|].
  unfold is_dgpu at 1. destruct (is_igpu L d); cbn; [exact IH|discriminate].
Qed.

Lemma all_integrated_none_discrete (L : Loader) (l : list ze_device_handle_t) :
  forallb (is_igpu L) l = true -> filter (is_dgpu L) l = [].
Proof.
  induction l as [|d l IH]; cbn; [reflexivity|].
  unfold is_dgpu at 1. destruct (is_igpu L d); cbn; [exact IH|discriminate].
Qed.

Ltac close_case :=
  cbn [fst snd initialized g_device_count g_devices set_driver];
  repeat (first [split | intro]);
  try discriminate; try congruence; try reflexivity; try assumption.

(** One run of [initLevelZero] from a state that is not initialized. *)
Lemma initLevelZero_first (L : Loader) (g : Globals) :
  initialized g = false ->
  let r := initLevelZero L g in
  (fst r = ZE_RESULT_SUCCESS ->
   initialized (snd r) = true
   /\ g_device_count (snd r) = to_uint32 (Z.of_nat (List.length (discrete L)))
   /\ g_devices (snd r) = firstn (Z.to_nat (g_device_count (snd r))) (discrete L)
   /\ forallb (is_igpu L) (devices_found L) = false)
  /\ (fst r <> ZE_RESULT_SUCCESS -> initialized (snd r) = false)
  /\ (forallb (is_igpu L) (devices_found L) = true ->
      fst r <> ZE_RESULT_SUCCESS
      /\ (drivers_enumerated L = true -> fst r = ZE_RESULT_ERROR_UNINITIALIZED)).
Proof.
  intros Hinit. cbv zeta.
  unfold initLevelZero, discrete, devices_found, drivers_of, drivers_enumerated.
  rewrite Hinit.
  destruct (zeInitDrivers_count L) as [r1 n]. cbn [fst snd].
  destruct (is_success r1) eqn:Hr1; cbn [negb orb andb]; [|close_case].
  destruct (Nat.eqb n 0) eqn:Hn; cbn [negb andb]; [close_case|].
  destruct (zeInitDrivers_fill L n) as [r2 written]. cbn [fst snd].
  destruct (is_success r2) eqn:Hr2; cbn [negb];
    [|close_case;
      match goal with
      | H : r2 = ZE_RESULT_SUCCESS |- _ => apply is_success_true in H; congruence
      end].
  rewrite (find_devices_snd L (write_into written (repeat 0 n)) 0 (g_driver g) []).
  destruct (find_devices L (write_into written (repeat 0 n)) (g_driver g) [])
    as [driver devices]. cbn [snd].
  destruct devices as [|d devices]; [close_case|].
  destruct (forallb (is_igpu L) (d :: devices)) eqn:Hall; [close_case|].
  destruct (zeContextCreate L driver) as [r3 context].
  close_case.
  - apply is_success_true. assumption.
  - destruct (is_success r3) eqn:Hr3; [|reflexivity].
    apply is_success_true in Hr3. contradiction.
Qed.

Lemma reachable_initialized_state (L : Loader) (g : Globals) :
  reachable L g -> initialized_state L g.
Proof.
  induction 1 as [|g Hreach IH].
  - intros H. discriminate.
  - destruct (initialized g) eqn:Hinit.
    + unfold initLevelZero. rewrite Hinit. cbn [snd]. exact IH.
    + pose proof (initLevelZero_first L g Hinit) as H. cbv zeta in H.
      destruct H as (Hok & Hfail & _).
      intros Hset.
      destruct (ze_result_eqb (fst (initLevelZero L g)) ZE_RESULT_SUCCESS) eqn:Hres.
      * apply is_success_true in Hres. destruct (Hok Hres) as (_ & H2 & H3 & H4).
        repeat split; assumption.
      * assert (Hne : fst (initLevelZero L g) <> ZE_RESULT_SUCCESS).
        { intros Heq. apply is_success_true in Heq. unfold is_success in Heq. congruence. }
        rewrite (Hfail Hne) in Hset. discriminate.
Qed.

(** [initLevelZero] from any reachable state. *)
Lemma initLevelZero_reachable (L : Loader) (g : Globals) :
  reachable L g ->
  let r := initLevelZero L g in
  (fst r = ZE_RESULT_SUCCESS ->
   g_device_count (snd r) = to_uint32 (Z.of_nat (List.length (discrete L)))
   /\ g_devices (snd r) = firstn (Z.to_nat (g_device_count (snd r))) (discrete L)
   /\ forallb (is_igpu L) (devices_found L) = false)
  /\ (forallb (is_igpu L) (devices_found L) = true ->
      fst r <> ZE_RESULT_SUCCESS
      /\ (drivers_enumerated L = true -> fst r = ZE_RESULT_ERROR_UNINITIALIZED)).
Proof.
  intros Hreach. cbv zeta.
  pose proof (reachable_initialized_state L g Hreach) as Hinv.
  destruct (initialized g) eqn:Hinit.
  - destruct (Hinv Hinit) as (H1 & H2 & H3).
    unfold initLevelZero. rewrite Hinit. cbn [fst snd].
    split; [intros _; repeat split; assumption|].
    intros Hall. congruence.
  - pose proof (initLevelZero_first L g Hinit) as H. cbv zeta in H.
    destruct H as (Hok & _ & Hall).
    split; [|exact Hall].
    intros Hres. destruct (Hok Hres) as (_ & H2 & H3 & H4). repeat split; assumption.
Qed.

End LevelZeroFacts.

Import LevelZero LevelZeroFacts.

Lemma small_count_exact (k : nat) :
  Z.of_nat k <= INT_MAX ->
  to_uint32 (Z.of_nat k) = Z.of_nat k /\ to_int (Z.of_nat k) = Z.of_nat k.
Proof.
  unfold to_uint32, to_int, UINT32_MOD, INT_MAX. intros H. split.
  - apply Z.mod_small. lia.
  - rewrite Z.mod_small by lia. lia.
Qed.

(** The count of [getDeviceCount] in terms of the lambda [is_igpu]. *)
Lemma getDeviceCount_discrete :
  forall (L : Loader) (g : Globals),
    reachable L g ->
    let out := getDeviceCount L true g in
    (fst (fst out) = ZE_RESULT_SUCCESS ->
     snd (fst out) = Some (to_int (to_uint32 (Z.of_nat (List.length (discrete L)))))
     /\ Forall (fun d => In d (devices_found L) /\ is_igpu L d = false) (g_devices (snd out))
     /\ discrete L <> []
     /\ (Z.of_nat (List.length (devices_found L)) <= INT_MAX ->
         snd (fst out) = Some (Z.of_nat (List.length (discrete L)))
         /\ 0 < Z.of_nat (List.length (discrete L))
         /\ g_devices (snd out) = discrete L))
    /\ (forallb (is_igpu L) (devices_found L) = true ->
        fst (fst out) <> ZE_RESULT_SUCCESS
        /\ snd (fst out) = None
        /\ (drivers_enumerated L = true ->
            fst out = (ZE_RESULT_ERROR_UNINITIALIZED, None))).
Proof.
  intros L g Hreach. cbv zeta.
  pose proof (initLevelZero_reachable L g Hreach) as H. cbv zeta in H.
  destruct H as (Hok & Hall).
  unfold getDeviceCount.
  destruct (initLevelZero L g) as [result g'] eqn:Hrun. cbn [fst snd] in *.
  destruct (is_success result) eqn:Hres; cbn [negb fst snd].
  - apply is_success_true in Hres. destruct (Hok Hres) as (Hcount & Hdevs & Hsome).
    split.
    + intros _. split; [rewrite Hcount; reflexivity|]. split; [|split].
      * apply Forall_forall. intros d Hd. rewrite Hdevs in Hd.
        apply In_firstn in Hd. unfold discrete in Hd. apply filter_In in Hd.
        destruct Hd as [Hin Hd]. split; [exact Hin|].
        unfold is_dgpu in Hd. destruct (is_igpu L d); [discriminate|reflexivity].
      * unfold discrete. apply not_all_integrated_some_discrete. exact Hsome.
      * intros Hsmall.
        assert (Hle : Z.of_nat (List.length (discrete L)) <= INT_MAX).
        { unfold discrete.
          pose proof (filter_length_le (is_dgpu L) (devices_found L)). lia. }
        destruct (small_count_exact _ Hle) as [H32 Hint].
        rewrite Hcount, H32, Hint. split; [reflexivity|]. split.
        -- pose proof (not_all_integrated_some_discrete L _ Hsome) as Hne.
           fold (discrete L) in Hne. destruct (discrete L); [contradiction|cbn; lia].
        -- rewrite Hdevs, Hcount, H32, Nat2Z.id. apply firstn_all.
    + intros Hallint. destruct (Hall Hallint) as [Hne _]. contradiction.
  - split.
    + intros Heq. apply is_success_true in Heq. congruence.
    + intros Hallint. destruct (Hall Hallint) as [Hne Hun].
      split; [exact Hne|]. split; [reflexivity|].
      intros Hdrv. rewrite (Hun Hdrv). reflexivity.
Qed.

Lemma is_igpu_reported (L : Loader) (d : ze_device_handle_t) :
  is_igpu L d = reported_integrated L d.
Proof.
  unfold is_igpu, reported_integrated, ZE_DEVICE_PROPERTY_FLAG_INTEGRATED.
  destruct (zeDeviceGetProperties L d) as [r flags].
  destruct r; cbn [is_success ze_result_eqb negb]; try reflexivity.
  change 1 with (Z.ones 1). rewrite Z.land_ones by lia.
  change (2 ^ 1) with 2. rewrite <- Z.bit0_mod.
  destruct (Z.testbit flags 0); reflexivity.
Qed.

Lemma discrete_not_integrated (L : Loader) : discrete L = not_integrated L.
Proof.
  unfold discrete, not_integrated. apply filter_ext.
  intros d. unfold is_dgpu. rewrite is_igpu_reported. reflexivity.
Qed.

Lemma all_igpu_reported (L : Loader) (l : list ze_device_handle_t) :
  forallb (is_igpu L) l = forallb (reported_integrated L) l.
Proof.
  induction l as [|d l IH]; [reflexivity|].
  cbn [forallb]. rewrite IH, is_igpu_reported. reflexivity.
Qed.

(** C10. In any state of the statics that calls of the API can reach,
    a [getDeviceCount] that reports success stores the number of devices
    found that the loader does not report as integrated, converted to
    [uint32_t] and then to [int]; a device is reported as integrated when
    [zeDeviceGetProperties] succeeds on it and bit 0 of the flags,
    ZE_DEVICE_PROPERTY_FLAG_INTEGRATED, is set.  Every device kept is one
    that was found and is not reported as integrated, and at least one
    exists.  When the machine has at most [INT_MAX] devices the count is
    exactly the number of those devices, it is positive, and the device
    array holds exactly them.  When every device found is reported as
    integrated, [getDeviceCount] never reports success and stores no
    count; with drivers enumerated successfully its status is
    ZE_RESULT_ERROR_UNINITIALIZED. *)
Theorem C10_device_count_excludes_integrated :
  forall (L : Loader) (g : Globals),
    reachable L g ->
    let out := getDeviceCount L true g in
    (fst (fst out) = ZE_RESULT_SUCCESS ->
     snd (fst out) = Some (to_int (to_uint32 (Z.of_nat (List.length (not_integrated L)))))
     /\ Forall (fun d => In d (devices_found L) /\ reported_integrated L d = false)
          (g_devices (snd out))
     /\ not_integrated L <> []
     /\ (Z.of_nat (List.length (devices_found L)) <= INT_MAX ->
         snd (fst out) = Some (Z.of_nat (List.length (not_integrated L)))
         /\ 0 < Z.of_nat (List.length (not_integrated L))
         /\ g_devices (snd out) = not_integrated L))
    /\ (forallb (reported_integrated L) (devices_found L) = true ->
        fst (fst out) <> ZE_RESULT_SUCCESS
        /\ snd (fst out) = None
        /\ (drivers_enumerated L = true ->
            fst out = (ZE_RESULT_ERROR_UNINITIALIZED, None))).
Proof.
  intros L g Hreach. cbv zeta.
  pose proof (getDeviceCount_discrete L g Hreach) as H. cbv zeta in H.
  rewrite discrete_not_integrated, all_igpu_reported in H.
  destruct H as [Hok Hall]. split; [|exact Hall].
  intros Hres. destruct (Hok Hres) as (H1 & H2 & H3 & H4).
  split; [exact H1|]. split; [|split; [exact H3|exact H4]].
  eapply Forall_impl; [|exact H2].
  intros d [Hin Hd]. split; [exact Hin|]. rewrite <- is_igpu_reported. exact Hd.
Qed.

Lemma C10_witness_two_discrete_one_integrated :
  (fst (getDeviceCount DeviceApi.machine true globals0) = (ZE_RESULT_SUCCESS, Some 2)
   /\ g_devices (snd (getDeviceCount DeviceApi.machine true globals0)) = [11; 13])
  /\ fst (getDeviceCount integrated_only true globals0)
     = (ZE_RESULT_ERROR_UNINITIALIZED, None).
Proof.
  split.
  - destruct (C10_device_count_excludes_integrated DeviceApi.machine globals0
                (reachable_start DeviceApi.machine)) as [Hok _].
    cbv zeta in Hok. destruct (Hok eq_refl) as (_ & _ & _ & Hsmall).
    assert (Hle : Z.of_nat (List.length (devices_found DeviceApi.machine)) <= INT_MAX)
      by (vm_compute; discriminate).
    destruct (Hsmall Hle) as (Hcount & _ & Hdevs).
    split; [|exact Hdevs].
    apply injective_projections; [reflexivity|exact Hcount].
  - destruct (C10_device_count_excludes_integrated integrated_only globals0
                (reachable_start integrated_only)) as [_ Hall].
    cbv zeta in Hall. destruct (Hall eq_refl) as (_ & _ & Hun).
    exact (Hun eq_refl).
Defined.

Example integrated_only_never_counts_zero :
  let L := simple_loader [(1, 1); (2, 1)] in
  forallb (is_igpu L) (devices_found L) = true
  /\ drivers_enumerated L = true
  /\ fst (getDeviceCount L true (snd (initLevelZero L globals0)))
     = (ZE_RESULT_ERROR_UNINITIALIZED, None).
Proof. cbv zeta. repeat split; reflexivity. Qed.

(** * Further properties of the coordinator *)

Section ExchangePaths.

Context {W : Type} (C : Collaborators W).

(** Whichever way the store was chosen, the exchange proper runs on a
    coordinator that holds the store, in a process that has seen only the
    store manager lookup (if any). *)
Lemma exchangeUniqueId_store_in_use name (o : Obj W) h w1 pre b' :
  store_in_use C name o h w1 pre b' ->
  exists p1,
    exchangeUniqueId C name o = exchangeUniqueIdStore C (mkObj b' p1)
    /\ world p1 = w1
    /\ trace p1 = (trace (proc o) ++ pre)%list
    /\ counter_ p1 = counter_ (proc o)
    /\ logs p1 = logs (proc o)
    /\ store_ b' = Some h
    /\ rank_ b' = rank_ (this o).
Proof.
  intros Huse. destruct o as [b p].
  inversion Huse as [Hs Hw Hpre Hb | w1' Hs Hlegal Henv Hmgr Hw Hpre Hb]; subst;
    cbn [this proc] in *.
  - exists p. rewrite (exchangeUniqueId_supplied C name b p h Hs).
    rewrite app_nil_r. repeat split; auto.
  - eexists. rewrite (exchangeUniqueId_internal C name b p Hs Hlegal Henv).
    rewrite (exchangeUniqueIdTCPStore_run C name b p h w1 Hmgr).
    split; [reflexivity|]. cbn. repeat split; reflexivity.
Qed.

(** Rank 0, the backend cannot generate an identity. *)
Lemma exchangeUniqueIdStore_no_identity b (p : Process W) code uid w2 :
  rank_ b = 0 ->
  xccl_getUniqueId C (world p) = ((onecclFailure code, uid), w2) ->
  exists o',
    exchangeUniqueIdStore C (mkObj b p) =
      (inl (runtime_error ("Failed to get XCCL unique ID: "
                             ++ xccl_getErrorString C (onecclFailure code))), o')
    /\ this o' = b
    /\ trace (proc o')
       = (trace p ++ [XcclGetUniqueId; XcclGetErrorString (onecclFailure code)])%list
    /\ counter_ (proc o') = int_succ (counter_ p)
    /\ world (proc o') = w2.
Proof.
  intros Hrank Hgen.
  unfold exchangeUniqueIdStore, through_store, getXCCLStoreKey. unfold_exn. simpl_state.
  rewrite Hrank. cbn [Z.eqb]. simpl_state. rewrite Hgen. simpl_state.
  cbn [oneccl_ok]. simpl_state.
  eexists. split; [reflexivity|]. simpl_state.
  repeat split; try reflexivity. rewrite <- app_assoc. reflexivity.
Qed.

(** Rank 0, the identity is generated: it is stored under the new key, and
    returned unless the store throws. *)
Lemma exchangeUniqueIdStore_publishes b (p : Process W) h uid w2 r w3 :
  rank_ b = 0 ->
  store_ b = Some h ->
  xccl_getUniqueId C (world p) = ((onecclSuccess, uid), w2) ->
  store_set C h (next_key p) uid w2 = (r, w3) ->
  exists o',
    exchangeUniqueIdStore C (mkObj b p) =
      (match r with inr _ => inr uid | inl e => inl e end, o')
    /\ this o' = b
    /\ trace (proc o') = (trace p ++ [XcclGetUniqueId; StoreSet h (next_key p) uid])%list
    /\ counter_ (proc o') = int_succ (counter_ p)
    /\ world (proc o') = w3.
Proof.
  intros Hrank Hstore Hgen Hset. unfold next_key in Hset.
  unfold exchangeUniqueIdStore, through_store, getXCCLStoreKey, next_key.
  unfold_exn. simpl_state.
  rewrite Hrank. cbn [Z.eqb]. simpl_state. rewrite Hgen. simpl_state.
  cbn [oneccl_ok]. simpl_state.
  rewrite Hstore. simpl_state. rewrite Hset.
  destruct r as [e|[]]; simpl_state;
    (eexists; split; [reflexivity|]; simpl_state;
     repeat split; try reflexivity; rewrite <- app_assoc; reflexivity).
Qed.

(** Another rank: one [get], and the bytes read are the identity when
    their number is right. *)
Lemma exchangeUniqueIdStore_reads b (p : Process W) h r w2 :
  rank_ b <> 0 ->
  store_ b = Some h ->
  store_get C h (next_key p) (world p) = (r, w2) ->
  exists o',
    exchangeUniqueIdStore C (mkObj b p) =
      (match r with
       | inr vec =>
           if Nat.eqb (List.length vec) (sizeof_onecclUniqueId C) then inr vec
           else inl (runtime_error "Invalid XCCL unique ID size")
       | inl e => inl e
       end, o')
    /\ this o' = b
    /\ trace (proc o') = (trace p ++ [StoreGet h (next_key p)])%list
    /\ counter_ (proc o') = int_succ (counter_ p)
    /\ world (proc o') = w2.
Proof.
  intros Hrank Hstore Hget. unfold next_key in Hget.
  unfold exchangeUniqueIdStore, through_store, getXCCLStoreKey, next_key.
  unfold_exn. simpl_state.
  apply Z.eqb_neq in Hrank. rewrite Hrank. simpl_state.
  rewrite Hstore. simpl_state. rewrite Hget.
  destruct r as [e|vec]; simpl_state;
    [|destruct (Nat.eqb (List.length vec) (sizeof_onecclUniqueId C)); simpl_state];
    (eexists; split; [reflexivity|]; simpl_state; repeat split; reflexivity).
Qed.

End ExchangePaths.

(** X1. On rank 0, when the backend cannot generate the identity,
    [createXcclComm] throws "Failed to get XCCL unique ID: " followed by
    the error string of the backend.  The store key of this exchange has
    been consumed (the static counter has moved on), but nothing was
    written to the store: after the store manager lookup (if any) the only
    calls are [getUniqueId] and [getErrorString]. *)
Theorem X1_rank0_identity_generation_fails :
  forall (W : Type) (C : Collaborators W) (name : string) (options : CommOptions)
         (o : Obj W) (h : StoreHandle) (w1 w2 : W) (pre : list Event)
         (b' : TorchCommXCCLBootstrap) (code : Z) (uid : onecclUniqueId),
    rank_ (this o) = 0 ->
    store_in_use C name o h w1 pre b' ->
    xccl_getUniqueId C w1 = ((onecclFailure code, uid), w2) ->
    exists o',
      createXcclComm C name options o =
        (inl (runtime_error ("Failed to get XCCL unique ID: "
                               ++ xccl_getErrorString C (onecclFailure code))), o')
      /\ trace (proc o')
         = (trace (proc o) ++ pre
              ++ [XcclGetUniqueId; XcclGetErrorString (onecclFailure code)])%list
      /\ counter_ (proc o') = int_succ (counter_ (proc o)).
Proof.
  intros W C name options o h w1 w2 pre b' code uid Hrank Huse Hgen.
  destruct (exchangeUniqueId_store_in_use C name o h w1 pre b' Huse)
    as (p1 & Hrun & Hw & Ht & Hc & _ & _ & Hr).
  rewrite <- Hw in Hgen. rewrite <- Hr in Hrank.
  destruct (exchangeUniqueIdStore_no_identity C b' p1 code uid w2 Hrank Hgen)
    as (o' & Hx & _ & Htrace & Hcount & _).
  exists o'. split; [|split].
  - unfold createXcclComm. apply bind_inl. rewrite Hrun. exact Hx.
  - rewrite Htrace, Ht, <- app_assoc. reflexivity.
  - rewrite Hcount, Hc. reflexivity.
Qed.

Lemma X1_witness_backend_down :
  let C := mkCollaborators Mock.World
             (query_ranksize Mock.collaborators) (xpu_getDeviceCount Mock.collaborators)
             (xpu_setDevice Mock.collaborators) (xpu_malloc Mock.collaborators)
             (xpu_free Mock.collaborators) (xpu_getCurrentXPUStream Mock.collaborators)
             (xpu_streamSynchronize Mock.collaborators)
             (xpu_getErrorString Mock.collaborators)
             (fun w => ((onecclFailure 3, []), w))
             (xccl_commInitRankConfig Mock.collaborators)
             (xccl_allReduce Mock.collaborators) (xccl_getErrorString Mock.collaborators)
             (store_set Mock.collaborators) (store_get Mock.collaborators)
             (StoreManager_getStore Mock.collaborators) 16 Mock.config0 "xccl" in
  let o := mkObj (Mock.bootstrap0 (Some 1) 0 2 "auto")
             (Mock.process0 (Mock.world0 0 2) Mock.no_env) in
  exists o',
    createXcclComm C "c" (mkCommOptions []) o =
      (inl (runtime_error ("Failed to get XCCL unique ID: "
                             ++ xccl_getErrorString C (onecclFailure 3))), o')
    /\ trace (proc o')
       = (trace (proc o) ++ []
            ++ [XcclGetUniqueId; XcclGetErrorString (onecclFailure 3)])%list
    /\ counter_ (proc o') = int_succ (counter_ (proc o)).
Proof.
  cbv zeta.
  eapply (X1_rank0_identity_generation_fails Mock.World _ "c" (mkCommOptions [])
            (mkObj (Mock.bootstrap0 (Some 1) 0 2 "auto")
               (Mock.process0 (Mock.world0 0 2) Mock.no_env))
            1 (Mock.world0 0 2) (Mock.world0 0 2) [] _ 3 []).
  - reflexivity.
  - apply supplied_store. reflexivity.
  - reflexivity.
Defined.

(** X2. On rank 0, when the backend generates the identity, the exchange
    stores exactly that identity under the key it has just generated, on
    the store in use, and returns it; when the store throws, that
    exception is what the exchange throws.  The calls are [getUniqueId]
    and one [set], in this order. *)
Theorem X2_rank0_publishes_the_identity_it_returns :
  forall (W : Type) (C : Collaborators W) (name : string) (o : Obj W) (h : StoreHandle)
         (w1 w2 w3 : W) (pre : list Event) (b' : TorchCommXCCLBootstrap)
         (uid : onecclUniqueId) (r : exception + unit),
    rank_ (this o) = 0 ->
    store_in_use C name o h w1 pre b' ->
    xccl_getUniqueId C w1 = ((onecclSuccess, uid), w2) ->
    store_set C h (next_key (proc o)) uid w2 = (r, w3) ->
    exists o',
      exchangeUniqueId C name o =
        (match r with inr _ => inr uid | inl e => inl e end, o')
      /\ this o' = b'
      /\ trace (proc o')
         = (trace (proc o) ++ pre
              ++ [XcclGetUniqueId; StoreSet h (next_key (proc o)) uid])%list
      /\ world (proc o') = w3.
Proof.
  intros W C name o h w1 w2 w3 pre b' uid r Hrank Huse Hgen Hset.
  destruct (exchangeUniqueId_store_in_use C name o h w1 pre b' Huse)
    as (p1 & Hrun & Hw & Ht & Hc & _ & Hs & Hr).
  rewrite <- Hw in Hgen. rewrite <- Hr in Hrank.
  assert (Hkey : next_key p1 = next_key (proc o)) by (unfold next_key; rewrite Hc; reflexivity).
  rewrite <- Hkey in Hset.
  destruct (exchangeUniqueIdStore_publishes C b' p1 h uid w2 r w3 Hrank Hs Hgen Hset)
    as (o' & Hx & Hthis & Htrace & _ & Hworld).
  exists o'. rewrite Hrun. split; [exact Hx|]. split; [exact Hthis|]. split; [|exact Hworld].
  rewrite Htrace, Ht, Hkey, <- app_assoc. reflexivity.
Qed.

Lemma X2_witness_rank0_with_store_manager :
  let o := mkObj (Mock.bootstrap0 None 0 2 "tcpstore")
             (Mock.process0 (Mock.world0 0 2) Mock.tcp_env) in
  exists o',
    exchangeUniqueId Mock.collaborators "c" o = (inr Mock.unique_id, o')
    /\ this o'
       = Upd.set_created_internal_store true (Upd.set_store (Some 1) (this o))
    /\ trace (proc o')
       = ([] ++ [StoreManagerGetStore "xccl" "c" 1000]
            ++ [XcclGetUniqueId; StoreSet 1 "xccl_storekey_0" Mock.unique_id])%list
    /\ world (proc o') = Mock.put "xccl_storekey_0" Mock.unique_id (Mock.world0 0 2).
Proof.
  cbv zeta.
  apply (X2_rank0_publishes_the_identity_it_returns Mock.World Mock.collaborators "c"
           (mkObj (Mock.bootstrap0 None 0 2 "tcpstore")
              (Mock.process0 (Mock.world0 0 2) Mock.tcp_env))
           1 (Mock.world0 0 2) (Mock.world0 0 2)
           (Mock.put "xccl_storekey_0" Mock.unique_id (Mock.world0 0 2))
           [StoreManagerGetStore "xccl" "c" 1000]
           (Upd.set_created_internal_store true
              (Upd.set_store (Some 1) (Mock.bootstrap0 None 0 2 "tcpstore")))
           Mock.unique_id (inr tt)).
  - reflexivity.
  - apply (internal_store Mock.collaborators "c"
             (mkObj (Mock.bootstrap0 None 0 2 "tcpstore")
                (Mock.process0 (Mock.world0 0 2) Mock.tcp_env)) 1 (Mock.world0 0 2));
      reflexivity.
  - reflexivity.
  - reflexivity.
Defined.

(** X3. Identity convergence.  Let rank 0 complete its exchange on a store
    it holds, and let another rank, whose process has generated as many
    keys, run its exchange in the world that rank 0 left, on a handle of
    the same store (a [get] returns what was [set] under the key).  If the
    identity of the backend has the declared size, the other rank obtains
    the identity that rank 0 returned: both used the same key. *)
Theorem X3_ranks_agree_on_the_identity :
  forall (W : Type) (C : Collaborators W) (name0 name1 : string) (o0 o0' o1 : Obj W)
         (h h1 : StoreHandle) (uid : onecclUniqueId),
    rank_ (this o0) = 0 ->
    store_ (this o0) = Some h ->
    exchangeUniqueId C name0 o0 = (inr uid, o0') ->
    rank_ (this o1) <> 0 ->
    store_ (this o1) = Some h1 ->
    counter_ (proc o1) = counter_ (proc o0) ->
    world (proc o1) = world (proc o0') ->
    returns_what_was_set C h h1 ->
    List.length uid = sizeof_onecclUniqueId C ->
    fst (exchangeUniqueId C name1 o1) = inr uid
    /\ next_key (proc o1) = next_key (proc o0).
Proof.
  intros W C name0 name1 [b0 p0] o0' [b1 p1] h h1 uid Hr0 Hs0 Hrun0 Hr1 Hs1 Hc Hw Hstore Hlen.
  cbn [this proc] in *.
  assert (Hkey : next_key p1 = next_key p0) by (unfold next_key; rewrite Hc; reflexivity).
  split; [|exact Hkey].
  rewrite (exchangeUniqueId_supplied C name0 b0 p0 h Hs0) in Hrun0.
  destruct (xccl_getUniqueId C (world p0)) as [[err uid'] w2] eqn:Hgen.
  destruct err as [|code].
  - destruct (store_set C h (next_key p0) uid' w2) as [r w3] eqn:Hset.
    destruct (exchangeUniqueIdStore_publishes C b0 p0 h uid' w2 r w3 Hr0 Hs0 Hgen Hset)
      as (o' & Hx & _ & _ & _ & Hworld).
    rewrite Hx in Hrun0. destruct r as [e|[]]; [discriminate|].
    inversion Hrun0; subst uid' o'.
    destruct (Hstore _ _ _ _ Hset) as (w4 & Hget).
    rewrite <- Hworld, <- Hw, <- Hkey in Hget.
    rewrite (exchangeUniqueId_supplied C name1 b1 p1 h1 Hs1).
    destruct (exchangeUniqueIdStore_reads C b1 p1 h1 (inr uid) w4 Hr1 Hs1 Hget)
      as (o1' & Hx1 & _).
    rewrite Hx1. cbn [fst]. apply Nat.eqb_eq in Hlen. rewrite Hlen. reflexivity.
  - destruct (exchangeUniqueIdStore_no_identity C b0 p0 code uid' w2 Hr0 Hgen)
      as (o' & Hx & _).
    rewrite Hx in Hrun0. discriminate.
Qed.

Lemma mock_store_returns_what_was_set (h h1 : StoreHandle) :
  returns_what_was_set Mock.collaborators h h1.
Proof.
  intros key value w w1 Hset. cbn in Hset. inversion Hset; subst w1.
  exists (Mock.put key value w). cbn. unfold Mock.lookup. cbn.
  rewrite String.eqb_refl. reflexivity.
Qed.

Lemma X3_witness_two_ranks :
  let o0 := mkObj (Mock.bootstrap0 (Some 1) 0 2 "auto")
              (Mock.process0 (Mock.world0 0 2) Mock.no_env) in
  let o0' := snd (exchangeUniqueId Mock.collaborators "c" o0) in
  let o1 := mkObj (Mock.bootstrap0 (Some 1) 1 2 "auto")
              (Mock.process0 (world (proc o0')) Mock.no_env) in
  fst (exchangeUniqueId Mock.collaborators "c" o1) = inr Mock.unique_id
  /\ next_key (proc o1) = next_key (proc o0).
Proof.
  cbv zeta.
  apply (X3_ranks_agree_on_the_identity Mock.World Mock.collaborators "c" "c"
           (mkObj (Mock.bootstrap0 (Some 1) 0 2 "auto")
              (Mock.process0 (Mock.world0 0 2) Mock.no_env))
           (snd (exchangeUniqueId Mock.collaborators "c"
                   (mkObj (Mock.bootstrap0 (Some 1) 0 2 "auto")
                      (Mock.process0 (Mock.world0 0 2) Mock.no_env))))
           _ 1 1 Mock.unique_id).
  - reflexivity.
  - reflexivity.
  - reflexivity.
  - discriminate.
  - reflexivity.
  - reflexivity.
  - reflexivity.
  - apply mock_store_returns_what_was_set.
  - reflexivity.
Defined.

Section CreationPaths.

Context {W : Type} (C : Collaborators W).

(** [createXcclComm] once the exchange and the hint pass have succeeded. *)
Lemma createXcclComm_after_hints name options (o o1 : Obj W) uid config l :
  exchangeUniqueId C name o = (inr uid, o1) ->
  populateXcclConfigFromHints (initial_config C name) (hints options) name
    (logs (proc o1)) = (inr config, l) ->
  createXcclComm C name options o =
    construct_and_close C uid config (mkObj (this o1) (Upd.set_logs l (proc o1))).
Proof.
  intros Hx Hpop.
  rewrite createXcclComm_phases, (bind_inr _ _ _ _ _ Hx).
  pose proof (apply_hints_run C name options o1) as Hh. rewrite Hpop in Hh.
  rewrite (bind_inr _ _ _ _ _ Hh). reflexivity.
Qed.

(** The backend refuses, or hands back a null communicator. *)
Lemma construct_and_close_refused uid config (b : TorchCommXCCLBootstrap) (p : Process W)
    err comm w2 :
  xccl_commInitRankConfig C (comm_size_ b) uid (rank_ b) config (world p)
    = ((err, comm), w2) ->
  negb (oneccl_ok err) || (comm =? nullptr) = true ->
  construct_and_close C uid config (mkObj b p) =
    (inl (runtime_error ("Failed to initialize XCCL communicator: "
                           ++ xccl_getErrorString C err)),
     mkObj b (mkProcess w2 (getenv p) (counter_ p)
                ((trace p ++ [XcclCommInitRankConfig (comm_size_ b) uid (rank_ b) config])
                   ++ [XcclGetErrorString err])
                (logs p))).
Proof.
  intros Hinit Hbad.
  unfold construct_and_close. unfold_exn. simpl_state.
  rewrite Hinit. simpl_state. rewrite Hbad. simpl_state. reflexivity.
Qed.

(** The closing barrier on a coordinator that owns its store, call by call. *)
Lemma cleanupTCPStore_calls comm (b : TorchCommXCCLBootstrap) (p : Process W) h
    stream w3 result w4 status w5 :
  created_internal_store_ b = true ->
  store_ b = Some h ->
  xpu_getCurrentXPUStream C (dev_index (device_ b)) (world p) = (stream, w3) ->
  xccl_allReduce C (barrier_buffer_ b) (barrier_buffer_ b) 1 onecclFloat32 onecclSum comm
    stream w3 = (result, w4) ->
  xpu_streamSynchronize C stream w4 = (status, w5) ->
  exists o',
    cleanupTCPStore C comm (mkObj b p) =
      (if is_success status then inr tt
       else inl (xpu_check_failure "Stream synchronization failed" status), o')
    /\ this o' = Upd.set_store None b
    /\ world (proc o') = w5
    /\ trace (proc o') =
       (trace p
          ++ [StoreReset h; XpuGetCurrentXPUStream (dev_index (device_ b));
              XcclAllReduce (barrier_buffer_ b) (barrier_buffer_ b) 1 onecclFloat32
                onecclSum comm stream]
          ++ (if oneccl_ok result then [] else [XcclGetErrorString result])
          ++ [XpuStreamSynchronize stream]
          ++ (if is_success status then [] else [XpuGetErrorString status]))%list.
Proof.
  intros Hown Hstore Hstream Hreduce Hsync.
  destruct b as [tmo sto own dev rk sz mth buf]. simpl_state. subst own sto.
  unfold cleanupTCPStore, store_reset. unfold_exn. simpl_state.
  rewrite Hstream. simpl_state. rewrite Hreduce. simpl_state.
  destruct (oneccl_ok result); simpl_state; rewrite Hsync; simpl_state;
    destruct (is_success status); simpl_state;
    (eexists; split; [reflexivity|]; simpl_state;
     split; [reflexivity|]; split; [reflexivity|];
     rewrite <- ?app_assoc; cbn [app]; rewrite ?app_nil_r; reflexivity).
Qed.

End CreationPaths.

(** X4. When the backend returns a failure status, or a success status
    with a null communicator, [createXcclComm] throws "Failed to initialize
    XCCL communicator: " followed by the backend's string for the status.
    The closing barrier is not run: the calls after the exchange are the
    construction call, with the size, the exchanged identity, the rank and
    the configuration built from the hints, and [getErrorString].  The
    coordinator keeps whatever store the exchange left it with, and the
    flag that says whether it owns it. *)
Theorem X4_backend_refusal_skips_the_closing_barrier :
  forall (W : Type) (C : Collaborators W) (name : string) (options : CommOptions)
         (o o1 : Obj W) (uid : onecclUniqueId) (config : onecclConfig_t)
         (l : list LogRecord) (err : onecclResult_t) (comm : onecclComm_t) (w2 : W),
    exchangeUniqueId C name o = (inr uid, o1) ->
    populateXcclConfigFromHints (initial_config C name) (hints options) name
      (logs (proc o1)) = (inr config, l) ->
    xccl_commInitRankConfig C (comm_size_ (this o1)) uid (rank_ (this o1)) config
      (world (proc o1)) = ((err, comm), w2) ->
    err <> onecclSuccess \/ comm = nullptr ->
    exists o',
      createXcclComm C name options o =
        (inl (runtime_error ("Failed to initialize XCCL communicator: "
                               ++ xccl_getErrorString C err)), o')
      /\ this o' = this o1
      /\ trace (proc o') =
         (trace (proc o1)
            ++ [XcclCommInitRankConfig (comm_size_ (this o1)) uid (rank_ (this o1)) config;
                XcclGetErrorString err])%list
      /\ logs (proc o') = l.
Proof.
  intros W C name options o o1 uid config l err comm w2 Hx Hpop Hinit Hbad.
  rewrite (createXcclComm_after_hints C name options o o1 uid config l Hx Hpop).
  rewrite (construct_and_close_refused C uid config (this o1)
             (Upd.set_logs l (proc o1)) err comm w2).
  - eexists. split; [reflexivity|]. cbn. split; [reflexivity|].
    split; [rewrite <- app_assoc; reflexivity|reflexivity].
  - exact Hinit.
  - destruct Hbad as [Herr | Hnull].
    + destruct err; [contradiction|reflexivity].
    + subst comm. apply orb_true_r.
Qed.

Lemma X4_witness_null_communicator :
  let C := mkCollaborators Mock.World
             (query_ranksize Mock.collaborators) (xpu_getDeviceCount Mock.collaborators)
             (xpu_setDevice Mock.collaborators) (xpu_malloc Mock.collaborators)
             (xpu_free Mock.collaborators) (xpu_getCurrentXPUStream Mock.collaborators)
             (xpu_streamSynchronize Mock.collaborators)
             (xpu_getErrorString Mock.collaborators)
             (xccl_getUniqueId Mock.collaborators)
             (fun _ _ _ _ w => ((onecclSuccess, nullptr), w))
             (xccl_allReduce Mock.collaborators) (xccl_getErrorString Mock.collaborators)
             (store_set Mock.collaborators) (store_get Mock.collaborators)
             (StoreManager_getStore Mock.collaborators) 16 Mock.config0 "xccl" in
  let o := mkObj (Mock.bootstrap0 None 0 2 "auto")
             (Mock.process0 (Mock.world0 0 2) Mock.tcp_env) in
  let o1 := snd (exchangeUniqueId C "c" o) in
  exists o',
    createXcclComm C "c" (mkCommOptions []) o =
      (inl (runtime_error ("Failed to initialize XCCL communicator: "
                             ++ xccl_getErrorString C onecclSuccess)), o')
    /\ this o' = this o1
    /\ trace (proc o') =
       (trace (proc o1)
          ++ [XcclCommInitRankConfig (comm_size_ (this o1)) Mock.unique_id
                (rank_ (this o1)) (initial_config C "c");
              XcclGetErrorString onecclSuccess])%list
    /\ logs (proc o') = [].
Proof.
  cbv zeta.
  eapply (X4_backend_refusal_skips_the_closing_barrier Mock.World _ "c"
            (mkCommOptions [])
            (mkObj (Mock.bootstrap0 None 0 2 "auto")
               (Mock.process0 (Mock.world0 0 2) Mock.tcp_env))
            _ Mock.unique_id _ [] onecclSuccess nullptr
            (Mock.put "xccl_storekey_0" Mock.unique_id (Mock.world0 0 2))).
  - reflexivity.
  - reflexivity.
  - reflexivity.
  - right. reflexivity.
Defined.

(** X5. On a successful creation by a coordinator that owns its store, the
    calls after backend construction are, in this order: the release of
    the store reference, the query of the current stream of the
    coordinator's device, one all-reduce of one float from the barrier
    buffer into itself on the communicator just constructed and on that
    stream, [getErrorString] if the all-reduce failed, and the
    synchronization of that same stream, followed only by the query of the
    device API's error string when the synchronization failed.  The store
    reference is dropped before the barrier is issued. *)
Theorem X5_closing_barrier_call_order :
  forall (W : Type) (C : Collaborators W) (name : string) (options : CommOptions)
         (o o1 : Obj W) (uid : onecclUniqueId) (config : onecclConfig_t)
         (l : list LogRecord) (comm : onecclComm_t) (h : StoreHandle)
         (stream : xpuStream_t) (result : onecclResult_t) (status : ze_result_t)
         (w2 w3 w4 w5 : W),
    exchangeUniqueId C name o = (inr uid, o1) ->
    populateXcclConfigFromHints (initial_config C name) (hints options) name
      (logs (proc o1)) = (inr config, l) ->
    xccl_commInitRankConfig C (comm_size_ (this o1)) uid (rank_ (this o1)) config
      (world (proc o1)) = ((onecclSuccess, comm), w2) ->
    comm <> nullptr ->
    created_internal_store_ (this o1) = true ->
    store_ (this o1) = Some h ->
    xpu_getCurrentXPUStream C (dev_index (device_ (this o1))) w2 = (stream, w3) ->
    xccl_allReduce C (barrier_buffer_ (this o1)) (barrier_buffer_ (this o1)) 1
      onecclFloat32 onecclSum comm stream w3 = (result, w4) ->
    xpu_streamSynchronize C stream w4 = (status, w5) ->
    let o' := snd (createXcclComm C name options o) in
    this o' = Upd.set_store None (this o1)
    /\ trace (proc o') =
       (trace (proc o1)
          ++ [XcclCommInitRankConfig (comm_size_ (this o1)) uid (rank_ (this o1)) config;
              StoreReset h;
              XpuGetCurrentXPUStream (dev_index (device_ (this o1)));
              XcclAllReduce (barrier_buffer_ (this o1)) (barrier_buffer_ (this o1)) 1
                onecclFloat32 onecclSum comm stream]
          ++ (if oneccl_ok result then [] else [XcclGetErrorString result])
          ++ [XpuStreamSynchronize stream]
          ++ (if is_success status then [] else [XpuGetErrorString status]))%list.
Proof.
  intros W C name options o o1 uid config l comm h stream result status w2 w3 w4 w5
         Hx Hpop Hinit Hcomm Hown Hstore Hstream Hreduce Hsync. cbv zeta.
  assert (Hrun : exists o',
             createXcclComm C name options o =
               (if is_success status then inr comm
                else inl (xpu_check_failure "Stream synchronization failed" status), o')
             /\ this o' = Upd.set_store None (this o1)
             /\ trace (proc o') =
                (trace (proc o1)
                   ++ [XcclCommInitRankConfig (comm_size_ (this o1)) uid (rank_ (this o1))
                         config]
                   ++ [StoreReset h;
                       XpuGetCurrentXPUStream (dev_index (device_ (this o1)));
                       XcclAllReduce (barrier_buffer_ (this o1)) (barrier_buffer_ (this o1))
                         1 onecclFloat32 onecclSum comm stream]
                   ++ (if oneccl_ok result then [] else [XcclGetErrorString result])
                   ++ [XpuStreamSynchronize stream]
          ++ (if is_success status then [] else [XpuGetErrorString status]))%list).
  { rewrite (createXcclComm_after_hints C name options o o1 uid config l Hx Hpop).
    unfold construct_and_close. unfold bind at 1, gets. cbn [this proc].
    unfold bind at 1, in_proc, zoom, call. cbn [this proc Upd.set_logs world].
    rewrite Hinit. unfold Upd.set_proc. cbn [this proc fst snd oneccl_ok negb orb].
    apply Z.eqb_neq in Hcomm. rewrite Hcomm.
    unfold bind at 1, ret at 1. unfold bind at 1.
    match goal with
    | |- context [cleanupTCPStore C comm (mkObj ?b1 ?p1)] =>
        destruct (cleanupTCPStore_calls C comm b1 p1 h stream w3 result w4 status w5
                    Hown Hstore Hstream Hreduce Hsync)
          as (o' & Hclean & Hthis & _ & Htrace)
    end.
    rewrite Hclean. exists o'.
    split; [destruct (is_success status); reflexivity|]. split; [exact Hthis|].
    rewrite Htrace. cbn [trace Upd.add_event Upd.set_world Upd.set_logs].
    rewrite <- app_assoc. reflexivity. }
  destruct Hrun as (o' & Hrun & Hthis & Htrace). rewrite Hrun. cbn [snd].
  split; [exact Hthis|]. rewrite Htrace. reflexivity.
Qed.

Lemma X5_witness_rank0_own_store :
  let o := mkObj (Mock.bootstrap0 None 0 2 "auto")
             (Mock.process0 (Mock.world0 0 2) Mock.tcp_env) in
  let o1 := snd (exchangeUniqueId Mock.collaborators "c" o) in
  let o' := snd (createXcclComm Mock.collaborators "c" (mkCommOptions []) o) in
  this o' = Upd.set_store None (this o1)
  /\ trace (proc o') =
     (trace (proc o1)
        ++ [XcclCommInitRankConfig (comm_size_ (this o1)) Mock.unique_id
              (rank_ (this o1)) (initial_config Mock.collaborators "c");
            StoreReset 1;
            XpuGetCurrentXPUStream (dev_index (device_ (this o1)));
            XcclAllReduce (barrier_buffer_ (this o1)) (barrier_buffer_ (this o1)) 1
              onecclFloat32 onecclSum 555 77]
        ++ (if oneccl_ok onecclSuccess then [] else [XcclGetErrorString onecclSuccess])
        ++ [XpuStreamSynchronize 77])%list.
Proof.
  cbv zeta.
  apply (X5_closing_barrier_call_order Mock.World Mock.collaborators "c" (mkCommOptions [])
           (mkObj (Mock.bootstrap0 None 0 2 "auto")
              (Mock.process0 (Mock.world0 0 2) Mock.tcp_env))
           (snd (exchangeUniqueId Mock.collaborators "c"
                   (mkObj (Mock.bootstrap0 None 0 2 "auto")
                      (Mock.process0 (Mock.world0 0 2) Mock.tcp_env))))
           Mock.unique_id (initial_config Mock.collaborators "c") [] 555 1 77
           onecclSuccess ZE_RESULT_SUCCESS
           (Mock.put "xccl_storekey_0" Mock.unique_id (Mock.world0 0 2))
           (Mock.put "xccl_storekey_0" Mock.unique_id (Mock.world0 0 2))
           (Mock.put "xccl_storekey_0" Mock.unique_id (Mock.world0 0 2))
           (Mock.put "xccl_storekey_0" Mock.unique_id (Mock.world0 0 2))).
  - reflexivity.
  - reflexivity.
  - reflexivity.
  - discriminate.
  - reflexivity.
  - reflexivity.
  - reflexivity.
  - reflexivity.
  - reflexivity.
Defined.

Section Lifecycle.

Context {W : Type} (C : Collaborators W).

Lemma destructor_null_buffer (o : Obj W) :
  barrier_buffer_ (this o) = nullptr -> destructor C o = (inr tt, o).
Proof.
  intros H. unfold destructor, noexcept, bind, gets, ret. rewrite H. reflexivity.
Qed.

Lemma destructor_frees (b : TorchCommXCCLBootstrap) (p : Process W) status w1 :
  barrier_buffer_ b <> nullptr ->
  xpu_free C (barrier_buffer_ b) (world p) = (status, w1) ->
  destructor C (mkObj b p) =
    (if is_success status then inr tt
     else inl (std_terminate (xpu_check_failure "Failed to free barrier buffer" status)),
     mkObj (if is_success status then Upd.set_barrier_buffer nullptr b else b)
       (mkProcess w1 (getenv p) (counter_ p)
          (trace p ++ XpuFree (barrier_buffer_ b)
             :: (if is_success status then [] else [XpuGetErrorString status]))%list
          (logs p))).
Proof.
  intros Hbuf Hfree. apply Z.eqb_neq in Hbuf.
  unfold destructor. unfold_exn. simpl_state. rewrite Hbuf. simpl_state.
  rewrite Hfree. simpl_state.
  destruct (is_success status); simpl_state; rewrite <- ?app_assoc; reflexivity.
Qed.

(** The calls of the constructor, on each of its paths. *)
Lemma constructor_calls store device timeout (p : Process W) :
  counter_ (snd (constructor C store device timeout p)) = counter_ p
  /\ exists evs,
       trace (snd (constructor C store device timeout p)) = (trace p ++ evs)%list
       /\ forallb is_device_call evs = true
       /\ (List.length evs <= 4)%nat.
Proof.
  unfold constructor. unfold_exn. simpl_state.
  repeat (break_inner; simpl_state);
    (split; [reflexivity|]); trace_extension; (split; [reflexivity|cbn; lia]).
Qed.

Lemma constructor_explicit_device store device timeout (p : Process W) st w1 sm buf w2 :
  dev_index device <> -1 ->
  xpu_setDevice C (dev_index device) (world p) = (st, w1) ->
  xpu_malloc C sizeof_float w1 = ((sm, buf), w2) ->
  constructor C store device timeout p =
    (if is_success st then
       if is_success sm then
         inr (mkBootstrap timeout store false device
                (fst (query_ranksize C (world p)))
                (snd (query_ranksize C (world p)))
                (resolved_method (getenv p)) buf)
       else inl (xpu_check_failure "Failed to allocate barrier buffer" sm)
     else inl (xpu_check_failure
                 ("Failed to set device to " ++ to_string (dev_index device)) st),
     mkProcess (if is_success st then w2 else w1) (getenv p) (counter_ p)
       (trace p ++ XpuSetDevice (dev_index device)
          :: (if is_success st
              then XpuMalloc sizeof_float
                     :: (if is_success sm then [] else [XpuGetErrorString sm])
              else [XpuGetErrorString st]))%list
       (match getenv p "TORCHCOMM_XCCL_BOOTSTRAP_UNIQUEID_EXCHANGE_METHOD" with
        | Some _ => logs p
        | None =>
            (logs p
               ++ [(INFO, ("TORCHCOMM_XCCL_BOOTSTRAP_UNIQUEID_EXCHANGE_METHOD not set, "
                             ++ "defaulting to " ++ kUniqueidXchgMethodDefault)%string)])%list
        end)).
Proof.
  intros Hidx Hset Hmalloc. apply Z.eqb_neq in Hidx.
  unfold constructor, resolved_method. unfold_exn. simpl_state. rewrite Hidx.
  destruct (getenv p "TORCHCOMM_XCCL_BOOTSTRAP_UNIQUEID_EXCHANGE_METHOD"); simpl_state;
    rewrite Hset; simpl_state; destruct (is_success st); simpl_state;
    try (rewrite Hmalloc; simpl_state; destruct (is_success sm); simpl_state);
    rewrite <- ?app_assoc; reflexivity.
Qed.

End Lifecycle.

(** X6. The destructor calls [free] only on a barrier buffer that is not
    null, and once: it makes no call when the buffer is null; otherwise it
    calls [free] on the buffer.  On success it nulls the pointer, so that
    a second run of the destructor body does nothing.  On a failure the
    check asks the device API for the error string and throws "Failed to
    free barrier buffer"; the destructor being [noexcept], that exception
    reaches no caller: the process is ended by [std::terminate], with the
    pointer still in place. *)
Theorem X6_destructor_frees_the_barrier_buffer_once :
  forall (W : Type) (C : Collaborators W) (o : Obj W),
    (barrier_buffer_ (this o) = nullptr -> destructor C o = (inr tt, o))
    /\ (forall status w1,
           barrier_buffer_ (this o) <> nullptr ->
           xpu_free C (barrier_buffer_ (this o)) (world (proc o)) = (status, w1) ->
           let r := destructor C o in
           (status = ZE_RESULT_SUCCESS ->
            trace (proc (snd r))
            = (trace (proc o) ++ [XpuFree (barrier_buffer_ (this o))])%list
            /\ fst r = inr tt
            /\ barrier_buffer_ (this (snd r)) = nullptr
            /\ destructor C (snd r) = (inr tt, snd r))
           /\ (status <> ZE_RESULT_SUCCESS ->
               trace (proc (snd r))
               = (trace (proc o)
                    ++ [XpuFree (barrier_buffer_ (this o)); XpuGetErrorString status])%list
               /\ fst r = inl (std_terminate
                                 (xpu_check_failure "Failed to free barrier buffer" status))
               /\ (forall e, fst r = inl e -> ends_process e = true)
               /\ this (snd r) = this o)).
Proof.
  intros W C o. split; [apply destructor_null_buffer|].
  intros status w1 Hbuf Hfree. cbv zeta. destruct o as [b p]. cbn [this proc] in *.
  rewrite (destructor_frees C b p status w1 Hbuf Hfree). cbn [fst snd this proc trace].
  split.
  - intros ->. cbn [is_success ze_result_eqb].
    split; [reflexivity|]. split; [reflexivity|]. split; [reflexivity|].
    apply destructor_null_buffer. reflexivity.
  - intros Hne. destruct (is_success status) eqn:Hs.
    + apply LevelZeroFacts.is_success_true in Hs. contradiction.
    + split; [reflexivity|]. split; [reflexivity|]. split; [|reflexivity].
      intros e He. inversion He. reflexivity.
Qed.

Lemma X6_witness_buffer_freed :
  let o := mkObj (Mock.bootstrap0 None 0 2 "auto")
             (Mock.process0 (Mock.world0 0 2) Mock.no_env) in
  let C := mkCollaborators Mock.World
             (query_ranksize Mock.collaborators) (xpu_getDeviceCount Mock.collaborators)
             (xpu_setDevice Mock.collaborators) (xpu_malloc Mock.collaborators)
             (fun _ w => (ZE_RESULT_ERROR_DEVICE_LOST, w))
             (xpu_getCurrentXPUStream Mock.collaborators)
             (xpu_streamSynchronize Mock.collaborators)
             (xpu_getErrorString Mock.collaborators)
             (xccl_getUniqueId Mock.collaborators)
             (xccl_commInitRankConfig Mock.collaborators)
             (xccl_allReduce Mock.collaborators) (xccl_getErrorString Mock.collaborators)
             (store_set Mock.collaborators) (store_get Mock.collaborators)
             (StoreManager_getStore Mock.collaborators) 16 Mock.config0 "xccl" in
  (trace (proc (snd (destructor Mock.collaborators o))) = [XpuFree 4096]
   /\ fst (destructor Mock.collaborators o) = inr tt
   /\ barrier_buffer_ (this (snd (destructor Mock.collaborators o))) = nullptr
   /\ destructor Mock.collaborators (snd (destructor Mock.collaborators o))
      = (inr tt, snd (destructor Mock.collaborators o)))
  /\ (trace (proc (snd (destructor C o)))
      = [XpuFree 4096; XpuGetErrorString ZE_RESULT_ERROR_DEVICE_LOST]
      /\ fst (destructor C o)
         = inl (std_terminate
                  (xpu_check_failure "Failed to free barrier buffer"
                     ZE_RESULT_ERROR_DEVICE_LOST))
      /\ (forall e, fst (destructor C o) = inl e -> ends_process e = true)
      /\ this (snd (destructor C o)) = this o).
Proof.
  cbv zeta. split.
  - apply (proj2 (X6_destructor_frees_the_barrier_buffer_once Mock.World Mock.collaborators
                    (mkObj (Mock.bootstrap0 None 0 2 "auto")
                       (Mock.process0 (Mock.world0 0 2) Mock.no_env)))
             ZE_RESULT_SUCCESS (Mock.world0 0 2)).
    + discriminate.
    + reflexivity.
    + reflexivity.
  - eapply (proj2 (X6_destructor_frees_the_barrier_buffer_once Mock.World _
                     (mkObj (Mock.bootstrap0 None 0 2 "auto")
                        (Mock.process0 (Mock.world0 0 2) Mock.no_env)))
              ZE_RESULT_ERROR_DEVICE_LOST (Mock.world0 0 2)).
    + discriminate.
    + reflexivity.
    + discriminate.
Defined.

(** X7. The constructor talks to the device API only: on every path the
    calls it makes are device calls, at most four (the count, the
    selection, the allocation, and the error string of the call that
    failed), and the static key counter is untouched.  With an explicit
    device index the device count is not queried: the constructor calls
    [setDevice] with that index and, only if that succeeds, allocates
    [sizeof(float)] bytes; after a call that failed it asks the device API
    for the error string of the status and throws "Failed to set device to
    <index>" or "Failed to allocate barrier buffer", a message that goes
    on with ": " and that error string.  Otherwise it returns a
    coordinator that holds the device and the store as given, the rank and
    size of the process, the override of the environment in lower case
    ("auto" when unset), the new buffer, and a false
    [created_internal_store_]. *)
Theorem X7_constructor_with_explicit_device :
  forall (W : Type) (C : Collaborators W) (store : option StoreHandle) (device : Device)
         (timeout : Z) (p : Process W),
    let r := constructor C store device timeout p in
    (counter_ (snd r) = counter_ p
     /\ exists evs,
          trace (snd r) = (trace p ++ evs)%list
          /\ forallb is_device_call evs = true
          /\ (List.length evs <= 4)%nat)
    /\ (forall st w1 sm buf w2,
           dev_index device <> -1 ->
           xpu_setDevice C (dev_index device) (world p) = (st, w1) ->
           xpu_malloc C sizeof_float w1 = ((sm, buf), w2) ->
           trace (snd r)
           = (trace p ++ XpuSetDevice (dev_index device)
                :: (if is_success st
                    then XpuMalloc sizeof_float
                           :: (if is_success sm then [] else [XpuGetErrorString sm])
                    else [XpuGetErrorString st]))%list
           /\ fst r =
              (if is_success st then
                 if is_success sm then
                   inr (mkBootstrap timeout store false device
                          (fst (query_ranksize C (world p)))
                          (snd (query_ranksize C (world p)))
                          (lower_case (selector_override (getenv p))) buf)
                 else inl (xpu_check_failure "Failed to allocate barrier buffer" sm)
               else inl (xpu_check_failure
                           ("Failed to set device to " ++ to_string (dev_index device)) st))
           /\ (forall e, fst r = inl e ->
               what C e
               = ((if is_success st then "Failed to allocate barrier buffer"
                   else "Failed to set device to " ++ to_string (dev_index device))
                    ++ ": "
                    ++ xpu_getErrorString C (if is_success st then sm else st)
                    ++ " at ")%string)).
Proof.
  intros W C store device timeout p. cbv zeta. split.
  - apply constructor_calls.
  - intros st w1 sm buf w2 Hidx Hset Hmalloc.
    rewrite (constructor_explicit_device C store device timeout p st w1 sm buf w2
               Hidx Hset Hmalloc).
    cbn [fst snd trace]. rewrite <- resolved_method_lower_case.
    split; [reflexivity|]. split; [reflexivity|].
    intros e He. destruct (is_success st); [destruct (is_success sm)|];
      inversion He; reflexivity.
Qed.

Lemma X7_witness_device_2 :
  let p := Mock.process0 (Mock.world0 1 4) Mock.no_env in
  let C := mkCollaborators Mock.World
             (query_ranksize Mock.collaborators) (xpu_getDeviceCount Mock.collaborators)
             (xpu_setDevice Mock.collaborators)
             (fun _ w => ((ZE_RESULT_ERROR_OUT_OF_DEVICE_MEMORY, nullptr), w))
             (xpu_free Mock.collaborators)
             (xpu_getCurrentXPUStream Mock.collaborators)
             (xpu_streamSynchronize Mock.collaborators)
             (xpu_getErrorString Mock.collaborators)
             (xccl_getUniqueId Mock.collaborators)
             (xccl_commInitRankConfig Mock.collaborators)
             (xccl_allReduce Mock.collaborators) (xccl_getErrorString Mock.collaborators)
             (store_set Mock.collaborators) (store_get Mock.collaborators)
             (StoreManager_getStore Mock.collaborators) 16 Mock.config0 "xccl" in
  (trace (snd (constructor Mock.collaborators (Some 1) (mkDevice kXPU 2) 500 p))
   = [XpuSetDevice 2; XpuMalloc 4]
   /\ fst (constructor Mock.collaborators (Some 1) (mkDevice kXPU 2) 500 p)
      = inr (mkBootstrap 500 (Some 1) false (mkDevice kXPU 2) 1 4 "auto" 4096))
  /\ (trace (snd (constructor C (Some 1) (mkDevice kXPU 2) 500 p))
      = [XpuSetDevice 2; XpuMalloc 4;
         XpuGetErrorString ZE_RESULT_ERROR_OUT_OF_DEVICE_MEMORY]
      /\ fst (constructor C (Some 1) (mkDevice kXPU 2) 500 p)
         = inl (xpu_check_failure "Failed to allocate barrier buffer"
                  ZE_RESULT_ERROR_OUT_OF_DEVICE_MEMORY)
      /\ forall e,
           fst (constructor C (Some 1) (mkDevice kXPU 2) 500 p) = inl e ->
           what C e
           = "Failed to allocate barrier buffer: ZE_RESULT_ERROR_OUT_OF_DEVICE_MEMORY at ").
Proof.
  intros p C. split.
  - destruct (proj2 (X7_constructor_with_explicit_device Mock.World Mock.collaborators
                       (Some 1) (mkDevice kXPU 2) 500 p)
                ZE_RESULT_SUCCESS (Mock.world0 1 4) ZE_RESULT_SUCCESS 4096 (Mock.world0 1 4))
      as (Htrace & Hres & _);
      [discriminate|reflexivity|reflexivity|].
    split; [exact Htrace|exact Hres].
  - destruct (proj2 (X7_constructor_with_explicit_device Mock.World C
                       (Some 1) (mkDevice kXPU 2) 500 p)
                ZE_RESULT_SUCCESS (Mock.world0 1 4) ZE_RESULT_ERROR_OUT_OF_DEVICE_MEMORY
                nullptr (Mock.world0 1 4))
      as (Htrace & Hres & Hwhat);
      [discriminate|reflexivity|reflexivity|].
    split; [exact Htrace|]. split; [exact Hres|exact Hwhat].
Defined.

(** * Further properties of the hint pass *)

Section HintPass.

Variable name : string.

(** One entry of the loop, by the field that its key names. *)
Lemma hint_entry_by_field config key val l :
  exists msg,
    hint_entry name config (key, val) l =
      match field_of key with
      | None => (inr config, (l ++ [(WARNING, unsupported_hint_warning key name)])%list)
      | Some f =>
          match assign f val config with
          | inl e => (inl e, l)
          | inr config' => (inr config', (l ++ [(INFO, msg)])%list)
          end
      end.
Proof.
  unfold hint_entry, field_of.
  repeat match goal with
         | |- context [if ?c then _ else _] => destruct c
         end;
    unfold int_hint, str_hint, try_stoi, bind, TC_LOG, modify, ret, assign;
    try destruct (stoi val);
    first [exists EmptyString; reflexivity | eexists; reflexivity].
Qed.

Lemma field_of_recognized key :
  recognized key = match field_of key with Some _ => true | None => false end.
Proof.
  unfold field_of, key_eq.
  repeat match goal with
         | |- context [if ?c then _ else _] =>
             lazymatch type of c with bool => destruct c eqn:? end
         end;
    try (match goal with
         | H : (_ || _) = true |- _ =>
             apply orb_prop in H; destruct H as [H | H];
             apply String.eqb_eq in H; subst key; reflexivity
         | H : String.eqb key _ = true |- _ =>
             apply String.eqb_eq in H; subst key; reflexivity
         end).
  repeat match goal with
         | H : (_ || _) = false |- _ => apply orb_false_elim in H; destruct H
         end.
  unfold recognized, mem, integer_keys, string_keys. cbn [existsb].
  repeat match goal with
         | H : String.eqb key _ = false |- _ => rewrite H; clear H
         end.
  reflexivity.
Qed.

Lemma populate_translate (hs : Hints) : forall config l,
  fst (populateXcclConfigFromHints config hs name l) = translate hs config.
Proof.
  induction hs as [|[key val] rest IH]; intros config l; [reflexivity|].
  rewrite populate_cons. cbn [translate].
  destruct (hint_entry_by_field config key val l) as [msg ->].
  destruct (field_of key) as [f|]; [|apply IH].
  destruct (assign f val config) as [e|config']; [reflexivity|apply IH].
Qed.

(** The records that the pass adds: one per entry processed. *)
Lemma populate_logs (hs : Hints) : forall config l,
  exists added,
    snd (populateXcclConfigFromHints config hs name l) = (l ++ added)%list
    /\ (failed (fst (populateXcclConfigFromHints config hs name l)) = false ->
        map fst added = map (fun kv => severity_for (fst kv)) hs)
    /\ (List.length added <= List.length hs)%nat.
Proof.
  induction hs as [|[key val] rest IH]; intros config l.
  - exists []. cbn. rewrite app_nil_r. repeat split; auto.
  - rewrite populate_cons.
    destruct (hint_entry_by_field config key val l) as [msg ->].
    destruct (field_of key) as [f|] eqn:Hf.
    + destruct (assign f val config) as [e|config'].
      * exists []. cbn. rewrite app_nil_r. split; [reflexivity|].
        split; [discriminate|lia].
      * destruct (IH config' (l ++ [(INFO, msg)])%list) as (added & H1 & H2 & H3).
        exists ((INFO, msg) :: added). rewrite H1, <- app_assoc.
        split; [reflexivity|]. split; [|cbn; lia].
        intros Hok. cbn [map fst]. rewrite (H2 Hok).
        f_equal. unfold severity_for. rewrite field_of_recognized, Hf. reflexivity.
    + destruct (IH config (l ++ [(WARNING, unsupported_hint_warning key name)])%list)
        as (added & H1 & H2 & H3).
      exists ((WARNING, unsupported_hint_warning key name) :: added).
      rewrite H1, <- app_assoc.
      split; [reflexivity|]. split; [|cbn; lia].
      intros Hok. cbn [map fst]. rewrite (H2 Hok).
      f_equal. unfold severity_for. rewrite field_of_recognized, Hf. reflexivity.
Qed.

End HintPass.

(** X8. The hint pass only appends to the log, at most one record per
    entry; when it does not throw, it has appended exactly one record per
    entry, in the order of the entries: an INFO record for an entry with a
    recognized key and a WARNING record for any other entry. *)
Theorem X8_one_log_record_per_hint :
  forall (name : string) (config : onecclConfig_t) (hs : Hints) (l : list LogRecord),
    exists added,
      snd (populateXcclConfigFromHints config hs name l) = (l ++ added)%list
      /\ (failed (fst (populateXcclConfigFromHints config hs name l)) = false ->
          map fst added = map (fun kv => severity_for (fst kv)) hs)
      /\ (List.length added <= List.length hs)%nat.
Proof.
  intros name config hs l. apply populate_logs.
Qed.

(** X9. The configuration that the hint pass builds, and whether it
    throws, do not depend on the communicator name or on the log: they are
    given by applying the entries in order, each to the field that its key
    names, and stopping at the first value that [std::stoi] rejects. *)
Theorem X9_hint_pass_is_a_fold_over_the_entries :
  forall (name : string) (config : onecclConfig_t) (hs : Hints) (l : list LogRecord),
    fst (populateXcclConfigFromHints config hs name l) = translate hs config.
Proof.
  intros name config hs l. apply populate_translate.
Qed.

(** ** The order of the hints *)

Section HintOrder.

Lemma same_outcome_refl a : same_outcome a a.
Proof. destruct a; cbn; auto. Qed.

Lemma same_outcome_trans a b c :
  same_outcome a b -> same_outcome b c -> same_outcome a c.
Proof.
  destruct a, b, c; cbn; try tauto; congruence.
Qed.

(** Assignments to two different fields can be made in either order. *)
Lemma assign_swap f g v w c (K : onecclConfig_t -> exception + onecclConfig_t) :
  f <> g ->
  same_outcome
    match assign f v c with
    | inl e => inl e
    | inr c1 => match assign g w c1 with inl e => inl e | inr c2 => K c2 end
    end
    match assign g w c with
    | inl e => inl e
    | inr c1 => match assign f v c1 with inl e => inl e | inr c2 => K c2 end
    end.
Proof.
  intros Hfg. destruct c.
  destruct f, g; try congruence; unfold assign;
    destruct (stoi v), (stoi w); cbn; first [exact I | apply same_outcome_refl].
Qed.

(** A second assignment to a field replaces the first. *)
Lemma assign_overwrite f v w c c1 :
  assign f v c = inr c1 -> assign f w c1 = assign f w c.
Proof.
  destruct c. destruct f; unfold assign;
    destruct (stoi v); intros H; inversion H; subst;
    destruct (stoi w); reflexivity.
Qed.

Lemma fields_named_perm hs hs' :
  Permutation hs hs' -> Permutation (fields_named hs) (fields_named hs').
Proof.
  induction 1 as [|[k v] l l' _ IH|[k v] [k' v'] l|l l' l'' _ IH1 _ IH2].
  - constructor.
  - cbn. destruct (field_of k); [constructor|]; exact IH.
  - cbn. destruct (field_of k), (field_of k'); try reflexivity. apply perm_swap.
  - eapply perm_trans; eassumption.
Qed.

Lemma translate_perm hs hs' :
  Permutation hs hs' -> NoDup (fields_named hs) ->
  forall c, same_outcome (translate hs c) (translate hs' c).
Proof.
  induction 1 as [|[k v] l l' Hp IH|[k v] [k' v'] l|l l' l'' Hp1 IH1 Hp2 IH2];
    intros Hnd c.
  - apply same_outcome_refl.
  - cbn in *. destruct (field_of k) as [f|].
    + inversion Hnd; subst. destruct (assign f v c); [exact I|]. apply IH; assumption.
    + apply IH; assumption.
  - cbn in *. destruct (field_of k) as [f|], (field_of k') as [g|];
      try apply same_outcome_refl.
    apply assign_swap. inversion Hnd; subst. cbn in *. intuition congruence.
  - eapply same_outcome_trans; [apply IH1; assumption|].
    apply IH2. eapply Permutation_NoDup; [|exact Hnd].
    apply fields_named_perm; assumption.
Qed.

End HintOrder.

(** X10. When no two entries of the hints name the same field of the
    configuration, the order in which the loop visits them does not
    matter: two passes over the same entries in different orders both
    throw, or build the same configuration. *)
Theorem X10_distinct_fields_order_irrelevant :
  forall (name name' : string) (hs hs' : Hints) (config : onecclConfig_t)
         (l l' : list LogRecord),
    Permutation hs hs' ->
    NoDup (fields_named hs) ->
    same_outcome (fst (populateXcclConfigFromHints config hs name l))
                 (fst (populateXcclConfigFromHints config hs' name' l')).
Proof.
  intros name name' hs hs' config l l' Hp Hnd.
  rewrite !populate_translate. apply translate_perm; assumption.
Qed.

Lemma X10_witness_three_entries :
  same_outcome
    (fst (populateXcclConfigFromHints Mock.config0
            [("minCTAs", "1"); ("netName", "eth0"); ("bogus", "x")] "c" []))
    (fst (populateXcclConfigFromHints Mock.config0
            [("netName", "eth0"); ("bogus", "x"); ("minCTAs", "1")] "c" [])).
Proof.
  apply X10_distinct_fields_order_irrelevant.
  - eapply perm_trans; [apply perm_swap|]. apply perm_skip. apply perm_swap.
  - cbn. repeat constructor; cbn; intuition discriminate.
Defined.

(** X11. An entry whose value is accepted is without effect on the
    configuration when the next entry names the same field: the later
    assignment replaces the earlier one. *)
Theorem X11_later_entry_replaces_the_earlier :
  forall (name : string) (config : onecclConfig_t) (k1 v1 k2 v2 : string)
         (rest : Hints) (l : list LogRecord) (f : Field),
    field_of k1 = Some f ->
    field_of k2 = Some f ->
    failed (fst (populateXcclConfigFromHints config [(k1, v1)] name l)) = false ->
    fst (populateXcclConfigFromHints config ((k1, v1) :: (k2, v2) :: rest) name l)
    = fst (populateXcclConfigFromHints config ((k2, v2) :: rest) name l).
Proof.
  intros name config k1 v1 k2 v2 rest l f H1 H2 Hok.
  rewrite !populate_translate in *. cbn [translate] in *. rewrite H1, H2 in *.
  destruct (assign f v1 config) as [e|c1] eqn:Ha; [discriminate|].
  rewrite (assign_overwrite _ _ _ _ _ Ha). reflexivity.
Qed.

Lemma X11_witness_both_spellings :
  fst (populateXcclConfigFromHints Mock.config0
         [("minCTAs", "1"); ("min_ctas", "2"); ("blocking", "0")] "c" [])
  = fst (populateXcclConfigFromHints Mock.config0
           [("min_ctas", "2"); ("blocking", "0")] "c" []).
Proof.
  apply (X11_later_entry_replaces_the_earlier "c" Mock.config0
           "minCTAs" "1" "min_ctas" "2" [("blocking", "0")] [] F_minCTAs);
    reflexivity.
Defined.

(** X12. Two entries that name the same integer field with different
    values make the result depend on the order of the loop: the two orders
    build different configurations. *)
Theorem X12_same_field_twice_makes_the_order_matter :
  forall (name : string) (config : onecclConfig_t) (k1 v1 k2 v2 : string)
         (l : list LogRecord) (f : Field) (a b : Z),
    field_of k1 = Some f ->
    field_of k2 = Some f ->
    is_string_field f = false ->
    stoi v1 = inr a ->
    stoi v2 = inr b ->
    a <> b ->
    fst (populateXcclConfigFromHints config [(k1, v1); (k2, v2)] name l)
    <> fst (populateXcclConfigFromHints config [(k2, v2); (k1, v1)] name l).
Proof.
  intros name config k1 v1 k2 v2 l f a b H1 H2 Hf Ha Hb Hab.
  rewrite !populate_translate. cbn [translate]. rewrite H1, H2.
  destruct config.
  destruct f; try discriminate; unfold assign; rewrite ?Ha, ?Hb; cbn; rewrite ?Ha, ?Hb;
    intros H; inversion H; congruence.
Qed.

Lemma X12_witness_min_ctas_twice :
  fst (populateXcclConfigFromHints Mock.config0
         [("minCTAs", "1"); ("min_ctas", "2")] "c" [])
  <> fst (populateXcclConfigFromHints Mock.config0
            [("min_ctas", "2"); ("minCTAs", "1")] "c" []).
Proof.
  apply (X12_same_field_twice_makes_the_order_matter "c" Mock.config0
           "minCTAs" "1" "min_ctas" "2" [] F_minCTAs 1 2);
    first [reflexivity | discriminate].
Defined.

(** ** What [std::stoi] lets through *)

Section StoiLeniency.

Lemma skip_spaces_all ws s :
  all_spaces ws = true -> skip_spaces (ws ++ s) = skip_spaces s.
Proof.
  induction ws as [|c ws IH]; cbn; [reflexivity|].
  destruct (isspace c); cbn; [exact IH|discriminate].
Qed.

Lemma read_digits_app t :
  no_leading_digit t = true ->
  forall s acc, read_digits (s ++ t) acc = read_digits s acc.
Proof.
  intros Ht. induction s as [|c s IH]; intros acc.
  - destruct t as [|c t]; cbn in *; [reflexivity|].
    destruct (digit_of c); [discriminate|reflexivity].
  - cbn. destruct (digit_of c); [apply IH|reflexivity].
Qed.

Lemma skip_spaces_app c r t :
  forall s, skip_spaces s = String c r -> skip_spaces (s ++ t) = String c (r ++ t).
Proof.
  induction s as [|d s IH]; cbn; [discriminate|].
  destruct (isspace d); [exact IH|].
  intros H; inversion H; reflexivity.
Qed.

Lemma strtol_app v t z :
  no_leading_digit t = true -> strtol v = Some z -> strtol (v ++ t) = Some z.
Proof.
  intros Ht. unfold strtol.
  destruct (skip_spaces v) as [|c r] eqn:Hs; [discriminate|].
  rewrite (skip_spaces_app c r t v Hs).
  destruct c as [b0 b1 b2 b3 b4 b5 b6 b7].
  destruct b0, b1, b2, b3, b4, b5, b6, b7; cbv beta iota;
    first [ rewrite (read_digits_app t Ht r None); trivial
          | intros H; rewrite <- H; exact (read_digits_app t Ht (String _ r) None) ].
Qed.

Lemma stoi_lenient ws v t z :
  all_spaces ws = true -> no_leading_digit t = true ->
  stoi v = inr z -> stoi (ws ++ v ++ t) = inr z.
Proof.
  intros Hw Ht. unfold stoi.
  destruct (strtol v) as [z'|] eqn:Hv; [|discriminate].
  intros Hz.
  assert (Hs : strtol (ws ++ v ++ t) = Some z').
  { unfold strtol. rewrite skip_spaces_all by exact Hw.
    exact (strtol_app v t z' Ht Hv). }
  rewrite Hs. exact Hz.
Qed.

(** An integer branch depends on the value only through [std::stoi]. *)
Lemma hint_entry_integer_same name config key v v' l :
  integer_typed key = true ->
  stoi v' = stoi v ->
  hint_entry name config (key, v') l = hint_entry name config (key, v) l.
Proof.
  unfold integer_typed, mem. intros Hk Hs.
  apply existsb_exists in Hk. destruct Hk as (k & Hin & Heq).
  apply String.eqb_eq in Heq. subst k.
  unfold integer_keys in Hin. cbn [In] in Hin.
  repeat (destruct Hin as [<- | Hin];
          [cbv [hint_entry key_eq String.eqb Ascii.eqb Bool.eqb orb];
           unfold int_hint, try_stoi, bind; rewrite Hs; reflexivity|]).
  contradiction.
Qed.

End StoiLeniency.

(** X13. For a key of an integer field, white space in front of an
    accepted value and text behind it that does not start with a digit
    change nothing: the pass assigns the same number and logs the same
    records as for the value alone. *)
Theorem X13_integer_hint_ignores_surrounding_text :
  forall (name : string) (config : onecclConfig_t) (key ws v t : string)
         (rest : Hints) (l : list LogRecord) (z : Z),
    integer_typed key = true ->
    stoi v = inr z ->
    all_spaces ws = true ->
    no_leading_digit t = true ->
    populateXcclConfigFromHints config ((key, ws ++ v ++ t) :: rest) name l
    = populateXcclConfigFromHints config ((key, v) :: rest) name l.
Proof.
  intros name config key ws v t rest l z Hk Hv Hw Ht.
  rewrite !populate_cons.
  rewrite (hint_entry_integer_same name config key v (ws ++ v ++ t) l Hk); [reflexivity|].
  rewrite Hv. apply stoi_lenient; assumption.
Qed.

Lemma X13_witness_padded_number :
  populateXcclConfigFromHints Mock.config0 [("min_ctas", "  -12abc")] "c" []
  = populateXcclConfigFromHints Mock.config0 [("min_ctas", "-12")] "c" [].
Proof.
  apply (X13_integer_hint_ignores_surrounding_text "c" Mock.config0
           "min_ctas" "  " "-12" "abc" [] [] (-12));
    reflexivity.
Defined.

(** ** The device API over Level Zero *)

Import DeviceApi.

Section DeviceSelection.

Variable L : Loader.

Lemma initLevelZero_again (g : Globals) :
  initialized g = true -> initLevelZero L g = (ZE_RESULT_SUCCESS, g).
Proof. intros H. unfold initLevelZero. rewrite H. reflexivity. Qed.

(** The statics after an [initLevelZero] that reported success. *)
Lemma initLevelZero_success_state (g : Globals) :
  reachable L g ->
  Z.of_nat (List.length (devices_found L)) <= INT_MAX ->
  fst (initLevelZero L g) = ZE_RESULT_SUCCESS ->
  initialized (snd (initLevelZero L g)) = true
  /\ g_device_count (snd (initLevelZero L g)) = Z.of_nat (List.length (discrete L))
  /\ to_int (g_device_count (snd (initLevelZero L g))) = Z.of_nat (List.length (discrete L))
  /\ g_devices (snd (initLevelZero L g)) = discrete L
  /\ discrete L <> [].
Proof.
  intros Hreach Hsmall Hres.
  pose proof (initLevelZero_reachable L g Hreach) as H. cbv zeta in H.
  destruct H as (Hok & _). destruct (Hok Hres) as (Hcount & Hdevs & Hsome).
  assert (Hle : Z.of_nat (List.length (discrete L)) <= INT_MAX).
  { unfold discrete.
    pose proof (filter_length_le (is_dgpu L) (devices_found L)). lia. }
  destruct (small_count_exact _ Hle) as [H32 Hint].
  split.
  - destruct (initialized g) eqn:Hinit.
    + rewrite (initLevelZero_again g Hinit). exact Hinit.
    + pose proof (initLevelZero_first L g Hinit) as H. cbv zeta in H.
      destruct H as (Hfirst & _). destruct (Hfirst Hres) as (Hi & _). exact Hi.
  - split; [rewrite Hcount; exact H32|].
    split; [rewrite Hcount, H32; exact Hint|].
    split.
    + rewrite Hdevs, Hcount, H32, Nat2Z.id. apply firstn_all.
    + unfold discrete. apply not_all_integrated_some_discrete. exact Hsome.
Qed.

End DeviceSelection.

(** X14. Once [initLevelZero] succeeds, [setDevice] accepts exactly the
    indices of the discrete devices kept, and answers any other index with
    ZE_RESULT_ERROR_INVALID_ARGUMENT; it changes nothing beyond what the
    initialisation does, so it selects no device. *)
Theorem X14_setDevice_accepts_exactly_the_kept_devices :
  forall (L : Loader) (g : Globals) (device : Z),
    reachable L g ->
    Z.of_nat (List.length (devices_found L)) <= INT_MAX ->
    fst (initLevelZero L g) = ZE_RESULT_SUCCESS ->
    setDevice L device g =
      (if (0 <=? device) && (device <? Z.of_nat (List.length (discrete L)))
       then ZE_RESULT_SUCCESS else ZE_RESULT_ERROR_INVALID_ARGUMENT,
       snd (initLevelZero L g)).
Proof.
  intros L g device Hreach Hsmall Hres.
  destruct (initLevelZero_success_state L g Hreach Hsmall Hres) as (_ & _ & Hint & _).
  unfold setDevice. destruct (initLevelZero L g) as [result g1]. cbn [fst snd] in *.
  subst result. cbn [is_success ze_result_eqb negb]. rewrite Hint.
  destruct (device <? 0) eqn:H0; destruct (0 <=? device) eqn:H0';
    destruct (Z.of_nat (List.length (discrete L)) <=? device) eqn:H1;
    destruct (device <? Z.of_nat (List.length (discrete L))) eqn:H1';
    cbn; try reflexivity; lia.
Qed.

Lemma X14_witness_index_1_of_2 :
  setDevice machine 1 globals0
  = (ZE_RESULT_SUCCESS, snd (initLevelZero machine globals0)).
Proof.
  apply (X14_setDevice_accepts_exactly_the_kept_devices machine globals0 1).
  - apply reachable_start.
  - vm_compute. discriminate.
  - reflexivity.
Defined.

(** X15. The device index that the bootstrap derives from a non-negative
    rank and the count that [getDeviceCount] stored: the count is never
    zero, so the remainder has a value, [rank mod count].  [setDevice]
    receives that value converted to the 8-bit signed index of a device;
    it accepts it, leaving the statics as they are, exactly when the
    remainder modulo 256 is below 128, and answers
    ZE_RESULT_ERROR_INVALID_ARGUMENT otherwise, the converted index being
    negative.  With at most 128 devices the conversion changes nothing and
    the derived index is always accepted. *)
Theorem X15_rank_modulo_count_is_accepted :
  forall (L : Loader) (g g1 : Globals) (rank n : Z),
    reachable L g ->
    Z.of_nat (List.length (devices_found L)) <= INT_MAX ->
    getDeviceCount L true g = ((ZE_RESULT_SUCCESS, Some n), g1) ->
    0 <= rank ->
    0 < n
    /\ int_rem rank n = Some (rank mod n)
    /\ setDevice L (to_DeviceIndex (rank mod n)) g1
       = (if (rank mod n) mod 256 <? 128
          then ZE_RESULT_SUCCESS else ZE_RESULT_ERROR_INVALID_ARGUMENT, g1)
    /\ (n <= 128 ->
        to_DeviceIndex (rank mod n) = rank mod n
        /\ setDevice L (rank mod n) g1 = (ZE_RESULT_SUCCESS, g1)).
Proof.
  intros L g g1 rank n Hreach Hsmall Hcount Hrank.
  unfold getDeviceCount in Hcount.
  pose proof (initLevelZero_success_state L g Hreach Hsmall) as Hst.
  destruct (initLevelZero L g) as [result g'] eqn:Hrun. cbn [fst snd] in *.
  destruct (is_success result) eqn:Hres; cbn [negb] in Hcount;
    [|inversion Hcount; subst; discriminate].
  apply is_success_true in Hres. inversion Hcount; subst. clear Hcount.
  destruct (Hst eq_refl) as (Hinit & _ & Hint & _ & Hne).
  assert (Hpos : 0 < Z.of_nat (List.length (discrete L))).
  { destruct (discrete L); [contradiction|cbn; lia]. }
  rewrite Hint in *.
  pose proof (Z.mod_pos_bound rank (Z.of_nat (List.length (discrete L))) Hpos) as Hv.
  assert (Hrem : int_rem rank (Z.of_nat (List.length (discrete L)))
                 = Some (rank mod Z.of_nat (List.length (discrete L)))).
  { unfold int_rem.
    destruct (Z.of_nat (List.length (discrete L)) =? 0) eqn:H0; [lia|].
    destruct (Z.of_nat (List.length (discrete L)) =? -1) eqn:H1; [lia|].
    rewrite andb_false_r. cbn [orb].
    rewrite (Z.rem_mod_nonneg _ _ Hrank Hpos). reflexivity. }
  split; [exact Hpos|]. split; [exact Hrem|].
  assert (Hset : forall idx,
             setDevice L idx g1
             = (if (idx <? 0) || (Z.of_nat (List.length (discrete L)) <=? idx)
                then ZE_RESULT_ERROR_INVALID_ARGUMENT else ZE_RESULT_SUCCESS, g1)).
  { intros idx. unfold setDevice. rewrite (initLevelZero_again L g1 Hinit).
    cbn [is_success ze_result_eqb negb]. rewrite Hint.
    destruct ((idx <? 0) || (Z.of_nat (List.length (discrete L)) <=? idx)); reflexivity. }
  rewrite !Hset.
  generalize dependent (rank mod Z.of_nat (List.length (discrete L))). intros v Hv _.
  unfold to_DeviceIndex, to_int8. change (2 ^ 7) with 128. change (2 ^ 8) with 256.
  split.
  - destruct (v mod 256 <? 128) eqn:Hm;
      destruct ((v + 128) mod 256 - 128 <? 0) eqn:H0;
      destruct (Z.of_nat (List.length (discrete L)) <=? (v + 128) mod 256 - 128) eqn:H1;
      cbn [orb]; try reflexivity; exfalso;
      Z.to_euclidean_division_equations; lia.
  - intros Hn. rewrite (Z.mod_small (v + 128) 256) by lia.
    replace (v + 128 - 128) with v by lia. split; [reflexivity|].
    destruct (v <? 0) eqn:H0;
      destruct (Z.of_nat (List.length (discrete L)) <=? v) eqn:H1;
      cbn [orb]; try reflexivity; lia.
Qed.

Lemma X15_witness_rank_5_of_2_devices :
  (0 < 2
   /\ int_rem 5 2 = Some 1
   /\ setDevice machine (to_DeviceIndex 1) (snd (getDeviceCount machine true globals0))
      = (ZE_RESULT_SUCCESS, snd (getDeviceCount machine true globals0))
   /\ (2 <= 128 ->
       to_DeviceIndex 1 = 1
       /\ setDevice machine 1 (snd (getDeviceCount machine true globals0))
          = (ZE_RESULT_SUCCESS, snd (getDeviceCount machine true globals0))))
  /\ (0 < 200
      /\ int_rem 150 200 = Some 150
      /\ setDevice rack (-106) (snd (getDeviceCount rack true globals0))
         = (ZE_RESULT_ERROR_INVALID_ARGUMENT, snd (getDeviceCount rack true globals0))
      /\ (200 <= 128 ->
          to_DeviceIndex 150 = 150
          /\ setDevice rack 150 (snd (getDeviceCount rack true globals0))
             = (ZE_RESULT_SUCCESS, snd (getDeviceCount rack true globals0)))).
Proof.
  split.
  - apply (X15_rank_modulo_count_is_accepted machine globals0
             (snd (getDeviceCount machine true globals0)) 5 2).
    + apply reachable_start.
    + vm_compute. discriminate.
    + reflexivity.
    + lia.
  - apply (X15_rank_modulo_count_is_accepted rack globals0
             (snd (getDeviceCount rack true globals0)) 150 200).
    + apply reachable_start.
    + vm_compute. discriminate.
    + vm_compute. reflexivity.
    + lia.
Defined.

(** ** Command lists, memory and events *)

Ltac unfold_api :=
  unfold ubind, init, statics, device0, zecall, uret in *.

Ltac simpl_api := cbn [globals driver calls fst snd negb] in *.

Section CommandLists.

Context {D : Type}.
Variable Dr : Driver D.

Ltac list_case :=
  unfold_api; simpl_api;
  repeat (break_inner; simpl_api); intros H; inversion H; subst; clear H;
  repeat match goal with z : ZeReply |- _ => destruct z end;
  simpl_api;
  repeat match goal with
         | H : negb _ = true |- _ => apply negb_true_iff in H
         | H : negb _ = false |- _ => apply negb_false_iff in H
         end;
  (split; [reflexivity|]);
  first
    [ exists []; rewrite app_nil_r; split; [reflexivity|]; split; [reflexivity|left; reflexivity]
    | eexists; split; [rewrite <- ?app_assoc; cbn [app]; reflexivity|];
      split; [|right; reflexivity];
      cbn [balanced rev app fst snd forallb is_list_lifetime_call negb andb];
      repeat match goal with
             | H : is_success _ = _ |- _ => rewrite H
             end;
      cbn [negb andb]; rewrite ?Z.eqb_refl; reflexivity ].

Lemma streamWaitEvent_handles_list stream event flags :
  handles_list (streamWaitEvent Dr stream event flags).
Proof.
  intros a res a'. unfold streamWaitEvent. list_case.
Qed.

Lemma memcpyAsync_handles_list dst src count stream :
  handles_list (memcpyAsync Dr dst src count stream).
Proof.
  intros a res a'. unfold memcpyAsync. list_case.
Qed.

Lemma eventRecord_handles_list event stream :
  handles_list (eventRecord Dr event stream).
Proof.
  intros a res a'. unfold eventRecord. list_case.
Qed.

End CommandLists.

(** X18. [streamWaitEvent], [memcpyAsync] and [eventRecord] release the
    command list that they create on every path: when one of them returns,
    it has made no driver call, or a creation that failed and nothing more,
    or a successful creation followed by calls that create and destroy no
    list and, last, by the destruction of the list created.  The status
    returned is that of the last call before the destruction, whose own
    status is dropped, and the statics are untouched. *)
Theorem X18_command_list_released_on_every_path :
  forall (D : Type) (Dr : Driver D) (stream event flags count : Z) (dst src : ptr),
    handles_list (streamWaitEvent Dr stream event flags)
    /\ handles_list (memcpyAsync Dr dst src count stream)
    /\ handles_list (eventRecord Dr event stream).
Proof.
  intros D Dr stream event flags count dst src.
  split; [apply streamWaitEvent_handles_list|].
  split; [apply memcpyAsync_handles_list|apply eventRecord_handles_list].
Qed.

Lemma X18_witness_close_refused :
  let g := snd (initLevelZero machine globals0) in
  let a' := mkApi g tt
              [ (ZeCommandListCreate (g_context g) 11, (ZE_RESULT_SUCCESS, 42));
                (ZeCommandListAppendWaitOnEvents 42 8, (ZE_RESULT_SUCCESS, 42));
                (ZeCommandListClose 42, (ZE_RESULT_ERROR_DEVICE_LOST, 0));
                (ZeCommandListDestroy 42, (ZE_RESULT_SUCCESS, 42)) ] in
  globals a' = globals (mkApi g tt [])
  /\ exists added,
       calls a' = (calls (mkApi g tt []) ++ added)%list
       /\ balanced added = true
       /\ (added = [] \/ last_status added = Some ZE_RESULT_ERROR_DEVICE_LOST).
Proof.
  cbv zeta.
  apply (proj1 (X18_command_list_released_on_every_path unit refusing_close 7 8 0 0 0 0)).
  reflexivity.
Defined.


(** X16. The allocation is made on the first discrete device, whichever
    index [setDevice] was given: after a [setDevice] that succeeded,
    [malloc] of a non-zero size makes one driver call, to allocate in the
    context of the statics on the first of the devices kept, and returns
    the status and the pointer of the driver. *)
Theorem X16_malloc_allocates_on_the_first_device :
  forall (D : Type) (L : Loader) (Dr : Driver D) (a : Api D) (device size : Z),
    reachable L (globals a) ->
    Z.of_nat (List.length (devices_found L)) <= INT_MAX ->
    fst (setDevice L device (globals a)) = ZE_RESULT_SUCCESS ->
    size <> 0 ->
    let g1 := snd (setDevice L device (globals a)) in
    exists first rest,
      discrete L = first :: rest
      /\ let c := ZeMemAllocDevice (g_context g1) size first in
         let reply := ze Dr c (driver a) in
         malloc L Dr true size (mkApi g1 (driver a) (calls a))
         = Some ((fst (fst reply), Some (snd (fst reply))),
                 mkApi g1 (snd reply) (calls a ++ [(c, fst reply)])).
Proof.
  intros D L Dr a device size Hreach Hsmall Hset Hsize. cbv zeta.
  assert (Hinit : fst (initLevelZero L (globals a)) = ZE_RESULT_SUCCESS
                  /\ snd (setDevice L device (globals a)) = snd (initLevelZero L (globals a))).
  { unfold setDevice in *. destruct (initLevelZero L (globals a)) as [result g1].
    cbn [fst snd] in *. destruct (is_success result) eqn:Hres; cbn [negb] in *.
    - apply is_success_true in Hres. split; [exact Hres|].
      destruct ((device <? 0) || (to_int (g_device_count g1) <=? device)); reflexivity.
    - cbn [fst] in Hset. subst result. discriminate. }
  destruct Hinit as [Hres ->].
  destruct (initLevelZero_success_state L _ Hreach Hsmall Hres) as (Hi & _ & _ & Hdevs & Hne).
  destruct (discrete L) as [|first rest] eqn:Hd; [contradiction|].
  exists first, rest. split; [reflexivity|].
  unfold malloc. unfold_api. simpl_api.
  rewrite (initLevelZero_again L _ Hi). simpl_api.
  cbn [is_success ze_result_eqb negb].
  destruct (size =? 0) eqn:Hz; [lia|].
  simpl_api. rewrite Hdevs. simpl_api.
  destruct (ze Dr _ (driver a)) as [r d]. reflexivity.
Qed.

Lemma X16_witness_device_1_selected :
  exists first rest,
    discrete machine = first :: rest
    /\ malloc machine obliging true 4
         (mkApi (snd (setDevice machine 1 globals0)) tt [])
       = Some ((ZE_RESULT_SUCCESS, Some 42),
               mkApi (snd (setDevice machine 1 globals0)) tt
                 [(ZeMemAllocDevice (g_context (snd (setDevice machine 1 globals0))) 4 first,
                   (ZE_RESULT_SUCCESS, 42))]).
Proof.
  apply (X16_malloc_allocates_on_the_first_device unit machine obliging
           (mkApi globals0 tt []) 1 4).
  - apply reachable_start.
  - vm_compute. discriminate.
  - reflexivity.
  - discriminate.
Defined.

(** X17. [memGetInfo] either makes no driver call and reports a failure
    without storing anything, or queries the memory of the first device of
    the array once.  When that query succeeds it stores the total size
    both as the free and as the total memory; when it fails, the status of
    the driver is replaced by ZE_RESULT_ERROR_UNINITIALIZED. *)
Theorem X17_memGetInfo_reports_the_total_as_free :
  forall (D : Type) (L : Loader) (Dr : Driver D) (a a' : Api D) (free total : bool)
         (status : ze_result_t) (out : option (Z * Z)),
    memGetInfo L Dr free total a = Some ((status, out), a') ->
    (calls a' = calls a /\ out = None /\ status <> ZE_RESULT_SUCCESS)
    \/ (exists d r t,
          hd_error (g_devices (globals a')) = Some d
          /\ calls a' = (calls a ++ [(ZeDeviceGetMemoryProperties d, (r, t))])%list
          /\ (status, out) = if is_success r
                             then (ZE_RESULT_SUCCESS, Some (t, t))
                             else (ZE_RESULT_ERROR_UNINITIALIZED, None)).
Proof.
  intros D L Dr a a' free total status out.
  unfold memGetInfo. unfold_api. simpl_api.
  repeat (break_inner; simpl_api); intros H; inversion H; subst; clear H;
    repeat match goal with z : ZeReply |- _ => destruct z end;
    simpl_api;
    try (left; split; [reflexivity|]; split; [reflexivity|];
         first [ discriminate | intros ->; cbn in *; discriminate ]);
    try (right; do 3 eexists;
         split; [match goal with H : g_devices _ = _ |- _ => rewrite H end; reflexivity|];
         split; [reflexivity|];
         match goal with H : is_success _ = _ |- _ => rewrite H end; reflexivity).
Qed.

Lemma X17_witness_first_device_memory :
  (calls (mkApi (snd (initLevelZero machine globals0)) tt
            [(ZeDeviceGetMemoryProperties 11, (ZE_RESULT_SUCCESS, 42))])
   = calls (mkApi globals0 tt []) /\ Some (42, 42) = None
   /\ ZE_RESULT_SUCCESS <> ZE_RESULT_SUCCESS)
  \/ (exists d r t,
        hd_error (g_devices (snd (initLevelZero machine globals0))) = Some d
        /\ [(ZeDeviceGetMemoryProperties 11, (ZE_RESULT_SUCCESS, 42))]
           = ([] ++ [(ZeDeviceGetMemoryProperties d, (r, t))])%list
        /\ (ZE_RESULT_SUCCESS, Some (42, 42))
           = if is_success r
             then (ZE_RESULT_SUCCESS, Some (t, t))
             else (ZE_RESULT_ERROR_UNINITIALIZED, None)).
Proof.
  apply (X17_memGetInfo_reports_the_total_as_free unit machine obliging
           (mkApi globals0 tt [])
           (mkApi (snd (initLevelZero machine globals0)) tt
              [(ZeDeviceGetMemoryProperties 11, (ZE_RESULT_SUCCESS, 42))])
           true true ZE_RESULT_SUCCESS (Some (42, 42))).
  reflexivity.
Defined.

(** X19. [streamWaitEvent], [memcpyAsync] and [eventRecord] do not run
    [initLevelZero]: called with non-null arguments (and a non-zero count)
    while the device array has no element, as before any initialisation,
    they read [g_devices[0]] all the same and have no defined result. *)
Theorem X19_command_list_functions_do_not_initialise :
  forall (D : Type) (Dr : Driver D) (a : Api D)
         (stream event flags count : Z) (dst src : ptr),
    g_devices (globals a) = [] ->
    stream <> 0 -> event <> 0 -> dst <> nullptr -> src <> nullptr -> count <> 0 ->
    streamWaitEvent Dr stream event flags a = None
    /\ memcpyAsync Dr dst src count stream a = None
    /\ eventRecord Dr event stream a = None.
Proof.
  intros D Dr a stream event flags count dst src Hd Hs He Hdst Hsrc Hc.
  unfold streamWaitEvent, memcpyAsync, eventRecord. unfold_api.
  unfold nullptr in *.
  apply Z.eqb_neq in Hs, He, Hdst, Hsrc, Hc.
  rewrite Hs, He, Hdst, Hsrc, Hc. cbn [orb]. rewrite Hd. auto.
Qed.

Lemma X19_witness_before_any_initialisation :
  streamWaitEvent obliging 7 8 0 (mkApi globals0 tt []) = None
  /\ memcpyAsync obliging 1 2 4 7 (mkApi globals0 tt []) = None
  /\ eventRecord obliging 8 7 (mkApi globals0 tt []) = None.
Proof.
  apply (X19_command_list_functions_do_not_initialise unit obliging
           (mkApi globals0 tt []) 7 8 0 4 1 2);
    first [reflexivity | discriminate].
Defined.

(** X20. For a non-null event, [eventQuery] makes one driver call and
    returns its status unchanged, whatever the status is: the three
    branches on the status return the same value. *)
Theorem X20_eventQuery_passes_the_driver_status_on :
  forall (D : Type) (Dr : Driver D) (a : Api D) (event : Z),
    event <> 0 ->
    let reply := ze Dr (ZeEventQueryStatus event) (driver a) in
    eventQuery Dr event a
    = Some (fst (fst reply),
            mkApi (globals a) (snd reply)
              (calls a ++ [(ZeEventQueryStatus event, fst reply)])).
Proof.
  intros D Dr a event He. cbv zeta.
  unfold eventQuery. unfold_api. apply Z.eqb_neq in He. rewrite He.
  destruct (ze Dr (ZeEventQueryStatus event) (driver a)) as [[r v] d]. simpl_api.
  destruct r; reflexivity.
Qed.

Lemma X20_witness_event_8 :
  eventQuery obliging 8 (mkApi globals0 tt [])
  = Some (ZE_RESULT_SUCCESS,
          mkApi globals0 tt [(ZeEventQueryStatus 8, (ZE_RESULT_SUCCESS, 42))]).
Proof.
  apply (X20_eventQuery_passes_the_driver_status_on unit obliging
           (mkApi globals0 tt []) 8).
  discriminate.
Defined.
